(** * Masark engine: the personality scoring core

    A shallow embedding of the scoring services of the Masark
    personality-career matching engine:

    - [src/models/masark_models.py]               (module [Models])
    - [src/services/personality_scoring.py]       (module [Scoring])
    - [src/services/enhanced_personality_scoring.py] (module [Enhanced])

    Conventions of the embedding.

    - Python [int] is [Z].  Python [float] is an exact rational [Q], the
      number that the float approximates; equalities between floats are
      stated with [==].  The floats that the services compare with their
      thresholds are quotients [a / b] of counters, and the comparison of the
      float with a decimal literal agrees with the comparison of the
      rationals as long as [b] stays below 10^15.
    - [math.sqrt], [math.log] and [math.exp] are parameters of the enhanced
      service; [approx_sqrt] is a computable stand-in for [math.sqrt] with
      which the service is run on concrete sessions.
    - Python [dict]s that are only read by key are [gmap]s; dicts that the
      code iterates over ([.items()], [.values()]) are association lists in
      insertion order.
    - Exceptions are values of [error]; code that talks to the database runs
      in the state-and-error monad [M] over [World]. *)

From Stdlib Require Import ZArith QArith Qabs Lia Lqa Ascii.
From stdpp Require Import gmap strings sorting.

Local Open Scope Z_scope.

(** ** Exceptions and the two monads *)

Inductive value_error : Type :=
| SessionNotFound (session_id : Z)        (* "Session {id} not found" *)
| SessionNotCompleted (session_id : Z)    (* "Session {id} is not completed" *)
| ExpectedAnswers (got : nat)             (* "Expected 36 answers, got {n}" *)
| ExpectedResponses (got : nat)           (* "Expected 36 responses, got {n}" *)
| InvalidResponse (position : nat)        (* "Invalid response at position {i}" *)
| ExpectedActiveQuestions (found : nat).  (* "Expected 36 active questions, found {n}" *)

Inductive error : Type :=
| ValueError (e : value_error)
| StatisticsError
| DatabaseError.

(** Pure code that may raise. *)
Inductive res (A : Type) : Type :=
| Ok (a : A)
| Raise (e : error).
Arguments Ok {A} a.
Arguments Raise {A} e.

#[global] Instance res_ret : MRet res := λ A a, Ok a.
#[global] Instance res_bind : MBind res := λ A B f m,
  match m with Ok a => f a | Raise e => Raise e end.

(** [d[k]] on a constant dict is a total lookup; these are the defaults of
    keys the constant dicts do not have. *)
#[global] Instance Q_inhabited : Inhabited Q := populate 0%Q.

(** ** Python library functions used by the services *)

Module Py.

(** [a / b] on two ints (true division). *)
Definition truediv (a b : Z) : Q := (inject_Z a / inject_Z b)%Q.

(** [max(a, b)] keeps [a] unless [b] is strictly greater; [min(a, b)]
    keeps [a] unless [b] is strictly smaller. *)
Definition max (a b : Q) : Q := if Qlt_le_dec a b then b else a.
Definition min (a b : Q) : Q := if Qlt_le_dec b a then b else a.

Definition abs (a : Q) : Q := Qabs a.

Definition of_nat (n : nat) : Q := inject_Z (Z.of_nat n).

(** [s.replace(c, '')] for a one-character [c]. *)
Fixpoint str_remove (c : Ascii.ascii) (s : string) : string :=
  match s with
  | EmptyString => EmptyString
  | String a s' =>
      if Ascii.eqb a c then str_remove c s' else String a (str_remove c s')
  end.

(** [s[i]] as a one-character string ([IndexError] is not modelled: the
    services index two-letter keys at 0 and 1 only). *)
Definition str_index (s : string) (i : nat) : string :=
  match String.get i s with
  | Some a => String a EmptyString
  | None => EmptyString
  end.

(** [''.join(parts)]. *)
Definition str_join (parts : list string) : string := String.concat "" parts.

(** [sum(l)]. *)
Definition sum (l : list Q) : Q := foldl Qplus 0%Q l.

(** [statistics.mean]: raises on an empty data set. *)
Definition mean (data : list Q) : res Q :=
  match data with
  | [] => Raise StatisticsError
  | _ => Ok (sum data / of_nat (length data))%Q
  end.

(** [statistics.variance]: the sample variance, with denominator [n - 1];
    raises when there are fewer than two data points. *)
Definition variance (data : list Q) : res Q :=
  if (length data <? 2)%nat then Raise StatisticsError
  else
    let n := of_nat (length data) in
    let xbar := (sum data / n)%Q in
    let ss := sum (map (λ x, (x - xbar) * (x - xbar))%Q data) in
    Ok (ss / (n - 1))%Q.

End Py.

(** ** The data model, [masark_models.py] *)

Module Models.

Inductive PersonalityDimension : Type := EI | SN | TF | JP.

(** [PersonalityDimension.X.value] *)
Definition dimension_value (d : PersonalityDimension) : string :=
  match d with
  | EI => "E-I"
  | SN => "S-N"
  | TF => "T-F"
  | JP => "J-P"
  end.

Inductive PreferenceStrength : Type := SLIGHT | MODERATE | CLEAR | VERY_CLEAR.

(** [q_id] and [pt_id] are the [id] columns of their tables. *)
Record Question : Type := {
  q_id : Z;
  dimension : PersonalityDimension;
  option_a_maps_to_first : bool;
  is_active : bool
}.

Record PersonalityType : Type := {
  pt_id : Z;
  code : string;
  name_en : string
}.

(** The columns of [assessment_sessions] that the scoring services read or
    write.  A column that was never written holds [None]. *)
Record AssessmentSession : Type := {
  personality_type_id : option Z;
  e_strength : option Q;
  s_strength : option Q;
  t_strength : option Q;
  j_strength : option Q;
  ei_clarity : option PreferenceStrength;
  sn_clarity : option PreferenceStrength;
  tf_clarity : option PreferenceStrength;
  jp_clarity : option PreferenceStrength;
  is_completed : bool
}.

Record AssessmentAnswer : Type := {
  session_id : Z;
  question_id : Z;
  selected_option : string
}.

(** The tables behind the four [query]s of the services. *)
Record Database : Type := {
  sessions : gmap Z AssessmentSession;
  answers : list AssessmentAnswer;
  questions : list Question;
  personality_types : list PersonalityType
}.

End Models.
Import Models.

(** ** The world the services run in *)

(** The database, whether the next [db.session.commit()] goes through, and
    the outcomes still to be drawn from the global random generator
    ([true] stands for index 0 of the list handed to [random.choice]). *)
Record World : Type := {
  db : Database;
  commit_ok : bool;
  rng : nat → bool;
  rng_pos : nat
}.

Definition M (A : Type) : Type := World → res A * World.

#[global] Instance M_ret : MRet M := λ A a w, (Ok a, w).
#[global] Instance M_bind : MBind M := λ A B f m w,
  match m w with
  | (Ok a, w') => f a w'
  | (Raise e, w') => (Raise e, w')
  end.

Definition raise {A : Type} (e : error) : M A := λ w, (Raise e, w).

(** A pure computation that may raise, run inside [M]. *)
Definition lift {A : Type} (r : res A) : M A := λ w, (r, w).

(** [AssessmentSession.query.get(session_id)] *)
Definition query_session (sid : Z) : M (option AssessmentSession) :=
  λ w, (Ok (sessions (db w) !! sid), w).

(** [AssessmentAnswer.query.filter_by(session_id=session_id).all()] *)
Definition query_answers (sid : Z) : M (list AssessmentAnswer) :=
  λ w, (Ok (filter (λ a, session_id a = sid) (answers (db w))), w).

(** [Question.query.filter_by(is_active=True).all()] *)
Definition query_active_questions : M (list Question) :=
  λ w, (Ok (filter (λ q, is_active q = true) (questions (db w))), w).

(** [PersonalityType.query.filter_by(code=type_code).first()] *)
Definition query_personality_type (type_code : string) : M (option PersonalityType) :=
  λ w, (Ok (head (filter (λ t, code t = type_code) (personality_types (db w)))), w).

(** The attribute writes on the session object followed by
    [db.session.commit()], with the handler of the enclosing [try]: when the
    commit fails the handler calls [db.session.rollback()], which discards the
    pending attribute writes, and re-raises. *)
Definition commit_session (sid : Z) (s : AssessmentSession) : M unit :=
  λ w,
    if commit_ok w then
      (Ok tt,
       {| db := {| sessions := <[sid := s]> (sessions (db w));
                   answers := answers (db w);
                   questions := questions (db w);
                   personality_types := personality_types (db w) |};
          commit_ok := commit_ok w; rng := rng w; rng_pos := rng_pos w |})
    else (Raise DatabaseError, w).

(** [random.choice(['A', 'B'])] *)
Definition random_choice_AB : M string :=
  λ w,
    (Ok (if rng w (rng_pos w) then "A" else "B")%string,
     {| db := db w; commit_ok := commit_ok w; rng := rng w;
        rng_pos := S (rng_pos w) |}).

(** [{q.id: q for q in rows}] *)
Definition questions_by_id (rows : list Question) : gmap Z Question :=
  foldl (λ d q, <[q_id q := q]> d) ∅ rows.

(** [for x in xs: acc = body(acc, x)] where the body runs in [M]. *)
Fixpoint for_each {A B : Type} (body : A → B → M A) (acc : A) (xs : list B) : M A :=
  match xs with
  | [] => mret acc
  | x :: xs' => acc' ← body acc x; for_each body acc' xs'
  end.

(** ** The basic service, [personality_scoring.py] *)

Module Scoring.

Record PersonalityScores : Type := {
  e_score : Z;
  i_score : Z;
  s_score : Z;
  n_score : Z;
  t_score : Z;
  f_score : Z;
  j_score : Z;
  p_score : Z
}.

(** [PersonalityScores()] *)
Definition no_scores : PersonalityScores :=
  {| e_score := 0; i_score := 0; s_score := 0; n_score := 0;
     t_score := 0; f_score := 0; j_score := 0; p_score := 0 |}.

Record PersonalityResult : Type := {
  personality_type : string;
  type_code : string;
  dimension_scores : PersonalityScores;
  preference_strengths : gmap string Q;
  preference_clarity : gmap string PreferenceStrength;
  borderline_dimensions : list string;
  total_questions_per_dimension : gmap string Z
}.

Definition TIE_BREAKING_RULES : gmap string string :=
  <["JP" := "P"]> (<["TF" := "F"]> (<["SN" := "N"]> (<["EI" := "I"]> ∅))).

Definition STRENGTH_THRESHOLDS (k : PreferenceStrength) : Q :=
  match k with
  | SLIGHT => 0.60
  | MODERATE => 0.75
  | CLEAR => 0.90
  | VERY_CLEAR => 1.0
  end.

(** [(selected_option == 'A' and question.option_a_maps_to_first) or
     (selected_option == 'B' and not question.option_a_maps_to_first)] *)
Definition maps_to_first (selected_option : string) (question : Question) : bool :=
  (String.eqb selected_option "A" && option_a_maps_to_first question)
  || (String.eqb selected_option "B" && negb (option_a_maps_to_first question)).

(** The [if dimension == ...: ... elif ...] ladder that increments one of
    the eight counters. *)
Definition increment (scores : PersonalityScores) (dim : PersonalityDimension)
    (first : bool) : PersonalityScores :=
  let '{| e_score := e; i_score := i; s_score := s; n_score := n;
          t_score := t; f_score := f; j_score := j; p_score := p |} := scores in
  match dim, first with
  | EI, true  => {| e_score := e + 1; i_score := i; s_score := s; n_score := n;
                    t_score := t; f_score := f; j_score := j; p_score := p |}
  | EI, false => {| e_score := e; i_score := i + 1; s_score := s; n_score := n;
                    t_score := t; f_score := f; j_score := j; p_score := p |}
  | SN, true  => {| e_score := e; i_score := i; s_score := s + 1; n_score := n;
                    t_score := t; f_score := f; j_score := j; p_score := p |}
  | SN, false => {| e_score := e; i_score := i; s_score := s; n_score := n + 1;
                    t_score := t; f_score := f; j_score := j; p_score := p |}
  | TF, true  => {| e_score := e; i_score := i; s_score := s; n_score := n;
                    t_score := t + 1; f_score := f; j_score := j; p_score := p |}
  | TF, false => {| e_score := e; i_score := i; s_score := s; n_score := n;
                    t_score := t; f_score := f + 1; j_score := j; p_score := p |}
  | JP, true  => {| e_score := e; i_score := i; s_score := s; n_score := n;
                    t_score := t; f_score := f; j_score := j + 1; p_score := p |}
  | JP, false => {| e_score := e; i_score := i; s_score := s; n_score := n;
                    t_score := t; f_score := f; j_score := j; p_score := p + 1 |}
  end.

(** One iteration of the loop of [_calculate_dimension_scores]. *)
Definition score_answer (questions : gmap Z Question)
    (scores : PersonalityScores) (answer : AssessmentAnswer) : PersonalityScores :=
  match questions !! question_id answer with
  | None => scores                                   (* [continue] *)
  | Some question =>
      increment scores (dimension question)
        (maps_to_first (selected_option answer) question)
  end.

Definition _calculate_dimension_scores (answers : list AssessmentAnswer)
    (questions : gmap Z Question) : PersonalityScores :=
  foldl (score_answer questions) no_scores answers.

Definition _determine_personality_type (scores : PersonalityScores) : string :=
  let type_letters : list string := [] in
  let type_letters :=
    if e_score scores >? i_score scores then type_letters ++ ["E"]
    else if i_score scores >? e_score scores then type_letters ++ ["I"]
    else type_letters ++ [TIE_BREAKING_RULES !!! "EI"] in
  let type_letters :=
    if s_score scores >? n_score scores then type_letters ++ ["S"]
    else if n_score scores >? s_score scores then type_letters ++ ["N"]
    else type_letters ++ [TIE_BREAKING_RULES !!! "SN"] in
  let type_letters :=
    if t_score scores >? f_score scores then type_letters ++ ["T"]
    else if f_score scores >? t_score scores then type_letters ++ ["F"]
    else type_letters ++ [TIE_BREAKING_RULES !!! "TF"] in
  let type_letters :=
    if j_score scores >? p_score scores then type_letters ++ ["J"]
    else if p_score scores >? j_score scores then type_letters ++ ["P"]
    else type_letters ++ [TIE_BREAKING_RULES !!! "JP"] in
  Py.str_join type_letters.

Definition _calculate_preference_strengths (scores : PersonalityScores) : gmap string Q :=
  let strengths : gmap string Q := ∅ in
  let ei_total := e_score scores + i_score scores in
  let sn_total := s_score scores + n_score scores in
  let tf_total := t_score scores + f_score scores in
  let jp_total := j_score scores + p_score scores in
  let strengths :=
    if ei_total >? 0 then
      <["I" := Py.truediv (i_score scores) ei_total]>
        (<["E" := Py.truediv (e_score scores) ei_total]> strengths)
    else strengths in
  let strengths :=
    if sn_total >? 0 then
      <["N" := Py.truediv (n_score scores) sn_total]>
        (<["S" := Py.truediv (s_score scores) sn_total]> strengths)
    else strengths in
  let strengths :=
    if tf_total >? 0 then
      <["F" := Py.truediv (f_score scores) tf_total]>
        (<["T" := Py.truediv (t_score scores) tf_total]> strengths)
    else strengths in
  let strengths :=
    if jp_total >? 0 then
      <["P" := Py.truediv (p_score scores) jp_total]>
        (<["J" := Py.truediv (j_score scores) jp_total]> strengths)
    else strengths in
  strengths.

(** [strengths.get(key, 0)] *)
Definition get_strength (strengths : gmap string Q) (key : string) : Q :=
  default 0%Q (strengths !! key).

(** The list [dimensions] built by [_calculate_preference_clarity] and by
    [_identify_borderline_dimensions]: each pair with the strength of its
    dominant letter. *)
Definition dominant_strengths (strengths : gmap string Q) : list (string * Q) :=
  [ ("EI", Py.max (get_strength strengths "E") (get_strength strengths "I"));
    ("SN", Py.max (get_strength strengths "S") (get_strength strengths "N"));
    ("TF", Py.max (get_strength strengths "T") (get_strength strengths "F"));
    ("JP", Py.max (get_strength strengths "J") (get_strength strengths "P")) ]%string.

Definition _calculate_preference_clarity (strengths : gmap string Q)
    : gmap string PreferenceStrength :=
  foldl
    (λ (clarity : gmap string PreferenceStrength) '(dim_name, strength),
       if Qlt_le_dec strength (STRENGTH_THRESHOLDS SLIGHT) then
         <[dim_name := SLIGHT]> clarity
       else if Qlt_le_dec strength (STRENGTH_THRESHOLDS MODERATE) then
         <[dim_name := MODERATE]> clarity
       else if Qlt_le_dec strength (STRENGTH_THRESHOLDS CLEAR) then
         <[dim_name := CLEAR]> clarity
       else
         <[dim_name := VERY_CLEAR]> clarity)
    ∅ (dominant_strengths strengths).

Definition _identify_borderline_dimensions (strengths : gmap string Q)
    (threshold : Q) : list string :=
  foldl
    (λ (borderline : list string) '(dim_name, strength),
       if Qlt_le_dec strength threshold then borderline ++ [dim_name]
       else borderline)
    [] (dominant_strengths strengths).

(** The default of the [threshold] argument. *)
Definition default_threshold : Q := 0.55.

Definition _count_questions_per_dimension (questions : list Question)
    : gmap string Z :=
  let counts : gmap string Z :=
    <["JP" := 0]> (<["TF" := 0]> (<["SN" := 0]> (<["EI" := 0]> ∅))) in
  foldl
    (λ (counts : gmap string Z) question,
       let dim_key := Py.str_remove "-"%char (dimension_value (dimension question)) in
       if decide (is_Some (counts !! dim_key)) then
         alter (λ c, c + 1) dim_key counts
       else counts)
    counts questions.

(** The attribute writes of [_update_session_with_results] on the session
    object. *)
Definition write_results (session : AssessmentSession)
    (personality_type : option PersonalityType) (result : PersonalityResult)
    : AssessmentSession :=
  let strengths := preference_strengths result in
  let clarity := preference_clarity result in
  {| personality_type_id :=
       match personality_type with
       | Some t => Some (pt_id t)
       | None => personality_type_id session
       end;
     e_strength := Some (default 0.0%Q (strengths !! "E"));
     s_strength := Some (default 0.0%Q (strengths !! "S"));
     t_strength := Some (default 0.0%Q (strengths !! "T"));
     j_strength := Some (default 0.0%Q (strengths !! "J"));
     ei_clarity := clarity !! "EI";
     sn_clarity := clarity !! "SN";
     tf_clarity := clarity !! "TF";
     jp_clarity := clarity !! "JP";
     is_completed := is_completed session |}.

Definition _update_session_with_results (sid : Z) (session : AssessmentSession)
    (result : PersonalityResult) : M unit :=
  personality_type ← query_personality_type (type_code result);
  commit_session sid (write_results session personality_type result).

(** [personality_type.name_en if personality_type else f"Type {type_code}"] *)
Definition type_name_of (personality_type : option PersonalityType)
    (type_code : string) : string :=
  match personality_type with
  | Some t => name_en t
  | None => "Type " +:+ type_code
  end.

Definition calculate_personality_type (sid : Z) : M PersonalityResult :=
  session ← query_session sid;
  match session with
  | None => raise (ValueError (SessionNotFound sid))
  | Some session =>
      if negb (is_completed session) then
        raise (ValueError (SessionNotCompleted sid))
      else
        answers ← query_answers sid;
        if negb (length answers =? 36)%nat then
          raise (ValueError (ExpectedAnswers (length answers)))
        else
          rows ← query_active_questions;
          let questions := questions_by_id rows in
          let scores := _calculate_dimension_scores answers questions in
          let type_code := _determine_personality_type scores in
          let strengths := _calculate_preference_strengths scores in
          let clarity := _calculate_preference_clarity strengths in
          let borderline := _identify_borderline_dimensions strengths default_threshold in
          let questions_per_dimension :=
            _count_questions_per_dimension (map_to_list questions).*2 in
          personality_type ← query_personality_type type_code;
          let type_name := type_name_of personality_type type_code in
          let result :=
            {| personality_type := type_name;
               type_code := type_code;
               dimension_scores := scores;
               preference_strengths := strengths;
               preference_clarity := clarity;
               borderline_dimensions := borderline;
               total_questions_per_dimension := questions_per_dimension |} in
          _update_session_with_results sid session result;;
          mret result
  end.

(** An element of the list handed to the raw entry point: an [int], or an
    object of another type. *)
Inductive py_value : Type :=
| PyInt (z : Z)
| PyOther.

(** The validation loop over [enumerate(responses)]: raises at the first
    position that holds a non-int or an int outside 1..5. *)
Fixpoint validate_responses (i : nat) (responses : list py_value) : res (list Z) :=
  match responses with
  | [] => Ok []
  | PyOther :: _ => Raise (ValueError (InvalidResponse i))
  | PyInt response :: rest =>
      if (response <? 1) || (response >? 5) then
        Raise (ValueError (InvalidResponse i))
      else
        rest' ← validate_responses (S i) rest; Ok (response :: rest')
  end.

(** One iteration of the loop over [zip(responses, questions)]. *)
Definition score_response (scores : PersonalityScores)
    (pair : Z * Question) : M PersonalityScores :=
  let '(response, question) := pair in
  selected_option ←
    (if response <=? 2 then mret "A"%string
     else if response >=? 4 then mret "B"%string
     else random_choice_AB);
  mret (increment scores (dimension question)
          (maps_to_first selected_option question)).

(** The order of [order_by(Question.id)]. *)
Definition by_id (a b : Question) : Prop := q_id a ≤ q_id b.

#[global] Instance by_id_dec : RelDecision by_id :=
  λ a b, decide (q_id a ≤ q_id b).

(** [Question.query.filter_by(is_active=True).order_by(Question.id).all()] *)
Definition query_active_questions_by_id : M (list Question) :=
  rows ← query_active_questions;
  mret (merge_sort by_id rows).

Definition calculate_personality_type_from_responses
    (responses : list py_value) : M PersonalityResult :=
  if negb (length responses =? 36)%nat then
    raise (ValueError (ExpectedResponses (length responses)))
  else
    ints ← lift (validate_responses 0 responses);
    questions ← query_active_questions_by_id;
    if negb (length questions =? 36)%nat then
      raise (ValueError (ExpectedActiveQuestions (length questions)))
    else
      scores ← for_each score_response no_scores (zip ints questions);
      let type_code := _determine_personality_type scores in
      let strengths := _calculate_preference_strengths scores in
      let clarity := _calculate_preference_clarity strengths in
      let borderline := _identify_borderline_dimensions strengths default_threshold in
      let questions_per_dimension := _count_questions_per_dimension questions in
      personality_type ← query_personality_type type_code;
      let type_name := type_name_of personality_type type_code in
      mret {| personality_type := type_name;
              type_code := type_code;
              dimension_scores := scores;
              preference_strengths := strengths;
              preference_clarity := clarity;
              borderline_dimensions := borderline;
              total_questions_per_dimension := questions_per_dimension |}.

End Scoring.

(** ** Dicts that are iterated: association lists in insertion order *)

Module Dict.

Definition t (V : Type) : Type := list (string * V).

(** [d.get(k)] *)
Fixpoint get {V : Type} (d : t V) (k : string) : option V :=
  match d with
  | [] => None
  | (k', v) :: d' => if String.eqb k' k then Some v else get d' k
  end.

(** [d[k] = f(d[k])] for a key that is present; the key keeps its place. *)
Fixpoint update {V : Type} (d : t V) (k : string) (f : V → V) : t V :=
  match d with
  | [] => []
  | (k', v) :: d' =>
      if String.eqb k' k then (k', f v) :: d' else (k', v) :: update d' k f
  end.

(** [d[k] = v]: a new key goes to the end. *)
Fixpoint set {V : Type} (d : t V) (k : string) (v : V) : t V :=
  match d with
  | [] => [(k, v)]
  | (k', v') :: d' =>
      if String.eqb k' k then (k', v) :: d' else (k', v') :: set d' k v
  end.

(** [list(d.values())] *)
Definition values {V : Type} (d : t V) : list V := d.*2.

(** A dict built by a comprehension over [d.items()], then only read by
    key. *)
Definition to_gmap {V W : Type} (f : V → W) (d : t V) : gmap string W :=
  foldl (λ m '(k, v), <[k := f v]> m) ∅ d.

End Dict.

(** A computable stand-in for [math.sqrt], used to run the enhanced service
    on concrete sessions: the square root of a positive rational rounded down
    to 60 binary digits after the point of its numerator. *)
Definition sqrt_digits : positive := (2 ^ 60)%positive.

Definition approx_sqrt (x : Q) : Q :=
  if Qlt_le_dec 0 x then
    Z.sqrt (Qnum x * Zpos (Qden x) * (Zpos sqrt_digits * Zpos sqrt_digits))
      # (Qden x * sqrt_digits)
  else 0%Q.

(** ** The enhanced service, [enhanced_personality_scoring.py] *)

Module Enhanced.

Local Open Scope Q_scope.

Record StatisticalMetrics : Type := {
  internal_consistency : Q;
  response_consistency : Q;
  extreme_response_bias : Q;
  acquiescence_bias : Q;
  response_time_variance : Q;
  confidence_interval : Q * Q
}.

Record DimensionAnalysis : Type := {
  dimension : string;
  raw_score : Z;
  total_questions : Z;
  percentage : Q;
  preference_letter : string;
  strength_category : PreferenceStrength;
  confidence_level : Q;
  standard_error : Q;
  z_score : Q
}.

Record EnhancedPersonalityResult : Type := {
  personality_type : string;
  type_code : string;
  type_confidence : Q;
  dimension_analyses : Dict.t DimensionAnalysis;
  statistical_metrics : StatisticalMetrics;
  borderline_dimensions : list string;
  type_stability_prediction : Q;
  assessment_quality_score : Q;
  retesting_recommended : bool;
  areas_for_exploration : list string;
  confidence_notes : list string;
  preference_strengths : gmap string Q;
  preference_clarity : gmap string PreferenceStrength
}.

Definition TIE_BREAKING_RULES : gmap string (string * Q) :=
  <["JP" := ("P"%string, 0.51)]> (<["TF" := ("F"%string, 0.51)]>
    (<["SN" := ("N"%string, 0.51)]> (<["EI" := ("I"%string, 0.51)]> ∅))).

Definition PROFESSIONAL_THRESHOLDS (k : PreferenceStrength) : Q :=
  match k with
  | SLIGHT => 0.56
  | MODERATE => 0.66
  | CLEAR => 0.76
  | VERY_CLEAR => 0.86
  end.

Definition QUALITY_THRESHOLDS : gmap string Q :=
  <["questionable" := 0.40]> (<["acceptable" := 0.55]>
    (<["good" := 0.70]> (<["excellent" := 0.85]> ∅))).

(** [question.dimension.value.replace('-', '')] *)
Definition dimension_key (question : Question) : string :=
  Py.str_remove "-"%char (dimension_value (Models.dimension question)).

(** [1 if answer.selected_option == 'A' else 0] *)
Definition numeric_response (answer : AssessmentAnswer) : Q :=
  if String.eqb (selected_option answer) "A" then 1 else 0.

(** [d[k] += 1] on a dict of counters. *)
Definition bump (k : string) (d : gmap string Z) : gmap string Z :=
  alter (λ c, (c + 1)%Z) k d.

(** One iteration of the counting loop of [_calculate_dimensional_analyses]. *)
Definition count_answer (questions : gmap Z Question)
    (dimension_scores : Dict.t (gmap string Z)) (answer : AssessmentAnswer)
    : Dict.t (gmap string Z) :=
  match questions !! question_id answer with
  | None => dimension_scores                                  (* [continue] *)
  | Some question =>
      let dimension := dimension_key question in
      match Dict.get dimension_scores dimension with
      | None => dimension_scores                              (* [continue] *)
      | Some _ =>
          let dimension_scores :=
            Dict.update dimension_scores dimension (bump "total") in
          let maps_to_first := Scoring.maps_to_first (selected_option answer) question in
          if String.eqb dimension "EI" then
            Dict.update dimension_scores dimension
              (bump (if maps_to_first then "E" else "I"))
          else if String.eqb dimension "SN" then
            Dict.update dimension_scores dimension
              (bump (if maps_to_first then "S" else "N"))
          else if String.eqb dimension "TF" then
            Dict.update dimension_scores dimension
              (bump (if maps_to_first then "T" else "F"))
          else if String.eqb dimension "JP" then
            Dict.update dimension_scores dimension
              (bump (if maps_to_first then "J" else "P"))
          else dimension_scores
      end
  end.

(** The initial value of [dimension_scores]. *)
Definition no_counts : Dict.t (gmap string Z) :=
  [ ("EI", <["total" := 0%Z]> (<["I" := 0%Z]> (<["E" := 0%Z]> ∅)));
    ("SN", <["total" := 0%Z]> (<["N" := 0%Z]> (<["S" := 0%Z]> ∅)));
    ("TF", <["total" := 0%Z]> (<["F" := 0%Z]> (<["T" := 0%Z]> ∅)));
    ("JP", <["total" := 0%Z]> (<["P" := 0%Z]> (<["J" := 0%Z]> ∅))) ]%string.

Definition count_answers (answers : list AssessmentAnswer)
    (questions : gmap Z Question) : Dict.t (gmap string Z) :=
  foldl (count_answer questions) no_counts answers.

Definition _calculate_z_score (percentage : Q) : Q := (percentage - 0.5) / 0.5.

Definition _determine_strength_category (percentage : Q) : PreferenceStrength :=
  if Qlt_le_dec percentage (PROFESSIONAL_THRESHOLDS SLIGHT) then SLIGHT
  else if Qlt_le_dec percentage (PROFESSIONAL_THRESHOLDS MODERATE) then MODERATE
  else if Qlt_le_dec percentage (PROFESSIONAL_THRESHOLDS CLEAR) then CLEAR
  else VERY_CLEAR.

Definition _should_recommend_retesting (quality_score type_confidence : Q) : bool :=
  (if Qlt_le_dec quality_score (QUALITY_THRESHOLDS !!! "acceptable") then true else false)
  || (if Qlt_le_dec type_confidence 0.6 then true else false).

Definition _get_quality_level (quality_score : Q) : string :=
  if Qlt_le_dec quality_score (QUALITY_THRESHOLDS !!! "excellent") then
    if Qlt_le_dec quality_score (QUALITY_THRESHOLDS !!! "good") then
      if Qlt_le_dec quality_score (QUALITY_THRESHOLDS !!! "acceptable") then
        "Questionable"
      else "Acceptable"
    else "Good"
  else "Excellent".

(** The number of runs counted by the loop over [range(1, len(pattern))]. *)
Fixpoint count_runs (runs : Z) (pattern : list Q) : Z :=
  match pattern with
  | previous :: ((current :: _) as rest) =>
      count_runs (if Qeq_bool current previous then runs else (runs + 1)%Z) rest
  | _ => runs
  end.

Definition _calculate_response_consistency (answers : list AssessmentAnswer)
    (questions : gmap Z Question) : Q :=
  let response_pattern := map numeric_response answers in
  let runs := count_runs 1 response_pattern in
  let expected_runs := Py.of_nat (length response_pattern) / 2 in
  let run_ratio :=
    if Qlt_le_dec 0 expected_runs then inject_Z runs / expected_runs else 1 in
  let consistency := 1 - Py.abs (run_ratio - 1) in
  Py.max 0.0 (Py.min 1.0 consistency).

Definition _calculate_extreme_response_bias (answers : list AssessmentAnswer) : Q :=
  match answers with
  | [] => 0.0
  | _ =>
      let a_count :=
        Z.of_nat (length (filter (λ a, selected_option a = "A"%string) answers)) in
      let total_count := Z.of_nat (length answers) in
      let a_ratio := Py.truediv a_count total_count in
      Py.abs (a_ratio - 0.5) * 2
  end.

Definition _calculate_acquiescence_bias (answers : list AssessmentAnswer)
    (questions : gmap Z Question) : Q :=
  match answers with
  | [] => 0.0
  | _ =>
      let '(first_trait_choices, total_mappable) :=
        foldl
          (λ '(first_trait_choices, total_mappable) answer,
             match questions !! question_id answer with
             | Some question =>
                 if Scoring.maps_to_first (selected_option answer) question
                 then ((first_trait_choices + 1)%Z, (total_mappable + 1)%Z)
                 else (first_trait_choices, (total_mappable + 1)%Z)
             | None => (first_trait_choices, total_mappable)
             end)
          (0%Z, 0%Z) answers in
      if (total_mappable =? 0)%Z then 0.0
      else
        let first_trait_ratio := Py.truediv first_trait_choices total_mappable in
        Py.abs (first_trait_ratio - 0.5) * 2
  end.

(** The grouping loop of [_calculate_internal_consistency]. *)
Definition group_response (questions : gmap Z Question)
    (dimension_responses : Dict.t (list Q)) (answer : AssessmentAnswer)
    : Dict.t (list Q) :=
  match questions !! question_id answer with
  | Some question =>
      let dimension := dimension_key question in
      match Dict.get dimension_responses dimension with
      | Some _ =>
          Dict.update dimension_responses dimension
            (λ responses, responses ++ [numeric_response answer])
      | None => dimension_responses
      end
  | None => dimension_responses
  end.

Definition _calculate_internal_consistency (answers : list AssessmentAnswer)
    (questions : gmap Z Question) : res Q :=
  let dimension_responses : Dict.t (list Q) :=
    [("EI", []); ("SN", []); ("TF", []); ("JP", [])]%string in
  let dimension_responses :=
    foldl (group_response questions) dimension_responses answers in
  consistencies ←
    foldl
      (λ (acc : res (list Q)) '(dim, responses),
         consistencies ← acc;
         if (1 <? length responses)%nat then
           mean_response ← Py.mean responses;
           variance ←
             (if (1 <? length responses)%nat then Py.variance responses else Ok 0);
           let max_variance := 0.25 in
           let consistency :=
             if Qlt_le_dec 0 max_variance then 1 - (variance / max_variance) else 1 in
           Ok (consistencies ++ [consistency])
         else Ok consistencies)
      (Ok []) dimension_responses;
  match consistencies with
  | [] => Ok 0.5
  | _ => Py.mean consistencies
  end.

Section WithMath.

(** [math.sqrt], [math.log] and [math.exp].  [math.sqrt] is only called
    on [p * (1 - p) / n] with [0 <= p <= 1], and [math.log] only on
    positive numbers, so their domain errors are not modelled. *)
Variable math_sqrt : Q → Q.
Variable math_log : Q → Q.
Variable math_exp : Q → Q.

(** [statistics.geometric_mean], which is
    [exp(fmean(map(log, data)))] and raises when the data set is empty or
    holds a zero or a negative number. *)
Definition geometric_mean (data : list Q) : res Q :=
  match data with
  | [] => Raise StatisticsError
  | _ =>
      if forallb (λ x, if Qlt_le_dec 0 x then true else false) data then
        Ok (math_exp (Py.sum (map math_log data) / Py.of_nat (length data)))
      else Raise StatisticsError
  end.

(** [statistics.stdev]: the square root of the sample variance. *)
Definition stdev (data : list Q) : res Q :=
  variance ← Py.variance data; Ok (math_sqrt variance).

Definition _calculate_confidence_level (raw_score total_questions : Z) : Q :=
  if (total_questions =? 0)%Z then 0.0
  else
    let p := Py.truediv raw_score total_questions in
    let confidence :=
      if (total_questions >? 5)%Z then
        let z_95 := 1.96 in
        let margin_error := z_95 * math_sqrt (p * (1 - p) / inject_Z total_questions) in
        let distance_from_neutral := Py.abs (p - 0.5) in
        if Qlt_le_dec 0 margin_error
        then Py.min 1.0 (distance_from_neutral / margin_error)
        else 1.0
      else Py.abs (p - 0.5) * 2 in
    Py.max 0.0 (Py.min 1.0 confidence).

Definition _calculate_standard_error (percentage : Q) (n : Z) : Q :=
  if (n =? 0)%Z then 1.0
  else math_sqrt (percentage * (1 - percentage) / inject_Z n).

(** One iteration of the loop over [dimension_scores.items()]. *)
Definition analyse_dimension (analyses : Dict.t DimensionAnalysis)
    (item : string * gmap string Z) : Dict.t DimensionAnalysis :=
  let '(dim_key, scores) := item in
  if (scores !!! "total"%string =? 0)%Z then analyses          (* [continue] *)
  else
    let first_letter := Py.str_index dim_key 0 in
    let second_letter := Py.str_index dim_key 1 in
    let first_score := default 0%Z (scores !! first_letter) in
    let second_score := default 0%Z (scores !! second_letter) in
    let '(preference_letter, raw_score) :=
      if (first_score >=? second_score)%Z then (first_letter, first_score)
      else (second_letter, second_score) in
    let percentage := Py.truediv raw_score (scores !!! "total"%string) in
    let confidence_level :=
      _calculate_confidence_level raw_score (scores !!! "total"%string) in
    let standard_error :=
      _calculate_standard_error percentage (scores !!! "total"%string) in
    let z_score := _calculate_z_score percentage in
    let strength_category := _determine_strength_category percentage in
    Dict.set analyses dim_key
      {| dimension := dim_key;
         raw_score := raw_score;
         total_questions := scores !!! "total"%string;
         percentage := percentage;
         preference_letter := preference_letter;
         strength_category := strength_category;
         confidence_level := confidence_level;
         standard_error := standard_error;
         z_score := z_score |}.

Definition _calculate_dimensional_analyses (answers : list AssessmentAnswer)
    (questions : gmap Z Question) : Dict.t DimensionAnalysis :=
  let dimension_scores := count_answers answers questions in
  foldl analyse_dimension [] dimension_scores.

Definition _determine_type_with_confidence
    (dimension_analyses : Dict.t DimensionAnalysis) : res (string * Q) :=
  let '(type_letters, confidence_scores) :=
    foldl
      (λ '(type_letters, confidence_scores) dim_key,
         match Dict.get dimension_analyses dim_key with
         | Some analysis =>
             (type_letters ++ [preference_letter analysis],
              confidence_scores ++ [confidence_level analysis])
         | None =>
             let '(default_letter, default_confidence) :=
               TIE_BREAKING_RULES !!! dim_key in
             (type_letters ++ [default_letter],
              confidence_scores ++ [default_confidence])
         end)
      (([] : list string), ([] : list Q))
      ["EI"; "SN"; "TF"; "JP"]%string in
  let type_code := Py.str_join type_letters in
  overall_confidence ←
    match confidence_scores with
    | [] => Ok 0.5
    | _ => geometric_mean confidence_scores
    end;
  Ok (type_code, overall_confidence).

Definition _calculate_statistical_metrics (answers : list AssessmentAnswer)
    (questions : gmap Z Question)
    (dimension_analyses : Dict.t DimensionAnalysis) : res StatisticalMetrics :=
  internal_consistency ← _calculate_internal_consistency answers questions;
  let response_consistency := _calculate_response_consistency answers questions in
  let extreme_response_bias := _calculate_extreme_response_bias answers in
  let acquiescence_bias := _calculate_acquiescence_bias answers questions in
  let response_time_variance := 0.5 in
  let confidence_scores := map confidence_level (Dict.values dimension_analyses) in
  confidence_interval ←
    match confidence_scores with
    | [] => Ok (0.0, 1.0)
    | _ =>
        mean_confidence ← Py.mean confidence_scores;
        std_confidence ←
          (if (1 <? length confidence_scores)%nat then stdev confidence_scores
           else Ok 0.1);
        Ok (Py.max 0.0 (mean_confidence - 1.96 * std_confidence),
            Py.min 1.0 (mean_confidence + 1.96 * std_confidence))
    end;
  Ok {| internal_consistency := internal_consistency;
        response_consistency := response_consistency;
        extreme_response_bias := extreme_response_bias;
        acquiescence_bias := acquiescence_bias;
        response_time_variance := response_time_variance;
        confidence_interval := confidence_interval |}.

Definition _identify_borderline_dimensions_enhanced
    (dimension_analyses : Dict.t DimensionAnalysis) : list string :=
  foldl
    (λ (borderline : list string) '(dim_key, analysis),
       let close_to_neutral :=
         if Qlt_le_dec (Py.abs (percentage analysis - 0.5)) 0.1 then true else false in
       let low_confidence :=
         if Qlt_le_dec (confidence_level analysis) 0.7 then true else false in
       let high_uncertainty :=
         if Qlt_le_dec 0.15 (standard_error analysis) then true else false in
       if close_to_neutral || (low_confidence && high_uncertainty)
       then borderline ++ [dim_key] else borderline)
    [] dimension_analyses.

Definition _predict_type_stability
    (dimension_analyses : Dict.t DimensionAnalysis)
    (statistical_metrics : StatisticalMetrics) : res Q :=
  let strength_scores := map percentage (Dict.values dimension_analyses) in
  let confidence_scores := map confidence_level (Dict.values dimension_analyses) in
  match strength_scores, confidence_scores with
  | [], _ | _, [] => Ok 0.5
  | _, _ =>
      avg_strength ←
        Py.mean (map (λ score, Py.abs (score - 0.5) * 2) strength_scores);
      avg_confidence ← Py.mean confidence_scores;
      let stat_quality :=
        (internal_consistency statistical_metrics
         + response_consistency statistical_metrics) / 2 in
      let bias_penalty :=
        (extreme_response_bias statistical_metrics
         + acquiescence_bias statistical_metrics) / 2 in
      let stability :=
        avg_strength * 0.4 + avg_confidence * 0.3 + stat_quality * 0.2
        - bias_penalty * 0.1 in
      Ok (Py.max 0.0 (Py.min 1.0 stability))
  end.

Definition _calculate_assessment_quality
    (statistical_metrics : StatisticalMetrics)
    (dimension_analyses : Dict.t DimensionAnalysis) : res Q :=
  let quality_factors :=
    [ internal_consistency statistical_metrics;
      response_consistency statistical_metrics;
      1 - extreme_response_bias statistical_metrics;
      1 - acquiescence_bias statistical_metrics ] in
  quality_factors ←
    match dimension_analyses with
    | [] => Ok quality_factors
    | _ =>
        avg_confidence ←
          Py.mean (map confidence_level (Dict.values dimension_analyses));
        Ok (quality_factors ++ [avg_confidence])
    end;
  Py.mean quality_factors.

Definition _identify_exploration_areas
    (dimension_analyses : Dict.t DimensionAnalysis)
    (borderline_dims : list string) : list string :=
  let areas :=
    foldl
      (λ (areas : list string) dim_key,
         if String.eqb dim_key "EI" then
           areas ++ ["Social energy and interaction preferences"%string]
         else if String.eqb dim_key "SN" then
           areas ++ ["Information processing and focus preferences"%string]
         else if String.eqb dim_key "TF" then
           areas ++ ["Decision-making and value systems"%string]
         else if String.eqb dim_key "JP" then
           areas ++ ["Lifestyle and structure preferences"%string]
         else areas)
      [] borderline_dims in
  foldl
    (λ (areas : list string) '(dim_key, analysis),
       if (if Qlt_le_dec (confidence_level analysis) 0.5 then true else false)
          && negb (bool_decide (dim_key ∈ borderline_dims))
       then areas ++ ["Further clarification needed for " +:+ dim_key +:+ " dimension"]
       else areas)
    areas dimension_analyses.

Definition _generate_confidence_notes
    (dimension_analyses : Dict.t DimensionAnalysis)
    (statistical_metrics : StatisticalMetrics) : res (list string) :=
  quality_score ← _calculate_assessment_quality statistical_metrics dimension_analyses;
  let notes : list string :=
    if Qlt_le_dec quality_score (QUALITY_THRESHOLDS !!! "excellent") then
      if Qlt_le_dec quality_score (QUALITY_THRESHOLDS !!! "good") then
        if Qlt_le_dec quality_score (QUALITY_THRESHOLDS !!! "acceptable") then
          ["Assessment quality concerns - consider retesting for more reliable results"%string]
        else
          ["Acceptable assessment quality - results are generally reliable"%string]
      else ["Good assessment quality with reliable results"%string]
    else ["Excellent assessment quality with high reliability"%string] in
  let notes :=
    if Qlt_le_dec 0.7 (extreme_response_bias statistical_metrics) then
      notes ++ ["Strong response bias detected - results may be less reliable"%string]
    else notes in
  let notes :=
    if Qlt_le_dec (internal_consistency statistical_metrics) 0.6 then
      notes ++ ["Low internal consistency - some responses may be inconsistent"%string]
    else notes in
  Ok (foldl
        (λ (notes : list string) '(dim_key, analysis),
           if Qlt_le_dec (confidence_level analysis) 0.5 then
             notes ++ ["Low confidence in " +:+ dim_key
                       +:+ " dimension - consider additional assessment"]
           else
             match strength_category analysis with
             | VERY_CLEAR =>
                 notes ++ ["Very clear preference in " +:+ dim_key +:+ " dimension"]
             | _ => notes
             end)
        notes dimension_analyses).

(** The attribute writes of [_update_session_with_enhanced_results] on
    the session object. *)
Definition write_results (session : AssessmentSession)
    (personality_type : option PersonalityType)
    (result : EnhancedPersonalityResult) : AssessmentSession :=
  {| personality_type_id :=
       match personality_type with
       | Some t => Some (pt_id t)
       | None => personality_type_id session
       end;
     e_strength := Some (default 0.0 (preference_strengths result !! "E"));
     s_strength := Some (default 0.0 (preference_strengths result !! "S"));
     t_strength := Some (default 0.0 (preference_strengths result !! "T"));
     j_strength := Some (default 0.0 (preference_strengths result !! "J"));
     ei_clarity := preference_clarity result !! "EI";
     sn_clarity := preference_clarity result !! "SN";
     tf_clarity := preference_clarity result !! "TF";
     jp_clarity := preference_clarity result !! "JP";
     is_completed := is_completed session |}.

Definition _update_session_with_enhanced_results (sid : Z)
    (session : AssessmentSession) (result : EnhancedPersonalityResult) : M unit :=
  personality_type ← query_personality_type (type_code result);
  commit_session sid (write_results session personality_type result).

Definition _validate_and_get_data (sid : Z)
    : M (AssessmentSession * list AssessmentAnswer * gmap Z Question) :=
  session ← query_session sid;
  match session with
  | None => raise (ValueError (SessionNotFound sid))
  | Some session =>
      if negb (is_completed session) then
        raise (ValueError (SessionNotCompleted sid))
      else
        answers ← query_answers sid;
        if negb (length answers =? 36)%nat then
          raise (ValueError (ExpectedAnswers (length answers)))
        else
          rows ← query_active_questions;
          mret (session, answers, questions_by_id rows)
  end.

Definition calculate_enhanced_personality_type (sid : Z)
    : M EnhancedPersonalityResult :=
  '(session, answers, questions) ← _validate_and_get_data sid;
  let dimension_analyses := _calculate_dimensional_analyses answers questions in
  '(type_code, type_confidence) ←
    lift (_determine_type_with_confidence dimension_analyses);
  statistical_metrics ←
    lift (_calculate_statistical_metrics answers questions dimension_analyses);
  let borderline_dims := _identify_borderline_dimensions_enhanced dimension_analyses in
  stability_prediction ←
    lift (_predict_type_stability dimension_analyses statistical_metrics);
  quality_score ←
    lift (_calculate_assessment_quality statistical_metrics dimension_analyses);
  let retesting_recommended := _should_recommend_retesting quality_score type_confidence in
  let exploration_areas := _identify_exploration_areas dimension_analyses borderline_dims in
  confidence_notes ←
    lift (_generate_confidence_notes dimension_analyses statistical_metrics);
  personality_type ← query_personality_type type_code;
  let type_name := Scoring.type_name_of personality_type type_code in
  let preference_strengths := Dict.to_gmap percentage dimension_analyses in
  let preference_clarity := Dict.to_gmap strength_category dimension_analyses in
  let result :=
    {| personality_type := type_name;
       type_code := type_code;
       type_confidence := type_confidence;
       dimension_analyses := dimension_analyses;
       statistical_metrics := statistical_metrics;
       borderline_dimensions := borderline_dims;
       type_stability_prediction := stability_prediction;
       assessment_quality_score := quality_score;
       retesting_recommended := retesting_recommended;
       areas_for_exploration := exploration_areas;
       confidence_notes := confidence_notes;
       preference_strengths := preference_strengths;
       preference_clarity := preference_clarity |} in
  _update_session_with_enhanced_results sid session result;;
  mret result.

End WithMath.

End Enhanced.

(** ** The completeness check of the basic service, [personality_scoring.py] *)

Module Completeness.

(** The message returned with the verdict. *)
Inductive message : Type :=
| ExpectedAnswersGot (got : nat)         (* "Expected 36 answers, got {n}" *)
| NoAnswersForDimension (dim : string)   (* "No answers found for dimension {dim}" *)
| AllAnswersPresent                      (* "All answers present and valid" *)
| ErrorValidating (e : error).           (* "Error validating answers: {e}" *)

(** [try: body except Exception as e: handler(e)] *)
Definition try_except {A : Type} (body : M A) (handler : error → M A) : M A :=
  λ w,
    match body w with
    | (Ok a, w') => (Ok a, w')
    | (Raise e, w') => handler e w'
    end.

(** One iteration of the counting loop. *)
Definition count_dimension (questions : gmap Z Question)
    (dimension_counts : Dict.t Z) (answer : AssessmentAnswer) : Dict.t Z :=
  match questions !! question_id answer with
  | Some question =>
      let dim_key := Py.str_remove "-"%char (dimension_value (dimension question)) in
      match Dict.get dimension_counts dim_key with
      | Some _ => Dict.update dimension_counts dim_key (λ c, c + 1)
      | None => dimension_counts
      end
  | None => dimension_counts
  end.

(** The loop over [dimension_counts.items()]: the first dimension without an
    answer, if any. *)
Fixpoint first_empty (items : list (string * Z)) : option string :=
  match items with
  | [] => None
  | (dim, count) :: items' => if count =? 0 then Some dim else first_empty items'
  end.

Definition validate_answers_completeness (sid : Z) : M (bool * message) :=
  try_except
    (answers ← query_answers sid;
     if negb (length answers =? 36)%nat then
       mret (false, ExpectedAnswersGot (length answers))
     else
       rows ← query_active_questions;
       let questions := questions_by_id rows in
       let dimension_counts : Dict.t Z :=
         [("EI", 0); ("SN", 0); ("TF", 0); ("JP", 0)]%string in
       let dimension_counts :=
         foldl (count_dimension questions) dimension_counts answers in
       match first_empty dimension_counts with
       | Some dim => mret (false, NoAnswersForDimension dim)
       | None => mret (true, AllAnswersPresent)
       end)
    (λ e, mret (false, ErrorValidating e)).

End Completeness.

(** ** Seed data, [database_init.py], and concrete sessions *)

Module Seed.

(** The sixteen rows of [personality_types], in insertion order. *)
Definition personality_types : list PersonalityType :=
  [ {| pt_id := 1;  code := "INTJ"; name_en := "The Strategist" |};
    {| pt_id := 2;  code := "INTP"; name_en := "The Thinker" |};
    {| pt_id := 3;  code := "ENTJ"; name_en := "The Commander" |};
    {| pt_id := 4;  code := "ENTP"; name_en := "The Innovator" |};
    {| pt_id := 5;  code := "INFJ"; name_en := "The Advocate" |};
    {| pt_id := 6;  code := "INFP"; name_en := "The Mediator" |};
    {| pt_id := 7;  code := "ENFJ"; name_en := "The Protagonist" |};
    {| pt_id := 8;  code := "ENFP"; name_en := "The Campaigner" |};
    {| pt_id := 9;  code := "ISTJ"; name_en := "The Logistician" |};
    {| pt_id := 10; code := "ISFJ"; name_en := "The Protector" |};
    {| pt_id := 11; code := "ESTJ"; name_en := "The Executive" |};
    {| pt_id := 12; code := "ESFJ"; name_en := "The Consul" |};
    {| pt_id := 13; code := "ISTP"; name_en := "The Virtuoso" |};
    {| pt_id := 14; code := "ISFP"; name_en := "The Adventurer" |};
    {| pt_id := 15; code := "ESTP"; name_en := "The Entrepreneur" |};
    {| pt_id := 16; code := "ESFP"; name_en := "The Entertainer" |} ].

(** A catalog of active questions with ids 1, 2, ... tagged with the given
    dimensions, option A mapping to the first letter everywhere (as in
    every seeded question). *)
Definition catalog (dims : list PersonalityDimension) : list Question :=
  imap (λ n d, {| q_id := Z.of_nat (S n); dimension := d;
                  option_a_maps_to_first := true; is_active := true |}) dims.

(** The 36 sample questions: blocks of three per dimension, in the order
    E-I, S-N, T-F, J-P, three times over. *)
Definition sample_dimensions : list PersonalityDimension :=
  let block := [EI; EI; EI; SN; SN; SN; TF; TF; TF; JP; JP; JP] in
  block ++ block ++ block.

Definition sample_questions : list Question := catalog sample_dimensions.

(** A catalog of 36 questions with an even number of E-I questions: ten
    E-I, eight S-N, nine T-F and nine J-P. *)
Definition even_dimensions : list PersonalityDimension :=
  replicate 10 EI ++ replicate 8 SN ++ replicate 9 TF ++ replicate 9 JP.

Definition even_questions : list Question := catalog even_dimensions.

(** A session that was never scored. *)
Definition fresh_session (completed : bool) : AssessmentSession :=
  {| personality_type_id := None;
     e_strength := None; s_strength := None; t_strength := None; j_strength := None;
     ei_clarity := None; sn_clarity := None; tf_clarity := None; jp_clarity := None;
     is_completed := completed |}.

(** The answers of session [sid]: option [options[n]] for question [n+1]. *)
Definition answers_of (sid : Z) (options : list string) : list AssessmentAnswer :=
  imap (λ n o, {| session_id := sid; question_id := Z.of_nat (S n);
                  selected_option := o |}) options.

(** A database holding one completed session, number 1, with the given
    answers. *)
Definition database (questions : list Question) (answers : list AssessmentAnswer)
    : Database :=
  {| sessions := {[ 1 := fresh_session true ]};
     answers := answers;
     questions := questions;
     Models.personality_types := personality_types |}.

(** A world in which commits go through. *)
Definition world (d : Database) : World :=
  {| db := d; commit_ok := true; rng := λ _, true; rng_pos := 0 |}.

Definition all_A : list string := replicate 36 "A"%string.

(** Four As out of nine in every dimension of the sample catalog. *)
Definition four_of_nine : list string :=
  replicate 12 "A"%string
  ++ concat (replicate 4 ["A"; "B"; "B"]%string)
  ++ replicate 12 "B"%string.

(** On the even catalog: five As and five Bs on E-I, As everywhere else. *)
Definition tied_EI : list string :=
  replicate 5 "A"%string ++ replicate 5 "B"%string ++ replicate 26 "A"%string.

(** 35 answers to sample questions and one to question 99, which is not in
    the catalog. *)
Definition one_unknown : list AssessmentAnswer :=
  answers_of 1 (replicate 35 "A"%string)
  ++ [{| session_id := 1; question_id := 99; selected_option := "A" |}].

(** The worlds of the concrete sessions. *)
Definition world_all_A : World :=
  world (database sample_questions (answers_of 1 all_A)).

Definition world_four_of_nine : World :=
  world (database sample_questions (answers_of 1 four_of_nine)).

Definition world_tied_EI : World :=
  world (database even_questions (answers_of 1 tied_EI)).

Definition world_one_unknown : World :=
  world (database sample_questions one_unknown).

(** Only 35 of the 36 sample questions answered. *)
Definition world_35_answers : World :=
  world (database sample_questions (answers_of 1 (replicate 35 "A"%string))).

End Seed.

(** * Properties *)

(** ** Vocabulary of the statements *)

(** Lookups by a literal key in a dict built by inserting literal keys. *)
Ltac lookup_literal :=
  repeat first
    [ rewrite lookup_insert_eq
    | rewrite lookup_insert_ne by (intro; discriminate)
    | rewrite lookup_empty ].

(** The strength of the dominant letter of a pair, as both
    [_calculate_preference_clarity] and [_identify_borderline_dimensions]
    compute it. *)
Definition dominant (strengths : gmap string Q) (first_letter second_letter : string) : Q :=
  Py.max (Scoring.get_strength strengths first_letter)
         (Scoring.get_strength strengths second_letter).

(** The strengths of one pair: both letters have a share, the larger share is
    [max(first, second) / total], it lies in [0.5, 1] and is 0.5 on a tie,
    and the two shares add up to 1. *)
Definition pair_strengths (strengths : gmap string Q)
    (first_letter second_letter : string) (first second : Z) : Prop :=
  ∃ p_first p_second : Q,
    strengths !! first_letter = Some p_first
    ∧ strengths !! second_letter = Some p_second
    ∧ (let winning := dominant strengths first_letter second_letter in
       winning == inject_Z (Z.max first second) / inject_Z (first + second)
       ∧ 1 # 2 <= winning ∧ winning <= 1
       ∧ (first = second → winning == 1 # 2))%Q
    ∧ (p_first + p_second == 1)%Q.

(** Counters are counts: none is negative. *)
Definition nonnegative (scores : Scoring.PersonalityScores) : Prop :=
  0 ≤ Scoring.e_score scores ∧ 0 ≤ Scoring.i_score scores
  ∧ 0 ≤ Scoring.s_score scores ∧ 0 ≤ Scoring.n_score scores
  ∧ 0 ≤ Scoring.t_score scores ∧ 0 ≤ Scoring.f_score scores
  ∧ 0 ≤ Scoring.j_score scores ∧ 0 ≤ Scoring.p_score scores.

(** The category that the ascending thresholds [t1 < t2 < t3] give to a
    strength. *)
Definition classified (t1 t2 t3 : Q) (strength : Q) (category : PreferenceStrength) : Prop :=
  ((strength < t1 → category = SLIGHT)
   ∧ (t1 <= strength ∧ strength < t2 → category = MODERATE)
   ∧ (t2 <= strength ∧ strength < t3 → category = CLEAR)
   ∧ (t3 <= strength → category = VERY_CLEAR))%Q.

(** The ladder of comparisons shared by the two services, over a table. *)
Definition category_under (table : PreferenceStrength → Q) (strength : Q)
    : PreferenceStrength :=
  if Qlt_le_dec strength (table SLIGHT) then SLIGHT
  else if Qlt_le_dec strength (table MODERATE) then MODERATE
  else if Qlt_le_dec strength (table CLEAR) then CLEAR
  else VERY_CLEAR.

(** [m] leaves the world as it found it, whatever it returns. *)
Definition reads_only {A : Type} (m : M A) : Prop := ∀ w, (m w).2 = w.

(** [m] leaves the world as it found it whenever it raises. *)
Definition atomic {A : Type} (m : M A) : Prop :=
  ∀ w e w', m w = (Raise e, w') → w' = w.

(** [m] leaves the database as it found it, whatever it returns. *)
Definition keeps_db {A : Type} (m : M A) : Prop := ∀ w, db (m w).2 = db w.

Create HintDb effects.

(** The answers stored for a session. *)
Definition session_answers (w : World) (sid : Z) : list AssessmentAnswer :=
  filter (λ a, session_id a = sid) (answers (db w)).

(** The catalog the services score against: the active questions by id. *)
Definition active_catalog (w : World) : gmap Z Question :=
  questions_by_id (filter (λ q, is_active q = true) (questions (db w))).

(** The counters of the enhanced tally that correspond to a tuple of counts. *)
Definition counts_of (scores : Scoring.PersonalityScores) : Dict.t (gmap string Z) :=
  let pair (first_letter second_letter : string) (first second : Z) : gmap string Z :=
    <["total" := first + second]> (<[second_letter := second]> (<[first_letter := first]> ∅)) in
  [ ("EI", pair "E" "I" (Scoring.e_score scores) (Scoring.i_score scores));
    ("SN", pair "S" "N" (Scoring.s_score scores) (Scoring.n_score scores));
    ("TF", pair "T" "F" (Scoring.t_score scores) (Scoring.f_score scores));
    ("JP", pair "J" "P" (Scoring.j_score scores) (Scoring.p_score scores)) ]%string.

(** The letter that the enhanced analysis gives to a pair that has answers. *)
Definition analysed_letter (first_letter second_letter : string) (first second : Z)
    : string :=
  if first >=? second then first_letter else second_letter.

(** A pair whose two counts are equal although it has answers. *)
Definition tied_with_answers (first second : Z) : Prop :=
  first = second ∧ first + second ≠ 0.

(** [a == b] on the members of the enum. *)
Definition same_dimension (a b : PersonalityDimension) : bool :=
  match a, b with
  | EI, EI | SN, SN | TF, TF | JP, JP => true
  | _, _ => false
  end.

(** Whether an answer is counted for the given letter: its question is in the
    catalog, belongs to dimension [dim], and the selected option maps to the
    first letter of the pair ([first = true]) or to the second. *)
Definition votes_for (questions : gmap Z Question) (dim : PersonalityDimension)
    (first : bool) (answer : AssessmentAnswer) : bool :=
  match questions !! question_id answer with
  | Some question =>
      same_dimension (dimension question) dim
      && Bool.eqb (Scoring.maps_to_first (selected_option answer) question) first
  | None => false
  end.

(** The number of answers counted for a letter. *)
Definition votes (questions : gmap Z Question) (dim : PersonalityDimension)
    (first : bool) (answers : list AssessmentAnswer) : Z :=
  Z.of_nat (length (filter (λ a, votes_for questions dim first a = true) answers)).

(** A tally with the votes of further answers added to it. *)
Definition add_votes (scores : Scoring.PersonalityScores) (questions : gmap Z Question)
    (answers : list AssessmentAnswer) : Scoring.PersonalityScores :=
  {| Scoring.e_score := Scoring.e_score scores + votes questions EI true answers;
     Scoring.i_score := Scoring.i_score scores + votes questions EI false answers;
     Scoring.s_score := Scoring.s_score scores + votes questions SN true answers;
     Scoring.n_score := Scoring.n_score scores + votes questions SN false answers;
     Scoring.t_score := Scoring.t_score scores + votes questions TF true answers;
     Scoring.f_score := Scoring.f_score scores + votes questions TF false answers;
     Scoring.j_score := Scoring.j_score scores + votes questions JP true answers;
     Scoring.p_score := Scoring.p_score scores + votes questions JP false answers |}.

(** The analysis that [_calculate_dimensional_analyses] stores for a pair
    with the given two counts. *)
Definition analysis_of (math_sqrt : Q → Q) (dim_key first_letter second_letter : string)
    (first second : Z) : Enhanced.DimensionAnalysis :=
  let preference_letter := if first >=? second then first_letter else second_letter in
  let raw_score := if first >=? second then first else second in
  let total := first + second in
  let percentage := Py.truediv raw_score total in
  {| Enhanced.dimension := dim_key;
     Enhanced.raw_score := raw_score;
     Enhanced.total_questions := total;
     Enhanced.percentage := percentage;
     Enhanced.preference_letter := preference_letter;
     Enhanced.strength_category := Enhanced._determine_strength_category percentage;
     Enhanced.confidence_level := Enhanced._calculate_confidence_level math_sqrt raw_score total;
     Enhanced.standard_error := Enhanced._calculate_standard_error math_sqrt percentage total;
     Enhanced.z_score := Enhanced._calculate_z_score percentage |}.

(** The entry of a pair in the analyses: absent when the pair has no answer. *)
Definition entry_of (math_sqrt : Q → Q) (dim_key first_letter second_letter : string)
    (first second : Z) : option Enhanced.DimensionAnalysis :=
  if first + second =? 0 then None
  else Some (analysis_of math_sqrt dim_key first_letter second_letter first second).

(** The entries of the four pairs, in the order of [dimension_scores]. *)
Definition entries_of (math_sqrt : Q → Q) (scores : Scoring.PersonalityScores)
    : list (string * option Enhanced.DimensionAnalysis) :=
  [ ("EI", entry_of math_sqrt "EI" "E" "I" (Scoring.e_score scores) (Scoring.i_score scores));
    ("SN", entry_of math_sqrt "SN" "S" "N" (Scoring.s_score scores) (Scoring.n_score scores));
    ("TF", entry_of math_sqrt "TF" "T" "F" (Scoring.t_score scores) (Scoring.f_score scores));
    ("JP", entry_of math_sqrt "JP" "J" "P" (Scoring.j_score scores) (Scoring.p_score scores)) ]%string.

(** What is assumed of [math.sqrt]: positive on positive numbers. *)
Definition sqrt_positive (math_sqrt : Q → Q) : Prop :=
  ∀ x : Q, (0 < x)%Q → (0 < math_sqrt x)%Q.

(** The world after the row of session [sid] was committed as [s]. *)
Definition with_session (w : World) (sid : Z) (s : AssessmentSession) : World :=
  {| db := {| sessions := <[sid := s]> (sessions (db w));
              answers := answers (db w);
              questions := questions (db w);
              personality_types := personality_types (db w) |};
     commit_ok := commit_ok w; rng := rng w; rng_pos := rng_pos w |}.

(** The row of [personality_types] with the given code, if any. *)
Definition type_with_code (w : World) (type_code : string) : option PersonalityType :=
  head (filter (λ t, code t = type_code) (personality_types (db w))).

(** A session that the entry points accept: it exists, is completed, and has
    36 stored answers. *)
Definition scorable (w : World) (sid : Z) (session : AssessmentSession) : Prop :=
  sessions (db w) !! sid = Some session
  ∧ is_completed session = true
  ∧ length (session_answers w sid) = 36%nat.

(** The result that the basic entry point computes for a session. *)
Definition basic_result (w : World) (sid : Z) : Scoring.PersonalityResult :=
  let scores := Scoring._calculate_dimension_scores (session_answers w sid) (active_catalog w) in
  let type_code := Scoring._determine_personality_type scores in
  let strengths := Scoring._calculate_preference_strengths scores in
  {| Scoring.personality_type := Scoring.type_name_of (type_with_code w type_code) type_code;
     Scoring.type_code := type_code;
     Scoring.dimension_scores := scores;
     Scoring.preference_strengths := strengths;
     Scoring.preference_clarity := Scoring._calculate_preference_clarity strengths;
     Scoring.borderline_dimensions :=
       Scoring._identify_borderline_dimensions strengths Scoring.default_threshold;
     Scoring.total_questions_per_dimension :=
       Scoring._count_questions_per_dimension (map_to_list (active_catalog w)).*2 |}.

(** The row that the basic entry point commits for a session. *)
Definition basic_row (w : World) (sid : Z) (session : AssessmentSession) : AssessmentSession :=
  Scoring.write_results session
    (type_with_code w (Scoring.type_code (basic_result w sid))) (basic_result w sid).

(** The share of the first letter of a pair that the basic variant stores:
    [first / total], or 0.0 for a pair without answers. *)
Definition stored_share (first second : Z) : Q :=
  if first + second >? 0 then Py.truediv first (first + second) else 0.0%Q.

(** Two worlds that differ at most in the row of session [sid]. *)
Definition same_but_session (sid : Z) (w w' : World) : Prop :=
  (∀ sid', sid' ≠ sid → sessions (db w') !! sid' = sessions (db w) !! sid')
  ∧ answers (db w') = answers (db w)
  ∧ questions (db w') = questions (db w)
  ∧ personality_types (db w') = personality_types (db w)
  ∧ commit_ok w' = commit_ok w ∧ rng w' = rng w ∧ rng_pos w' = rng_pos w.

(** Some pair of the tally is tied although it has answers. *)
Definition has_tie (scores : Scoring.PersonalityScores) : Prop :=
  tied_with_answers (Scoring.e_score scores) (Scoring.i_score scores)
  ∨ tied_with_answers (Scoring.s_score scores) (Scoring.n_score scores)
  ∨ tied_with_answers (Scoring.t_score scores) (Scoring.f_score scores)
  ∨ tied_with_answers (Scoring.j_score scores) (Scoring.p_score scores).

(** The counters of the completeness check that correspond to a tally. *)
Definition totals_of (scores : Scoring.PersonalityScores) : Dict.t Z :=
  [ ("EI", Scoring.e_score scores + Scoring.i_score scores);
    ("SN", Scoring.s_score scores + Scoring.n_score scores);
    ("TF", Scoring.t_score scores + Scoring.f_score scores);
    ("JP", Scoring.j_score scores + Scoring.p_score scores) ]%string.

(** Every pair of the tally has at least one answer. *)
Definition all_pairs_answered (scores : Scoring.PersonalityScores) : Prop :=
  Scoring.e_score scores + Scoring.i_score scores > 0
  ∧ Scoring.s_score scores + Scoring.n_score scores > 0
  ∧ Scoring.t_score scores + Scoring.f_score scores > 0
  ∧ Scoring.j_score scores + Scoring.p_score scores > 0.

(** The outcome of the completeness check, in terms of the tally. *)
Definition completeness_outcome (answers : list AssessmentAnswer)
    (scores : Scoring.PersonalityScores) : bool * Completeness.message :=
  if decide (length answers = 36%nat) then
    match Completeness.first_empty (totals_of scores) with
    | Some dim => (false, Completeness.NoAnswersForDimension dim)
    | None => (true, Completeness.AllAnswersPresent)
    end
  else (false, Completeness.ExpectedAnswersGot (length answers)).

(** A response that the raw entry point accepts: an int from 1 to 5. *)
Definition valid_response (response : Scoring.py_value) : Prop :=
  match response with
  | Scoring.PyInt z => 1 ≤ z ≤ 5
  | Scoring.PyOther => False
  end.

(** The ints of a list of responses. *)
Definition ints_of (responses : list Scoring.py_value) : list Z :=
  omap (λ r, match r with Scoring.PyInt z => Some z | Scoring.PyOther => None end) responses.

(** The world after [n] more draws from the random generator. *)
Definition after_draws (w : World) (n : nat) : World :=
  {| db := db w; commit_ok := commit_ok w; rng := rng w;
     rng_pos := (rng_pos w + n)%nat |}.

(** The option that a response other than 3 stands for. *)
Definition option_of (response : Z) : string :=
  if response <=? 2 then "A" else "B".

(** The number of neutral responses (3), for which the raw entry point
    draws at random. *)
Definition neutral_count (ints : list Z) : nat :=
  length (filter (λ z, z = 3) ints).

(** The active questions, as the raw entry point queries them. *)
Definition active_questions (w : World) : list Question :=
  filter (λ q, is_active q = true) (questions (db w)).

(** The number of counted responses of a tally. *)
Definition counted (scores : Scoring.PersonalityScores) : Z :=
  Scoring.e_score scores + Scoring.i_score scores
  + Scoring.s_score scores + Scoring.n_score scores
  + Scoring.t_score scores + Scoring.f_score scores
  + Scoring.j_score scores + Scoring.p_score scores.

(** The answers that a list of responses stands for: option A for 1 and 2,
    option B for 4 and 5, given to the questions in the order of the list. *)
Definition answers_for (sid : Z) (ints : list Z) (questions : list Question)
    : list AssessmentAnswer :=
  zip_with (λ r q, {| session_id := sid; question_id := q_id q;
                      selected_option := option_of r |}) ints questions.

(** Thirty-six responses of 1. *)
Definition all_ones : list Scoring.py_value := replicate 36 (Scoring.PyInt 1).

(** The pairs of the type code with their letters. *)
Definition letter_pairs : list (string * string * string) :=
  [("EI", "E", "I"); ("SN", "S", "N"); ("TF", "T", "F"); ("JP", "J", "P")]%string.

(** Membership in the literal list [letter_pairs]. *)
Ltac in_letter_pairs :=
  unfold letter_pairs; repeat first [constructor 1; fail | constructor 2].

(** The strengths that [_calculate_preference_strengths] stores for one
    letter: its share, or nothing when the pair has no answer. *)
Definition share (count total : Z) : option Q :=
  if total >? 0 then Some (Py.truediv count total) else None.

(** The two counts of each pair of a tally. *)
Definition pair_counts (scores : Scoring.PersonalityScores) : list (string * Z * Z) :=
  [ ("EI", Scoring.e_score scores, Scoring.i_score scores);
    ("SN", Scoring.s_score scores, Scoring.n_score scores);
    ("TF", Scoring.t_score scores, Scoring.f_score scores);
    ("JP", Scoring.j_score scores, Scoring.p_score scores) ]%string.

(** The number of answers that selected option A. *)
Definition a_count (answers : list AssessmentAnswer) : nat :=
  length (filter (λ a, selected_option a = "A"%string) answers).

(** The answers counted for the first letter of their pair. *)
Definition first_letters (scores : Scoring.PersonalityScores) : Z :=
  Scoring.e_score scores + Scoring.s_score scores
  + Scoring.t_score scores + Scoring.j_score scores.

(** What every stored analysis satisfies. *)
Definition well_formed (analysis : Enhanced.DimensionAnalysis) : Prop :=
  0 < Enhanced.total_questions analysis
  ∧ Enhanced.total_questions analysis ≤ 2 * Enhanced.raw_score analysis
  ∧ Enhanced.raw_score analysis ≤ Enhanced.total_questions analysis
  ∧ Enhanced.percentage analysis
    = Py.truediv (Enhanced.raw_score analysis) (Enhanced.total_questions analysis)
  ∧ (1 # 2 <= Enhanced.percentage analysis ∧ Enhanced.percentage analysis <= 1)%Q
  ∧ (0 <= Enhanced.z_score analysis ∧ Enhanced.z_score analysis <= 1)%Q
  ∧ (0 <= Enhanced.confidence_level analysis ∧ Enhanced.confidence_level analysis <= 1)%Q
  ∧ Enhanced.strength_category analysis
    = category_under Enhanced.PROFESSIONAL_THRESHOLDS (Enhanced.percentage analysis).

(** The number of questions of a dimension. *)
Definition questions_of (dim : PersonalityDimension) (questions : list Question) : Z :=
  Z.of_nat (length (filter (λ q, same_dimension (dimension q) dim = true) questions)).

(** ** The Type Resolver *)

(** C3: on equal counts the basic Type Resolver emits the fixed tie-break
    letter of the pair (I, N, F, P), whatever the other pairs are; otherwise
    it emits the letter with the strict majority; the four letters are
    joined in the order EI, SN, TF, JP. *)
Theorem type_resolver_tie_break (scores : Scoring.PersonalityScores) :
  ∃ ei sn tf jp : string,
    Scoring._determine_personality_type scores = ei +:+ sn +:+ tf +:+ jp
    ∧ ((Scoring.e_score scores = Scoring.i_score scores → ei = "I")
       ∧ (Scoring.e_score scores > Scoring.i_score scores → ei = "E")
       ∧ (Scoring.e_score scores < Scoring.i_score scores → ei = "I"))
    ∧ ((Scoring.s_score scores = Scoring.n_score scores → sn = "N")
       ∧ (Scoring.s_score scores > Scoring.n_score scores → sn = "S")
       ∧ (Scoring.s_score scores < Scoring.n_score scores → sn = "N"))
    ∧ ((Scoring.t_score scores = Scoring.f_score scores → tf = "F")
       ∧ (Scoring.t_score scores > Scoring.f_score scores → tf = "T")
       ∧ (Scoring.t_score scores < Scoring.f_score scores → tf = "F"))
    ∧ ((Scoring.j_score scores = Scoring.p_score scores → jp = "P")
       ∧ (Scoring.j_score scores > Scoring.p_score scores → jp = "J")
       ∧ (Scoring.j_score scores < Scoring.p_score scores → jp = "P")).
Proof.
  destruct scores as [e i s n t f j p]; cbn [Scoring.e_score Scoring.i_score
    Scoring.s_score Scoring.n_score Scoring.t_score Scoring.f_score
    Scoring.j_score Scoring.p_score].
  exists (if e >? i then "E" else "I"), (if s >? n then "S" else "N"),
         (if t >? f then "T" else "F"), (if j >? p then "J" else "P").
  unfold Scoring._determine_personality_type;
    cbn [Scoring.e_score Scoring.i_score Scoring.s_score Scoring.n_score
         Scoring.t_score Scoring.f_score Scoring.j_score Scoring.p_score].
  split.
  - destruct (e >? i), (i >? e), (s >? n), (n >? s), (t >? f), (f >? t),
      (j >? p), (p >? j); reflexivity.
  - repeat split; intros H;
      match goal with
      | |- (if ?a >? ?b then _ else _) = _ =>
          destruct (Z.gtb_spec a b); first [reflexivity | lia]
      end.
Qed.

(** The witness of C3: ties on E-I and T-F, majorities on S-N and J-P. *)
Lemma type_resolver_tie_break_witness :
  ∃ ei sn tf jp : string,
    Scoring._determine_personality_type
      {| Scoring.e_score := 5; Scoring.i_score := 5;
         Scoring.s_score := 6; Scoring.n_score := 2;
         Scoring.t_score := 4; Scoring.f_score := 4;
         Scoring.j_score := 1; Scoring.p_score := 9 |}
    = ei +:+ sn +:+ tf +:+ jp
    ∧ ei = "I" ∧ sn = "S" ∧ tf = "F" ∧ jp = "P".
Proof.
  destruct (type_resolver_tie_break
              {| Scoring.e_score := 5; Scoring.i_score := 5;
                 Scoring.s_score := 6; Scoring.n_score := 2;
                 Scoring.t_score := 4; Scoring.f_score := 4;
                 Scoring.j_score := 1; Scoring.p_score := 9 |})
    as (ei & sn & tf & jp & Hcode & (Hei & _) & (_ & Hsn & _) & (Htf & _) & (_ & _ & Hjp)).
  exists ei, sn, tf, jp.
  split; [exact Hcode|].
  split; [apply Hei; reflexivity|].
  split; [apply Hsn; reflexivity|].
  split; [apply Htf; reflexivity|apply Hjp; reflexivity].
Defined.

(** ** Strengths and clarity *)

(** The two shares of one dimension pair, [first / total] and
    [second / total], as [_calculate_preference_strengths] computes them. *)
Section PairShares.
Variables first second : Z.
Hypothesis first_nonneg : 0 ≤ first.
Hypothesis second_nonneg : 0 ≤ second.
Hypothesis total_pos : first + second > 0.

Let total := first + second.
Let p1 := Py.truediv first total.
Let p2 := Py.truediv second total.

Lemma shares_sum : (p1 + p2 == 1)%Q.
Proof.
  unfold p1, p2, Py.truediv, total. rewrite inject_Z_plus.
  assert (0 < inject_Z first + inject_Z second)%Q.
  { rewrite <- inject_Z_plus. change 0%Q with (inject_Z 0). rewrite <- Zlt_Qlt. lia. }
  field. lra.
Qed.

Lemma share_mono a b : a ≤ b → (Py.truediv a total <= Py.truediv b total)%Q.
Proof.
  intros Hab. unfold Py.truediv.
  apply Qmult_le_compat_r.
  - rewrite <- Zle_Qle. exact Hab.
  - apply Qinv_le_0_compat. change 0%Q with (inject_Z 0). rewrite <- Zle_Qle. unfold total. lia.
Qed.

Lemma shares_nonneg : (0 <= p1 ∧ 0 <= p2)%Q.
Proof.
  assert (Py.truediv 0 total == 0)%Q as H0 by (unfold Py.truediv; simpl; field; unfold total; change 0%Q with (inject_Z 0); rewrite inject_Z_injective; lia).
  split; rewrite <- H0; apply share_mono; assumption.
Qed.

Lemma winning_share :
  let winning := Py.max p1 p2 in
  (winning == Py.truediv (Z.max first second) total
   ∧ 1 # 2 <= winning ∧ winning <= 1
   ∧ (first = second → winning == 1 # 2))%Q.
Proof.
  pose proof shares_sum as Hsum. pose proof shares_nonneg as [H1 H2].
  pose proof (share_mono first second) as Hle1.
  pose proof (share_mono second first) as Hle2.
  fold p1 p2 in Hle1, Hle2.
  cbv zeta. unfold Py.max.
  destruct (Qlt_le_dec p1 p2) as [Hlt|Hge].
  - repeat split; try lra.
    + destruct (Z.max_spec first second) as [[? ->]|[? ->]]; [reflexivity|].
      specialize (Hle2 ltac:(lia)). lra.
    + intros Heq. specialize (Hle1 ltac:(lia)). specialize (Hle2 ltac:(lia)). lra.
  - repeat split; try lra.
    + destruct (Z.max_spec first second) as [[? ->]|[? ->]]; [|reflexivity].
      specialize (Hle1 ltac:(lia)). fold p2. lra.
    + intros Heq. specialize (Hle1 ltac:(lia)). specialize (Hle2 ltac:(lia)). lra.
Qed.
End PairShares.

(** The entries of the dict returned by [_calculate_preference_strengths]. *)
Lemma strengths_lookup (scores : Scoring.PersonalityScores) :
  let strengths := Scoring._calculate_preference_strengths scores in
  let share (count total : Z) := if total >? 0 then Some (Py.truediv count total) else None in
  let ei := Scoring.e_score scores + Scoring.i_score scores in
  let sn := Scoring.s_score scores + Scoring.n_score scores in
  let tf := Scoring.t_score scores + Scoring.f_score scores in
  let jp := Scoring.j_score scores + Scoring.p_score scores in
  (strengths !! "E" = share (Scoring.e_score scores) ei
   ∧ strengths !! "I" = share (Scoring.i_score scores) ei)
  ∧ (strengths !! "S" = share (Scoring.s_score scores) sn
     ∧ strengths !! "N" = share (Scoring.n_score scores) sn)
  ∧ (strengths !! "T" = share (Scoring.t_score scores) tf
     ∧ strengths !! "F" = share (Scoring.f_score scores) tf)
  ∧ (strengths !! "J" = share (Scoring.j_score scores) jp
     ∧ strengths !! "P" = share (Scoring.p_score scores) jp).
Proof.
  cbv zeta. unfold Scoring._calculate_preference_strengths.
  destruct (_ + _ >? 0), (_ + _ >? 0), (_ + _ >? 0), (_ + _ >? 0);
    repeat split; lookup_literal; reflexivity.
Qed.

Lemma pair_strengths_intro (strengths : gmap string Q)
    (first_letter second_letter : string) (first second : Z) :
  0 ≤ first → 0 ≤ second → first + second > 0 →
  strengths !! first_letter = Some (Py.truediv first (first + second)) →
  strengths !! second_letter = Some (Py.truediv second (first + second)) →
  pair_strengths strengths first_letter second_letter first second.
Proof.
  intros Hf Hs Ht H1 H2.
  exists (Py.truediv first (first + second)), (Py.truediv second (first + second)).
  unfold dominant, Scoring.get_strength. rewrite H1, H2. cbn [default].
  split; [reflexivity|]. split; [reflexivity|]. split.
  - apply winning_share; assumption.
  - apply shares_sum; assumption.
Qed.

(** C8: for every dimension pair with a positive total the winning-side
    strength is [max(countFirst, countSecond) / total], lies in [0.5, 1.0],
    is exactly 0.5 on a tie, and the percentages of the two letters of the
    pair add up to 1. *)
Theorem strength_bounds (scores : Scoring.PersonalityScores) :
  nonnegative scores →
  let strengths := Scoring._calculate_preference_strengths scores in
  (Scoring.e_score scores + Scoring.i_score scores > 0 →
   pair_strengths strengths "E" "I" (Scoring.e_score scores) (Scoring.i_score scores))
  ∧ (Scoring.s_score scores + Scoring.n_score scores > 0 →
     pair_strengths strengths "S" "N" (Scoring.s_score scores) (Scoring.n_score scores))
  ∧ (Scoring.t_score scores + Scoring.f_score scores > 0 →
     pair_strengths strengths "T" "F" (Scoring.t_score scores) (Scoring.f_score scores))
  ∧ (Scoring.j_score scores + Scoring.p_score scores > 0 →
     pair_strengths strengths "J" "P" (Scoring.j_score scores) (Scoring.p_score scores)).
Proof.
  intros (He & Hi & Hs & Hn & Ht & Hf & Hj & Hp) strengths.
  destruct (strengths_lookup scores)
    as ((HE & HI) & (HS & HN) & (HT & HF) & (HJ & HP)).
  fold strengths in HE, HI, HS, HN, HT, HF, HJ, HP.
  repeat split; intros Htotal;
    (apply pair_strengths_intro; [assumption | assumption | assumption | | ]);
    match goal with
    | H : strengths !! ?k = _ |- strengths !! ?k = _ => rewrite H
    end;
    match goal with
    | |- (if ?t >? 0 then _ else _) = _ =>
        destruct (Z.gtb_spec t 0); [reflexivity | lia]
    end.
Qed.

(** The witness of C8: a 5-5 tie on E-I, 7-2 on S-N, 0-9 on T-F, 6-3 on J-P. *)
Lemma strength_bounds_witness :
  let scores :=
    {| Scoring.e_score := 5; Scoring.i_score := 5;
       Scoring.s_score := 7; Scoring.n_score := 2;
       Scoring.t_score := 0; Scoring.f_score := 9;
       Scoring.j_score := 6; Scoring.p_score := 3 |} in
  let strengths := Scoring._calculate_preference_strengths scores in
  pair_strengths strengths "E" "I" 5 5
  ∧ pair_strengths strengths "S" "N" 7 2
  ∧ pair_strengths strengths "T" "F" 0 9
  ∧ pair_strengths strengths "J" "P" 6 3.
Proof.
  intros scores strengths.
  assert (nonnegative scores) as Hnonneg by (unfold nonnegative; cbn; lia).
  destruct (strength_bounds scores Hnonneg) as (Hei & Hsn & Htf & Hjp).
  split; [apply Hei; cbn; lia|].
  split; [apply Hsn; cbn; lia|].
  split; [apply Htf; cbn; lia|apply Hjp; cbn; lia].
Defined.

Lemma category_under_classified (table : PreferenceStrength → Q) (strength : Q) :
  (table SLIGHT <= table MODERATE)%Q → (table MODERATE <= table CLEAR)%Q →
  classified (table SLIGHT) (table MODERATE) (table CLEAR) strength
    (category_under table strength).
Proof.
  intros H12 H23. unfold classified, category_under.
  destruct (Qlt_le_dec strength (table SLIGHT));
    [|destruct (Qlt_le_dec strength (table MODERATE));
      [|destruct (Qlt_le_dec strength (table CLEAR))]];
    repeat split; intros; first [reflexivity | exfalso; lra].
Qed.

(** The loop of [_calculate_preference_clarity] stores, for each pair, the
    category of its dominant strength under [STRENGTH_THRESHOLDS]. *)
Lemma clarity_loop (pairs : list (string * Q)) (clarity : gmap string PreferenceStrength) :
  foldl
    (λ (clarity : gmap string PreferenceStrength) '(dim_name, strength),
       if Qlt_le_dec strength (Scoring.STRENGTH_THRESHOLDS SLIGHT) then
         <[dim_name := SLIGHT]> clarity
       else if Qlt_le_dec strength (Scoring.STRENGTH_THRESHOLDS MODERATE) then
         <[dim_name := MODERATE]> clarity
       else if Qlt_le_dec strength (Scoring.STRENGTH_THRESHOLDS CLEAR) then
         <[dim_name := CLEAR]> clarity
       else
         <[dim_name := VERY_CLEAR]> clarity)
    clarity pairs
  = foldl (λ clarity '(dim_name, strength),
             <[dim_name := category_under Scoring.STRENGTH_THRESHOLDS strength]> clarity)
      clarity pairs.
Proof.
  revert clarity. induction pairs as [|[dim_name strength] pairs IH]; intros clarity.
  - reflexivity.
  - cbn [foldl]. rewrite IH. f_equal. unfold category_under.
    destruct (Qlt_le_dec strength (Scoring.STRENGTH_THRESHOLDS SLIGHT));
      [reflexivity|].
    destruct (Qlt_le_dec strength (Scoring.STRENGTH_THRESHOLDS MODERATE));
      [reflexivity|].
    destruct (Qlt_le_dec strength (Scoring.STRENGTH_THRESHOLDS CLEAR)); reflexivity.
Qed.

Lemma dominant_strengths_entries (strengths : gmap string Q) :
  Scoring.dominant_strengths strengths
  = [ ("EI", dominant strengths "E" "I"); ("SN", dominant strengths "S" "N");
      ("TF", dominant strengths "T" "F"); ("JP", dominant strengths "J" "P") ]%string.
Proof. reflexivity. Qed.

Lemma clarity_lookup (strengths : gmap string Q) :
  let clarity := Scoring._calculate_preference_clarity strengths in
  let category := category_under Scoring.STRENGTH_THRESHOLDS in
  clarity !! "EI" = Some (category (dominant strengths "E" "I"))
  ∧ clarity !! "SN" = Some (category (dominant strengths "S" "N"))
  ∧ clarity !! "TF" = Some (category (dominant strengths "T" "F"))
  ∧ clarity !! "JP" = Some (category (dominant strengths "J" "P")).
Proof.
  cbv zeta. unfold Scoring._calculate_preference_clarity. rewrite clarity_loop.
  unfold Scoring.dominant_strengths, dominant. cbn [foldl].
  repeat split; lookup_literal; reflexivity.
Qed.

(** C9: the basic variant classifies the winning-side strength of each pair
    by the thresholds 0.60, 0.75, 0.90; the enhanced variant classifies a
    percentage by the professional thresholds 0.56, 0.66, 0.76; the two
    tables are distinct configurations (they differ at every entry, and they
    classify the strength 0.58 differently). *)
Theorem clarity_thresholds :
  (∀ strengths : gmap string Q,
     let clarity := Scoring._calculate_preference_clarity strengths in
     ∀ dim first_letter second_letter : string,
       (dim, first_letter, second_letter)
         ∈ [("EI", "E", "I"); ("SN", "S", "N"); ("TF", "T", "F"); ("JP", "J", "P")]%string →
       ∃ category,
         clarity !! dim = Some category
         ∧ classified 0.60 0.75 0.90
             (dominant strengths first_letter second_letter) category)
  ∧ (∀ percentage : Q,
       classified 0.56 0.66 0.76 percentage
         (Enhanced._determine_strength_category percentage))
  ∧ (∀ k, ¬ (Scoring.STRENGTH_THRESHOLDS k == Enhanced.PROFESSIONAL_THRESHOLDS k)%Q)
  ∧ Scoring._calculate_preference_clarity (<["E" := 0.58%Q]> ∅) !! "EI" = Some SLIGHT
  ∧ Enhanced._determine_strength_category 0.58 = MODERATE.
Proof.
  split; [|split; [|split; [|split]]].
  - intros strengths clarity dim first_letter second_letter Hin.
    destruct (clarity_lookup strengths) as (Hei & Hsn & Htf & Hjp).
    fold clarity in Hei, Hsn, Htf, Hjp.
    repeat (apply elem_of_cons in Hin as [Heq|Hin];
            [injection Heq as -> -> ->; eexists; split; [eassumption|];
             apply (category_under_classified Scoring.STRENGTH_THRESHOLDS);
             cbn; lra |]).
    apply elem_of_nil in Hin. destruct Hin.
  - intros percentage.
    apply (category_under_classified Enhanced.PROFESSIONAL_THRESHOLDS); cbn; lra.
  - intros k Heq. destruct k; cbn in Heq; lra.
  - vm_compute. reflexivity.
  - reflexivity.
Qed.

(** The witness of C9: the strengths 5/9 and 2/3, which the two tables put
    in different categories. *)
Lemma clarity_thresholds_witness :
  let strengths : gmap string Q :=
    <["N" := 1 # 3]> (<["S" := 2 # 3]> (<["I" := 4 # 9]> (<["E" := 5 # 9]> ∅))) in
  (∃ category,
     Scoring._calculate_preference_clarity strengths !! "EI" = Some category
     ∧ category = SLIGHT)
  ∧ (∃ category,
       Scoring._calculate_preference_clarity strengths !! "SN" = Some category
       ∧ category = MODERATE)
  ∧ Enhanced._determine_strength_category (5 # 9) = SLIGHT
  ∧ Enhanced._determine_strength_category (2 # 3) = CLEAR.
Proof.
  intros strengths.
  destruct clarity_thresholds as (Hbasic & Henhanced & _).
  split; [|split; [|split]].
  - destruct (Hbasic strengths "EI" "E" "I")%string as (c & Hc & Hslight & _);
      [repeat constructor|].
    exists c. split; [exact Hc|]. apply Hslight. vm_compute. reflexivity.
  - destruct (Hbasic strengths "SN" "S" "N")%string as (c & Hc & _ & Hmoderate & _);
      [repeat constructor|].
    exists c. split; [exact Hc|]. apply Hmoderate.
    split; vm_compute; [discriminate|reflexivity].
  - destruct (Henhanced (5 # 9)) as (Hslight & _).
    apply Hslight. vm_compute. reflexivity.
  - destruct (Henhanced (2 # 3)) as (_ & _ & Hclear & _).
    apply Hclear. split; vm_compute; [discriminate|reflexivity].
Defined.

(** ** Effects of the entry points on the world *)

Lemma reads_only_ret {A : Type} (a : A) : reads_only (mret a : M A).
Proof. intros w. reflexivity. Qed.

Lemma reads_only_raise {A : Type} (e : error) : reads_only (raise e : M A).
Proof. intros w. reflexivity. Qed.

Lemma reads_only_lift {A : Type} (r : res A) : reads_only (lift r).
Proof. intros w. reflexivity. Qed.

Lemma reads_only_query_session (sid : Z) : reads_only (query_session sid).
Proof. intros w. reflexivity. Qed.

Lemma reads_only_query_answers (sid : Z) : reads_only (query_answers sid).
Proof. intros w. reflexivity. Qed.

Lemma reads_only_query_active_questions : reads_only query_active_questions.
Proof. intros w. reflexivity. Qed.

Lemma reads_only_query_personality_type (type_code : string) :
  reads_only (query_personality_type type_code).
Proof. intros w. reflexivity. Qed.

Lemma reads_only_bind {A B : Type} (m : M A) (f : A → M B) :
  reads_only m → (∀ a, reads_only (f a)) → reads_only (m ≫= f).
Proof.
  intros Hm Hf w. unfold mbind, M_bind. specialize (Hm w).
  destruct (m w) as [[a|e] w1]; cbn in Hm; subst w1; [apply Hf|reflexivity].
Qed.

#[global] Hint Resolve reads_only_ret reads_only_raise reads_only_lift
  reads_only_query_session reads_only_query_answers
  reads_only_query_active_questions reads_only_query_personality_type : effects.

Lemma reads_only_atomic {A : Type} (m : M A) : reads_only m → atomic m.
Proof. intros Hm w e w' Heq. specialize (Hm w). rewrite Heq in Hm. exact Hm. Qed.

Lemma atomic_bind_read {A B : Type} (m : M A) (f : A → M B) :
  reads_only m → (∀ a, atomic (f a)) → atomic (m ≫= f).
Proof.
  intros Hm Hf w e w' Heq. unfold mbind, M_bind in Heq. specialize (Hm w).
  destruct (m w) as [[a|e1] w1]; cbn in Hm; subst w1.
  - eapply Hf. exact Heq.
  - congruence.
Qed.

Lemma atomic_then_ret {A B : Type} (m : M A) (b : B) :
  atomic m → atomic (m ≫= λ _, mret b).
Proof.
  intros Hm w e w' Heq. unfold mbind, M_bind in Heq.
  destruct (m w) as [[a|e1] w1] eqn:Hrun.
  - discriminate.
  - injection Heq as <- <-. eapply Hm. exact Hrun.
Qed.

Lemma atomic_commit_session (sid : Z) (s : AssessmentSession) :
  atomic (commit_session sid s).
Proof.
  intros w e w' Heq. unfold commit_session in Heq.
  destruct (commit_ok w); [discriminate|congruence].
Qed.

Lemma reads_only_keeps_db {A : Type} (m : M A) : reads_only m → keeps_db m.
Proof. intros Hm w. rewrite Hm. reflexivity. Qed.

Lemma keeps_db_bind {A B : Type} (m : M A) (f : A → M B) :
  keeps_db m → (∀ a, keeps_db (f a)) → keeps_db (m ≫= f).
Proof.
  intros Hm Hf w. unfold mbind, M_bind. specialize (Hm w).
  destruct (m w) as [[a|e] w1]; cbn in Hm |- *.
  - rewrite Hf. exact Hm.
  - exact Hm.
Qed.

Lemma keeps_db_random_choice_AB : keeps_db random_choice_AB.
Proof. intros w. reflexivity. Qed.

Lemma keeps_db_for_each {A B : Type} (body : A → B → M A) (xs : list B) :
  (∀ acc x, keeps_db (body acc x)) → ∀ acc, keeps_db (for_each body acc xs).
Proof.
  intros Hbody. induction xs as [|x xs IH]; intros acc.
  - intros w. reflexivity.
  - cbn [for_each]. apply keeps_db_bind; [apply Hbody|apply IH].
Qed.

Lemma keeps_db_score_response (scores : Scoring.PersonalityScores) (pair : Z * Question) :
  keeps_db (Scoring.score_response scores pair).
Proof.
  destruct pair as [response question]. unfold Scoring.score_response.
  apply keeps_db_bind.
  - destruct (response <=? 2); [apply reads_only_keeps_db; auto with effects|].
    destruct (response >=? 4); [apply reads_only_keeps_db; auto with effects|].
    apply keeps_db_random_choice_AB.
  - intros selected_option. apply reads_only_keeps_db. auto with effects.
Qed.

Lemma keeps_db_calculate_from_responses (responses : list Scoring.py_value) :
  keeps_db (Scoring.calculate_personality_type_from_responses responses).
Proof.
  unfold Scoring.calculate_personality_type_from_responses.
  destruct (negb _); [apply reads_only_keeps_db; auto with effects|].
  apply keeps_db_bind; [apply reads_only_keeps_db; auto with effects|].
  intros ints. apply keeps_db_bind.
  { apply reads_only_keeps_db. unfold Scoring.query_active_questions_by_id.
    apply reads_only_bind; auto with effects. }
  intros questions.
  destruct (negb _); [apply reads_only_keeps_db; auto with effects|].
  apply keeps_db_bind.
  { apply keeps_db_for_each. apply keeps_db_score_response. }
  intros scores. cbv zeta.
  apply keeps_db_bind; [|intros personality_type];
    apply reads_only_keeps_db; auto with effects.
Qed.

Lemma atomic_calculate_personality_type (sid : Z) :
  atomic (Scoring.calculate_personality_type sid).
Proof.
  unfold Scoring.calculate_personality_type.
  apply atomic_bind_read; [auto with effects|]. intros [session|];
    [|apply reads_only_atomic; auto with effects].
  destruct (negb (is_completed session));
    [apply reads_only_atomic; auto with effects|].
  apply atomic_bind_read; [auto with effects|]. intros answers.
  destruct (negb _); [apply reads_only_atomic; auto with effects|].
  apply atomic_bind_read; [auto with effects|]. intros rows. cbv zeta.
  apply atomic_bind_read; [auto with effects|]. intros personality_type.
  apply atomic_then_ret. unfold Scoring._update_session_with_results.
  apply atomic_bind_read; [auto with effects|]. intros personality_type'.
  apply atomic_commit_session.
Qed.

Section EnhancedEffects.
Variables math_sqrt math_log math_exp : Q → Q.

Lemma reads_only_validate_and_get_data (sid : Z) :
  reads_only (Enhanced._validate_and_get_data sid).
Proof.
  unfold Enhanced._validate_and_get_data.
  apply reads_only_bind; [auto with effects|]. intros [session|];
    [|auto with effects].
  destruct (negb (is_completed session)); [auto with effects|].
  apply reads_only_bind; [auto with effects|]. intros answers.
  destruct (negb _); [auto with effects|].
  apply reads_only_bind; auto with effects.
Qed.

Lemma atomic_calculate_enhanced_personality_type (sid : Z) :
  atomic (Enhanced.calculate_enhanced_personality_type math_sqrt math_log math_exp sid).
Proof.
  unfold Enhanced.calculate_enhanced_personality_type.
  apply atomic_bind_read; [apply reads_only_validate_and_get_data|].
  intros [[session answers] questions]. cbv zeta.
  apply atomic_bind_read; [auto with effects|]. intros [type_code type_confidence].
  apply atomic_bind_read; [auto with effects|]. intros statistical_metrics.
  apply atomic_bind_read; [auto with effects|]. intros stability_prediction.
  apply atomic_bind_read; [auto with effects|]. intros quality_score.
  apply atomic_bind_read; [auto with effects|]. intros confidence_notes.
  apply atomic_bind_read; [auto with effects|]. intros personality_type.
  apply atomic_then_ret. unfold Enhanced._update_session_with_enhanced_results.
  apply atomic_bind_read; [auto with effects|]. intros personality_type'.
  apply atomic_commit_session.
Qed.

End EnhancedEffects.

(** C4: when the number of stored answers is not 36 the session entry point
    raises and leaves the world, hence the stored type, strengths and
    clarity of the session, exactly as they were; for a completed session the
    error is the one for an incomplete assessment.  More generally no
    failure of either variant leaves a partial write behind. *)
Theorem incomplete_assessment_is_atomic :
  (∀ (sid : Z) (w : World),
     length (session_answers w sid) ≠ 36%nat →
     ∃ e, Scoring.calculate_personality_type sid w = (Raise e, w)
          ∧ (∀ session, sessions (db w) !! sid = Some session →
               is_completed session = true →
               e = ValueError (ExpectedAnswers (length (session_answers w sid)))))
  ∧ (∀ (sid : Z) (w w' : World) (e : error),
       Scoring.calculate_personality_type sid w = (Raise e, w') → w' = w)
  ∧ (∀ (math_sqrt math_log math_exp : Q → Q) (sid : Z) (w w' : World) (e : error),
       Enhanced.calculate_enhanced_personality_type math_sqrt math_log math_exp sid w
       = (Raise e, w') → w' = w).
Proof.
  split; [|split].
  - intros sid w Hlen.
    unfold session_answers in *.
    unfold Scoring.calculate_personality_type, mbind, M_bind, query_session,
      query_answers, raise.
    destruct (sessions (db w) !! sid) as [session|] eqn:Hsession.
    + destruct (is_completed session) eqn:Hcompleted; cbn [negb].
      * destruct (Nat.eqb_spec
                    (length (filter (λ a, session_id a = sid) (answers (db w)))) 36)
          as [Heq|Hne]; [contradiction|]. cbn [negb].
        eexists. split; [reflexivity|]. intros session' _ _. reflexivity.
      * eexists. split; [reflexivity|]. intros session' [= <-] Htrue. congruence.
    + eexists. split; [reflexivity|]. intros session' [=].
  - intros sid w w' e Hrun. eapply atomic_calculate_personality_type. exact Hrun.
  - intros math_sqrt math_log math_exp sid w w' e Hrun.
    eapply atomic_calculate_enhanced_personality_type. exact Hrun.
Qed.

(** The witness of C4: session 1 with 35 of the 36 sample questions
    answered. *)
Lemma incomplete_assessment_is_atomic_witness :
  ∃ e, Scoring.calculate_personality_type 1 Seed.world_35_answers
       = (Raise e, Seed.world_35_answers)
       ∧ e = ValueError (ExpectedAnswers 35).
Proof.
  destruct incomplete_assessment_is_atomic as (Hincomplete & _).
  destruct (Hincomplete 1 Seed.world_35_answers) as (e & Hrun & Hkind).
  - vm_compute. discriminate.
  - exists e. split; [exact Hrun|].
    apply (Hkind (Seed.fresh_session true)); vm_compute; reflexivity.
Defined.

(** C10: the raw-response entry point never writes to the database, whatever
    list of responses it is given and whether it returns or raises; the
    session entry point does write. *)
Theorem raw_entry_point_keeps_database :
  (∀ (responses : list Scoring.py_value) (w : World),
     db (Scoring.calculate_personality_type_from_responses responses w).2 = db w)
  ∧ sessions (db (Scoring.calculate_personality_type 1 Seed.world_all_A).2) !! 1
    ≠ sessions (db Seed.world_all_A) !! 1.
Proof.
  split.
  - intros responses w. apply keeps_db_calculate_from_responses.
  - vm_compute. discriminate.
Qed.

(** ** Answers to questions outside the catalog *)

(** A loop whose body does nothing on the elements that fail [P] is the loop
    over the elements that satisfy [P]. *)
Lemma foldl_filter_skip {A B : Type} (f : A → B → A) (P : B → Prop)
    `{!∀ x, Decision (P x)} (xs : list B) :
  (∀ acc x, ¬ P x → f acc x = acc) →
  ∀ acc, foldl f acc xs = foldl f acc (filter P xs).
Proof.
  intros Hskip. induction xs as [|x xs IH]; intros acc; [reflexivity|].
  cbn [foldl]. destruct (decide (P x)) as [Hx|Hx].
  - rewrite filter_cons_True by exact Hx. cbn [foldl]. apply IH.
  - rewrite filter_cons_False by exact Hx. rewrite (Hskip acc x Hx). apply IH.
Qed.

Lemma score_answer_unknown (questions : gmap Z Question)
    (scores : Scoring.PersonalityScores) (answer : AssessmentAnswer) :
  ¬ is_Some (questions !! question_id answer) →
  Scoring.score_answer questions scores answer = scores.
Proof.
  intros Hunknown. unfold Scoring.score_answer.
  destruct (questions !! question_id answer) as [question|]; [|reflexivity].
  exfalso. apply Hunknown. eexists. reflexivity.
Qed.

Lemma count_answer_unknown (questions : gmap Z Question)
    (dimension_scores : Dict.t (gmap string Z)) (answer : AssessmentAnswer) :
  ¬ is_Some (questions !! question_id answer) →
  Enhanced.count_answer questions dimension_scores answer = dimension_scores.
Proof.
  intros Hunknown. unfold Enhanced.count_answer.
  destruct (questions !! question_id answer) as [question|]; [|reflexivity].
  exfalso. apply Hunknown. eexists. reflexivity.
Qed.

(** The basic session entry point scores every completed session that has 36
    stored answers, whatever questions they reference. *)
Lemma calculate_personality_type_succeeds (sid : Z) (w : World)
    (session : AssessmentSession) :
  sessions (db w) !! sid = Some session →
  is_completed session = true →
  length (session_answers w sid) = 36%nat →
  commit_ok w = true →
  ∃ result w',
    Scoring.calculate_personality_type sid w = (Ok result, w')
    ∧ Scoring.dimension_scores result
      = Scoring._calculate_dimension_scores (session_answers w sid) (active_catalog w)
    ∧ sessions (db w')
      = <[sid := Scoring.write_results session
                   (head (filter (λ t, code t = Scoring.type_code result)
                            (personality_types (db w))))
                   result]> (sessions (db w)).
Proof.
  intros Hsession Hcompleted Hlen Hcommit.
  unfold session_answers, active_catalog in *.
  unfold Scoring.calculate_personality_type, Scoring._update_session_with_results,
    mbind, M_bind, mret, M_ret, query_session, query_answers,
    query_active_questions, query_personality_type, commit_session.
  rewrite Hsession. cbv beta iota. rewrite Hcompleted. cbn [negb]. cbv beta iota.
  rewrite Hlen. cbn [negb Nat.eqb]. cbv beta iota zeta. rewrite Hcommit.
  eexists. eexists. split; [reflexivity|]. split; reflexivity.
Qed.

(** C2, as the code has it: an answer that references a question id absent
    from the active catalog does not make scoring fail.  The basic session
    entry point succeeds on every completed session with 36 stored answers,
    and both tallies skip such answers: they equal the tallies of the
    answers whose question is in the catalog. *)
Theorem unknown_questions_are_skipped :
  (∀ (sid : Z) (w : World) (session : AssessmentSession),
     sessions (db w) !! sid = Some session →
     is_completed session = true →
     length (session_answers w sid) = 36%nat →
     commit_ok w = true →
     ∃ result w',
       Scoring.calculate_personality_type sid w = (Ok result, w')
       ∧ Scoring.dimension_scores result
         = Scoring._calculate_dimension_scores
             (filter (λ a, is_Some (active_catalog w !! question_id a))
                (session_answers w sid))
             (active_catalog w))
  ∧ (∀ (answers : list AssessmentAnswer) (questions : gmap Z Question),
       Scoring._calculate_dimension_scores answers questions
       = Scoring._calculate_dimension_scores
           (filter (λ a, is_Some (questions !! question_id a)) answers) questions)
  ∧ (∀ (math_sqrt : Q → Q) (answers : list AssessmentAnswer)
       (questions : gmap Z Question),
       Enhanced._calculate_dimensional_analyses math_sqrt answers questions
       = Enhanced._calculate_dimensional_analyses math_sqrt
           (filter (λ a, is_Some (questions !! question_id a)) answers) questions).
Proof.
  assert (∀ answers questions,
            Scoring._calculate_dimension_scores answers questions
            = Scoring._calculate_dimension_scores
                (filter (λ a, is_Some (questions !! question_id a)) answers) questions)
    as Hbasic.
  { intros answers questions. unfold Scoring._calculate_dimension_scores.
    apply (foldl_filter_skip (Scoring.score_answer questions)
             (λ a, is_Some (questions !! question_id a))).
    intros acc x. apply score_answer_unknown. }
  split; [|split].
  - intros sid w session Hsession Hcompleted Hlen Hcommit.
    destruct (calculate_personality_type_succeeds sid w session
                Hsession Hcompleted Hlen Hcommit) as (result & w' & Hrun & Hscores & _).
    exists result, w'. split; [exact Hrun|]. rewrite Hscores. apply Hbasic.
  - exact Hbasic.
  - intros math_sqrt answers questions.
    unfold Enhanced._calculate_dimensional_analyses, Enhanced.count_answers.
    f_equal.
    apply (foldl_filter_skip (Enhanced.count_answer questions)
             (λ a, is_Some (questions !! question_id a))).
    intros acc x. apply count_answer_unknown.
Qed.

(** The witness of C2 as amended: session 1 holds 35 answers to sample
    questions and one answer to question 99. *)
Lemma unknown_questions_are_skipped_witness :
  ∃ result w',
    Scoring.calculate_personality_type 1 Seed.world_one_unknown = (Ok result, w')
    ∧ Scoring.dimension_scores result
      = Scoring._calculate_dimension_scores
          (filter (λ a, is_Some (active_catalog Seed.world_one_unknown !! question_id a))
             (session_answers Seed.world_one_unknown 1))
          (active_catalog Seed.world_one_unknown).
Proof.
  destruct unknown_questions_are_skipped as (Hsucceeds & _).
  apply (Hsucceeds 1 Seed.world_one_unknown (Seed.fresh_session true));
    vm_compute; reflexivity.
Defined.

(** The counterexample to C2 as stated: session 1 holds an answer to question
    99, which is not in the catalog; scoring does not fail, it returns type
    ESTJ with only 35 answers counted. *)
Lemma unknown_question_is_not_rejected :
  (∃ answer,
     answer ∈ session_answers Seed.world_one_unknown 1
     ∧ active_catalog Seed.world_one_unknown !! question_id answer = None)
  ∧ ∃ result w',
      Scoring.calculate_personality_type 1 Seed.world_one_unknown = (Ok result, w')
      ∧ Scoring.type_code result = "ESTJ"
      ∧ Scoring.dimension_scores result
        = {| Scoring.e_score := 9; Scoring.i_score := 0;
             Scoring.s_score := 9; Scoring.n_score := 0;
             Scoring.t_score := 9; Scoring.f_score := 0;
             Scoring.j_score := 8; Scoring.p_score := 0 |}.
Proof.
  split.
  - exists {| session_id := 1; question_id := 99; selected_option := "A" |}.
    split; [|vm_compute; reflexivity].
    unfold session_answers. apply list_elem_of_filter. split; [reflexivity|].
    vm_compute. repeat first [constructor 1 | constructor 2].
  - eexists. eexists. split; [vm_compute; reflexivity|].
    split; vm_compute; reflexivity.
Qed.

(** ** Tallies *)

Lemma increment_nonnegative (scores : Scoring.PersonalityScores)
    (dim : PersonalityDimension) (first : bool) :
  nonnegative scores → nonnegative (Scoring.increment scores dim first).
Proof.
  destruct scores as [e i s n t f j p]. unfold nonnegative. cbn.
  intros (He & Hi & Hs & Hn & Ht & Hf & Hj & Hp).
  destruct dim, first; cbn; repeat split; lia.
Qed.

(** Every tally of the basic variant is a tuple of counts, so the
    hypothesis of [strength_bounds] holds of it. *)
Lemma tally_nonnegative (answers : list AssessmentAnswer) (questions : gmap Z Question) :
  nonnegative (Scoring._calculate_dimension_scores answers questions).
Proof.
  unfold Scoring._calculate_dimension_scores.
  assert (nonnegative Scoring.no_scores) as Hinit by (unfold nonnegative; cbn; lia).
  revert Hinit. generalize Scoring.no_scores as scores.
  induction answers as [|answer answers IH]; intros scores Hscores; [exact Hscores|].
  cbn [foldl]. apply IH. unfold Scoring.score_answer.
  destruct (questions !! question_id answer) as [question|]; [|exact Hscores].
  apply increment_nonnegative. exact Hscores.
Qed.

(** ** Scores that the enhanced variant clamps *)

Lemma clamp_unit (x : Q) :
  (0 <= Py.max 0.0 (Py.min 1.0 x) ∧ Py.max 0.0 (Py.min 1.0 x) <= 1)%Q.
Proof.
  unfold Py.max, Py.min.
  destruct (Qlt_le_dec x 1.0) as [H1|H1];
    [destruct (Qlt_le_dec 0.0 x) as [H0|H0]|destruct (Qlt_le_dec 0.0 1.0) as [H0|H0]];
    split; lra.
Qed.

(** The confidence level of a dimension lies in [0, 1], whatever [math.sqrt]
    returns. *)
Lemma confidence_level_unit (math_sqrt : Q → Q) (raw_score total_questions : Z) :
  (0 <= Enhanced._calculate_confidence_level math_sqrt raw_score total_questions
   ∧ Enhanced._calculate_confidence_level math_sqrt raw_score total_questions <= 1)%Q.
Proof.
  unfold Enhanced._calculate_confidence_level.
  destruct (total_questions =? 0); [split; lra|]. apply clamp_unit.
Qed.

Lemma response_consistency_unit (answers : list AssessmentAnswer)
    (questions : gmap Z Question) :
  (0 <= Enhanced._calculate_response_consistency answers questions
   ∧ Enhanced._calculate_response_consistency answers questions <= 1)%Q.
Proof. unfold Enhanced._calculate_response_consistency. apply clamp_unit. Qed.

Lemma type_stability_unit (analyses : Dict.t Enhanced.DimensionAnalysis)
    (metrics : Enhanced.StatisticalMetrics) (stability : Q) :
  Enhanced._predict_type_stability analyses metrics = Ok stability →
  (0 <= stability ∧ stability <= 1)%Q.
Proof.
  unfold Enhanced._predict_type_stability.
  destruct (map Enhanced.percentage (Dict.values analyses)) as [|s ss];
    [intros [= <-]; split; lra|].
  destruct (map Enhanced.confidence_level (Dict.values analyses)) as [|c cs];
    [intros [= <-]; split; lra|].
  unfold mbind, res_bind.
  destruct (Py.mean _) as [avg_strength|]; [|discriminate].
  destruct (Py.mean _) as [avg_confidence|]; [|discriminate].
  intros [= <-]. apply clamp_unit.
Qed.

(** ** The overall confidence *)

(** What [_determine_type_with_confidence] hands to the geometric mean: the
    confidence level of every pair that has an analysis, and 0.51 for a pair
    that has none.  Whether the two counts of a pair are equal plays no
    part. *)
Lemma type_confidence_is_geometric_mean (math_log math_exp : Q → Q)
    (analyses : Dict.t Enhanced.DimensionAnalysis) :
  let letter dim_key tie_break :=
    match Dict.get analyses dim_key with
    | Some analysis => Enhanced.preference_letter analysis
    | None => tie_break
    end in
  let confidence dim_key :=
    match Dict.get analyses dim_key with
    | Some analysis => Enhanced.confidence_level analysis
    | None => 0.51%Q
    end in
  Enhanced._determine_type_with_confidence math_log math_exp analyses
  = (overall_confidence ←
       Enhanced.geometric_mean math_log math_exp
         [confidence "EI"; confidence "SN"; confidence "TF"; confidence "JP"]%string;
     Ok (letter "EI" "I" +:+ letter "SN" "N" +:+ letter "TF" "F" +:+ letter "JP" "P",
         overall_confidence))%string.
Proof.
  assert (Enhanced.TIE_BREAKING_RULES !!! "EI" = ("I", 0.51%Q)
          ∧ Enhanced.TIE_BREAKING_RULES !!! "SN" = ("N", 0.51%Q)
          ∧ Enhanced.TIE_BREAKING_RULES !!! "TF" = ("F", 0.51%Q)
          ∧ Enhanced.TIE_BREAKING_RULES !!! "JP" = ("P", 0.51%Q))%string
    as (Hei & Hsn & Htf & Hjp) by (repeat split; reflexivity).
  cbv zeta. unfold Enhanced._determine_type_with_confidence. cbn [foldl].
  destruct (Dict.get analyses "EI"); rewrite ?Hei; cbv beta iota;
    destruct (Dict.get analyses "SN"); rewrite ?Hsn; cbv beta iota;
    destruct (Dict.get analyses "TF"); rewrite ?Htf; cbv beta iota;
    destruct (Dict.get analyses "JP"); rewrite ?Hjp; cbv beta iota;
    reflexivity.
Qed.

(** ** The two tallies and the two resolvers *)

(** The enhanced tally holds the counts of the basic tally, and their sums
    as totals. *)
Lemma count_answer_counts_of (questions : gmap Z Question)
    (scores : Scoring.PersonalityScores) (answer : AssessmentAnswer) :
  Enhanced.count_answer questions (counts_of scores) answer
  = counts_of (Scoring.score_answer questions scores answer).
Proof.
  unfold Enhanced.count_answer, Scoring.score_answer.
  destruct (questions !! question_id answer) as [question|]; [|reflexivity].
  unfold Enhanced.dimension_key.
  destruct scores as [e i s n t f j p].
  destruct (dimension question); cbn [dimension_value Py.str_remove Ascii.eqb Bool.eqb];
    destruct (Scoring.maps_to_first (selected_option answer) question);
    cbn [counts_of Dict.get Dict.update String.eqb Ascii.eqb Bool.eqb Scoring.increment
         Scoring.e_score Scoring.i_score Scoring.s_score Scoring.n_score
         Scoring.t_score Scoring.f_score Scoring.j_score Scoring.p_score];
    unfold Enhanced.bump.
  all: repeat first
         [ rewrite alter_insert_eq
         | rewrite alter_insert_ne by (intro; discriminate) ].
  all: unfold counts_of;
    cbn [Scoring.e_score Scoring.i_score Scoring.s_score Scoring.n_score
         Scoring.t_score Scoring.f_score Scoring.j_score Scoring.p_score].
  all: rewrite <- ?Z.add_assoc, ?(Z.add_comm 1); reflexivity.
Qed.

Lemma count_answers_counts_of (answers : list AssessmentAnswer)
    (questions : gmap Z Question) :
  Enhanced.count_answers answers questions
  = counts_of (Scoring._calculate_dimension_scores answers questions).
Proof.
  unfold Enhanced.count_answers, Scoring._calculate_dimension_scores.
  change Enhanced.no_counts with (counts_of Scoring.no_scores).
  generalize Scoring.no_scores as scores.
  induction answers as [|answer answers IH]; intros scores; [reflexivity|].
  cbn [foldl]. rewrite count_answer_counts_of. apply IH.
Qed.

Lemma dict_get_set_eq {V : Type} (d : Dict.t V) (k : string) (v : V) :
  Dict.get (Dict.set d k v) k = Some v.
Proof.
  induction d as [|[k' v'] d IH]; cbn [Dict.set Dict.get].
  - rewrite String.eqb_refl. reflexivity.
  - destruct (String.eqb k' k) eqn:Hk; cbn [Dict.get]; rewrite Hk; [reflexivity|exact IH].
Qed.

Lemma dict_get_set_ne {V : Type} (d : Dict.t V) (k k' : string) (v : V) :
  k ≠ k' → Dict.get (Dict.set d k v) k' = Dict.get d k'.
Proof.
  intros Hne. induction d as [|[k0 v0] d IH]; cbn [Dict.set Dict.get].
  - destruct (String.eqb_spec k k'); [contradiction|reflexivity].
  - destruct (String.eqb_spec k0 k) as [->|Hk0]; cbn [Dict.get].
    + destruct (String.eqb_spec k k'); [contradiction|reflexivity].
    + destruct (String.eqb_spec k0 k'); [reflexivity|exact IH].
Qed.

(** One step of the loop over [dimension_scores.items()], on the counters of
    one of the four pairs. *)
Lemma analyse_dimension_pair (math_sqrt : Q → Q)
    (analyses : Dict.t Enhanced.DimensionAnalysis)
    (dim_key first_letter second_letter : string) (first second : Z) :
  Py.str_index dim_key 0 = first_letter →
  Py.str_index dim_key 1 = second_letter →
  first_letter ≠ second_letter →
  first_letter ≠ "total"%string → second_letter ≠ "total"%string →
  (Enhanced.preference_letter
   <$> Dict.get
         (Enhanced.analyse_dimension math_sqrt analyses
            (dim_key,
             <["total" := first + second]>
               (<[second_letter := second]> (<[first_letter := first]> ∅))))
         dim_key
   = if first + second =? 0
     then Enhanced.preference_letter <$> Dict.get analyses dim_key
     else Some (analysed_letter first_letter second_letter first second))
  ∧ ∀ other, other ≠ dim_key →
      Dict.get
        (Enhanced.analyse_dimension math_sqrt analyses
           (dim_key,
            <["total" := first + second]>
              (<[second_letter := second]> (<[first_letter := first]> ∅))))
        other
      = Dict.get analyses other.
Proof.
  intros H0 H1 Hne Hft Hst. unfold Enhanced.analyse_dimension.
  rewrite !lookup_total_insert_eq, H0, H1.
  rewrite (lookup_insert_ne _ "total"%string first_letter) by congruence.
  rewrite (lookup_insert_ne _ second_letter first_letter) by congruence.
  rewrite (lookup_insert_ne _ "total"%string second_letter) by congruence.
  rewrite !lookup_insert_eq. cbn [from_option id].
  destruct (first + second =? 0); [split; [reflexivity|intros; reflexivity]|].
  unfold analysed_letter.
  destruct (first >=? second); cbv beta iota zeta.
  all: split; [rewrite dict_get_set_eq; reflexivity|].
  all: intros other Hother; apply dict_get_set_ne; congruence.
Qed.

Lemma analyses_letters (math_sqrt : Q → Q) (scores : Scoring.PersonalityScores) :
  let analyses := foldl (Enhanced.analyse_dimension math_sqrt) [] (counts_of scores) in
  let letter (first_letter second_letter : string) (first second : Z) :=
    if first + second =? 0 then None
    else Some (analysed_letter first_letter second_letter first second) in
  Enhanced.preference_letter <$> Dict.get analyses "EI"
  = letter "E" "I" (Scoring.e_score scores) (Scoring.i_score scores)
  ∧ Enhanced.preference_letter <$> Dict.get analyses "SN"
    = letter "S" "N" (Scoring.s_score scores) (Scoring.n_score scores)
  ∧ Enhanced.preference_letter <$> Dict.get analyses "TF"
    = letter "T" "F" (Scoring.t_score scores) (Scoring.f_score scores)
  ∧ Enhanced.preference_letter <$> Dict.get analyses "JP"
    = letter "J" "P" (Scoring.j_score scores) (Scoring.p_score scores).
Proof.
  destruct scores as [e i s n t f j p]. cbv zeta. unfold counts_of.
  cbn [foldl Scoring.e_score Scoring.i_score Scoring.s_score Scoring.n_score
         Scoring.t_score Scoring.f_score Scoring.j_score Scoring.p_score].
  set (a0 := ([] : Dict.t Enhanced.DimensionAnalysis)).
  destruct (analyse_dimension_pair math_sqrt a0 "EI" "E" "I" e i)
    as [Hei1 Hother1]; [reflexivity | reflexivity | discriminate ..|].
  set (a1 := Enhanced.analyse_dimension math_sqrt a0 _) in *.
  destruct (analyse_dimension_pair math_sqrt a1 "SN" "S" "N" s n)
    as [Hsn2 Hother2]; [reflexivity | reflexivity | discriminate ..|].
  set (a2 := Enhanced.analyse_dimension math_sqrt a1 _) in *.
  destruct (analyse_dimension_pair math_sqrt a2 "TF" "T" "F" t f)
    as [Htf3 Hother3]; [reflexivity | reflexivity | discriminate ..|].
  set (a3 := Enhanced.analyse_dimension math_sqrt a2 _) in *.
  destruct (analyse_dimension_pair math_sqrt a3 "JP" "J" "P" j p)
    as [Hjp4 Hother4]; [reflexivity | reflexivity | discriminate ..|].
  set (a4 := Enhanced.analyse_dimension math_sqrt a3 _) in *.
  repeat split.
  - rewrite Hother4, Hother3, Hother2 by discriminate. rewrite Hei1.
    destruct (e + i =? 0); reflexivity.
  - rewrite Hother4, Hother3 by discriminate. rewrite Hsn2.
    destruct (s + n =? 0); [|reflexivity]. rewrite Hother1 by discriminate. reflexivity.
  - rewrite Hother4 by discriminate. rewrite Htf3.
    destruct (t + f =? 0); [|reflexivity].
    rewrite Hother2, Hother1 by discriminate. reflexivity.
  - rewrite Hjp4. destruct (j + p =? 0); [|reflexivity].
    rewrite Hother3, Hother2, Hother1 by discriminate. reflexivity.
Qed.

(** Away from ties the letter of the analysis, or the tie-break letter of a
    pair without answers, is the letter of the basic resolver. *)
Lemma resolved_letters_agree (first_letter second_letter : string) (first second : Z) :
  0 ≤ first → 0 ≤ second → ¬ tied_with_answers first second →
  default second_letter
    (if first + second =? 0 then None
     else Some (analysed_letter first_letter second_letter first second))
  = (if first >? second then first_letter
     else if second >? first then second_letter else second_letter).
Proof.
  intros Hf Hs Htie. unfold tied_with_answers in Htie. unfold analysed_letter.
  destruct (Z.eqb_spec (first + second) 0), (Z.geb_spec first second),
    (Z.gtb_spec first second), (Z.gtb_spec second first);
    cbn [from_option id]; first [reflexivity | lia].
Qed.

(** Whenever no pair is tied with answers and the enhanced variant gets to a
    type code, it is the type code of the basic variant. *)
Lemma enhanced_type_agrees_without_ties (math_sqrt math_log math_exp : Q → Q)
    (answers : list AssessmentAnswer) (questions : gmap Z Question) :
  let scores := Scoring._calculate_dimension_scores answers questions in
  let analyses := Enhanced._calculate_dimensional_analyses math_sqrt answers questions in
  ¬ tied_with_answers (Scoring.e_score scores) (Scoring.i_score scores) →
  ¬ tied_with_answers (Scoring.s_score scores) (Scoring.n_score scores) →
  ¬ tied_with_answers (Scoring.t_score scores) (Scoring.f_score scores) →
  ¬ tied_with_answers (Scoring.j_score scores) (Scoring.p_score scores) →
  ∀ type_code type_confidence,
    Enhanced._determine_type_with_confidence math_log math_exp analyses
    = Ok (type_code, type_confidence) →
    type_code = Scoring._determine_personality_type scores.
Proof.
  intros scores analyses Hei Hsn Htf Hjp type_code type_confidence.
  rewrite type_confidence_is_geometric_mean. unfold mbind, res_bind.
  destruct (Enhanced.geometric_mean _ _ _) as [mean|]; [|discriminate].
  intros [= <- _].
  pose proof (tally_nonnegative answers questions)
    as (He & Hi & Hs & Hn & Ht & Hf & Hj & Hp).
  fold scores in He, Hi, Hs, Hn, Ht, Hf, Hj, Hp.
  destruct (analyses_letters math_sqrt scores) as (Lei & Lsn & Ltf & Ljp).
  unfold analyses, Enhanced._calculate_dimensional_analyses.
  rewrite count_answers_counts_of. fold scores.
  set (a := foldl _ _ _) in *.
  assert (∀ k tb, match Dict.get a k with
                  | Some analysis => Enhanced.preference_letter analysis
                  | None => tb
                  end = default tb (Enhanced.preference_letter <$> Dict.get a k))
    as Hdefault by (intros k tb; destruct (Dict.get a k); reflexivity).
  rewrite !Hdefault, Lei, Lsn, Ltf, Ljp.
  rewrite !resolved_letters_agree by assumption.
  unfold Scoring._determine_personality_type.
  repeat match goal with
         | |- context [?x >? ?y] => destruct (x >? y)
         end; reflexivity.
Qed.

(** ** Where the enhanced variant departs from the basic one *)

(** C1, at a failing input: on the even catalog with five As and five Bs on
    E-I the basic variant returns ISTJ (the tie goes to I), while the
    dimensional analysis of the enhanced variant resolves E-I to E and the
    enhanced entry point raises instead of returning a type. *)
Theorem enhanced_tie_resolves_to_first_letter (math_sqrt math_log math_exp : Q → Q) :
  (∃ result w',
     Scoring.calculate_personality_type 1 Seed.world_tied_EI = (Ok result, w')
     ∧ Scoring.dimension_scores result
       = {| Scoring.e_score := 5; Scoring.i_score := 5;
            Scoring.s_score := 8; Scoring.n_score := 0;
            Scoring.t_score := 9; Scoring.f_score := 0;
            Scoring.j_score := 9; Scoring.p_score := 0 |}
     ∧ Scoring.type_code result = "ISTJ")
  ∧ map (λ item, (item.1, Enhanced.preference_letter item.2))
      (Enhanced._calculate_dimensional_analyses math_sqrt
         (session_answers Seed.world_tied_EI 1) (active_catalog Seed.world_tied_EI))
    = [("EI", "E"); ("SN", "S"); ("TF", "T"); ("JP", "J")]%string
  ∧ Enhanced.calculate_enhanced_personality_type approx_sqrt math_log math_exp
      1 Seed.world_tied_EI
    = (Raise StatisticsError, Seed.world_tied_EI).
Proof.
  split; [|split].
  - eexists. eexists. split; [vm_compute; reflexivity|].
    split; vm_compute; reflexivity.
  - vm_compute. reflexivity.
  - vm_compute. reflexivity.
Qed.

(** C5, at a failing input: on the all-A session the enhanced variant returns
    percentage 1 for every pair, keyed by EI, SN, TF, JP, but its write-back
    reads the keys E, S, T, J and stores 0.0 for the four strengths; the
    basic variant stores 1. *)
Theorem enhanced_write_back_stores_zero_strengths (math_log math_exp : Q → Q) :
  (∃ result w' session,
     Enhanced.calculate_enhanced_personality_type approx_sqrt math_log math_exp
       1 Seed.world_all_A = (Ok result, w')
     ∧ Enhanced.type_code result = "ESTJ"
     ∧ (∃ p, Enhanced.preference_strengths result !! "EI" = Some p ∧ (p == 1)%Q)
     ∧ Enhanced.preference_strengths result !! "E" = None
     ∧ sessions (db w') !! 1 = Some session
     ∧ personality_type_id session = Some 11
     ∧ e_strength session = Some 0.0%Q
     ∧ s_strength session = Some 0.0%Q
     ∧ t_strength session = Some 0.0%Q
     ∧ j_strength session = Some 0.0%Q
     ∧ ei_clarity session = Some VERY_CLEAR)
  ∧ (∃ result w' session p,
       Scoring.calculate_personality_type 1 Seed.world_all_A = (Ok result, w')
       ∧ Scoring.type_code result = "ESTJ"
       ∧ sessions (db w') !! 1 = Some session
       ∧ e_strength session = Some p
       ∧ Scoring.preference_strengths result !! "E" = Some p
       ∧ (p == 1)%Q).
Proof.
  split.
  - eexists. eexists. eexists. split; [vm_compute; reflexivity|].
    split; [vm_compute; reflexivity|].
    split; [eexists; split; [vm_compute; reflexivity|reflexivity]|].
    repeat split; vm_compute; reflexivity.
  - eexists. eexists. eexists. eexists. split; [vm_compute; reflexivity|].
    repeat split; vm_compute; reflexivity.
Qed.

(** C6, at a failing input: on the even catalog with a 5-5 tie on E-I the
    tied pair has an analysis, so it contributes its own confidence level,
    which is 0 and not 0.51; the geometric mean is undefined on it and the
    overall confidence is never computed, although the geometric mean of
    0.51 and the three other confidence levels exists. *)
Theorem tied_dimension_contributes_zero_confidence (math_log math_exp : Q → Q) :
  let analyses :=
    Enhanced._calculate_dimensional_analyses approx_sqrt
      (session_answers Seed.world_tied_EI 1) (active_catalog Seed.world_tied_EI) in
  (∃ ei sn tf jp,
     map (λ item, (item.1, Enhanced.confidence_level item.2)) analyses
     = [("EI", ei); ("SN", sn); ("TF", tf); ("JP", jp)]%string
     ∧ (ei == 0)%Q ∧ (sn == 1)%Q ∧ (tf == 1)%Q ∧ (jp == 1)%Q
     ∧ ∃ mean,
         Enhanced.geometric_mean math_log math_exp [0.51%Q; sn; tf; jp] = Ok mean)
  ∧ Enhanced._determine_type_with_confidence math_log math_exp analyses
    = Raise StatisticsError
  ∧ Enhanced.calculate_enhanced_personality_type approx_sqrt math_log math_exp
      1 Seed.world_tied_EI
    = (Raise StatisticsError, Seed.world_tied_EI).
Proof.
  cbv zeta. split; [|split].
  - eexists. eexists. eexists. eexists. split; [vm_compute; reflexivity|].
    repeat split; try reflexivity.
    eexists. vm_compute. reflexivity.
  - vm_compute. reflexivity.
  - vm_compute. reflexivity.
Qed.

(** C7, at a failing input: with four As out of nine in every dimension of
    the sample catalog the enhanced variant returns a result whose internal
    consistency is -1/9, below the interval [0, 1]. *)
Theorem internal_consistency_can_be_negative (math_log math_exp : Q → Q) :
  ∃ result w',
    Enhanced.calculate_enhanced_personality_type approx_sqrt math_log math_exp
      1 Seed.world_four_of_nine = (Ok result, w')
    ∧ Enhanced.type_code result = "INFP"
    ∧ (Enhanced.internal_consistency (Enhanced.statistical_metrics result) == - (1 # 9))%Q
    ∧ ¬ (0 <= Enhanced.internal_consistency (Enhanced.statistical_metrics result))%Q.
Proof.
  eexists. eexists. split; [vm_compute; reflexivity|].
  split; [vm_compute; reflexivity|].
  split; [vm_compute; reflexivity|].
  vm_compute. intros H. apply H. reflexivity.
Qed.

(** ** What the tally counts *)

Lemma votes_cons questions dim first answer answers :
  votes questions dim first (answer :: answers)
  = (if votes_for questions dim first answer then 1 else 0)
    + votes questions dim first answers.
Proof.
  unfold votes. destruct (votes_for questions dim first answer) eqn:Hv.
  - rewrite filter_cons_True by exact Hv. cbn [length]. lia.
  - rewrite filter_cons_False by (rewrite Hv; discriminate). lia.
Qed.

Lemma scores_eq (a b : Scoring.PersonalityScores) :
  Scoring.e_score a = Scoring.e_score b → Scoring.i_score a = Scoring.i_score b →
  Scoring.s_score a = Scoring.s_score b → Scoring.n_score a = Scoring.n_score b →
  Scoring.t_score a = Scoring.t_score b → Scoring.f_score a = Scoring.f_score b →
  Scoring.j_score a = Scoring.j_score b → Scoring.p_score a = Scoring.p_score b →
  a = b.
Proof. destruct a, b; cbn; intros; subst; reflexivity. Qed.

Lemma tally_loop_votes questions answers : ∀ scores,
  foldl (Scoring.score_answer questions) scores answers
  = add_votes scores questions answers.
Proof.
  induction answers as [|answer answers IH]; intros scores.
  - destruct scores; unfold add_votes, votes; cbn; f_equal; lia.
  - cbn [foldl]. rewrite IH. unfold add_votes. rewrite !votes_cons.
    unfold Scoring.score_answer, votes_for.
    destruct (questions !! question_id answer) as [question|].
    + destruct scores as [e i s n t f j p].
      destruct (dimension question),
        (Scoring.maps_to_first (selected_option answer) question);
        apply scores_eq; cbn; lia.
    + apply scores_eq; cbn; lia.
Qed.

(** The votes of the eight letters add up to the number of answers whose
    question is in the catalog. *)
Lemma votes_total questions answers :
  votes questions EI true answers + votes questions EI false answers
  + votes questions SN true answers + votes questions SN false answers
  + votes questions TF true answers + votes questions TF false answers
  + votes questions JP true answers + votes questions JP false answers
  = Z.of_nat (length (filter (λ a, is_Some (questions !! question_id a)) answers)).
Proof.
  induction answers as [|answer answers IH].
  - reflexivity.
  - rewrite !votes_cons. unfold votes_for.
    destruct (questions !! question_id answer) as [question|] eqn:Hq.
    + rewrite filter_cons_True by (rewrite Hq; eauto). cbn [length].
      destruct (dimension question),
        (Scoring.maps_to_first (selected_option answer) question); cbn; lia.
    + rewrite filter_cons_False by (rewrite Hq; intros [? [=]]). lia.
Qed.

(** X1: the tally of the basic variant counts, for each of the eight
    letters, the answers whose question is in the catalog, belongs to the
    pair of the letter, and whose selected option maps to that letter; so the
    eight counters add up to the number of answers whose question is in the
    catalog. *)
Theorem tally_counts_votes (answers : list AssessmentAnswer) (questions : gmap Z Question) :
  let scores := Scoring._calculate_dimension_scores answers questions in
  (Scoring.e_score scores = votes questions EI true answers
   ∧ Scoring.i_score scores = votes questions EI false answers)
  ∧ (Scoring.s_score scores = votes questions SN true answers
     ∧ Scoring.n_score scores = votes questions SN false answers)
  ∧ (Scoring.t_score scores = votes questions TF true answers
     ∧ Scoring.f_score scores = votes questions TF false answers)
  ∧ (Scoring.j_score scores = votes questions JP true answers
     ∧ Scoring.p_score scores = votes questions JP false answers)
  ∧ counted scores
    = Z.of_nat (length (filter (λ a, is_Some (questions !! question_id a)) answers)).
Proof.
  cbv zeta. unfold Scoring._calculate_dimension_scores. rewrite tally_loop_votes.
  rewrite <- votes_total. unfold add_votes, counted; cbn.
  split; [|split; [|split; [|split]]]; [split; lia..|lia].
Qed.

(** ** The analyses as a function of the tally *)

Lemma analyse_dimension_entry (math_sqrt : Q → Q)
    (analyses : Dict.t Enhanced.DimensionAnalysis)
    (dim_key first_letter second_letter : string) (first second : Z) :
  Py.str_index dim_key 0 = first_letter →
  Py.str_index dim_key 1 = second_letter →
  first_letter ≠ second_letter →
  first_letter ≠ "total"%string → second_letter ≠ "total"%string →
  Enhanced.analyse_dimension math_sqrt analyses
    (dim_key,
     <["total" := first + second]>
       (<[second_letter := second]> (<[first_letter := first]> ∅)))
  = if first + second =? 0 then analyses
    else Dict.set analyses dim_key
           (analysis_of math_sqrt dim_key first_letter second_letter first second).
Proof.
  intros H0 H1 Hne Hft Hst. unfold Enhanced.analyse_dimension.
  rewrite !lookup_total_insert_eq, H0, H1.
  rewrite (lookup_insert_ne _ "total"%string first_letter) by congruence.
  rewrite (lookup_insert_ne _ second_letter first_letter) by congruence.
  rewrite (lookup_insert_ne _ "total"%string second_letter) by congruence.
  rewrite !lookup_insert_eq. cbn [from_option id].
  destruct (first + second =? 0); [reflexivity|].
  unfold analysis_of. destruct (first >=? second); reflexivity.
Qed.

(** The analyses are the present entries, in the order EI, SN, TF, JP. *)
Lemma analyses_of_scores (math_sqrt : Q → Q) (scores : Scoring.PersonalityScores) :
  foldl (Enhanced.analyse_dimension math_sqrt) [] (counts_of scores)
  = omap (λ '(k, o), (λ a, (k, a)) <$> o) (entries_of math_sqrt scores).
Proof.
  destruct scores as [e i s n t f j p]. unfold counts_of, entries_of, entry_of.
  cbn [foldl Scoring.e_score Scoring.i_score Scoring.s_score Scoring.n_score
         Scoring.t_score Scoring.f_score Scoring.j_score Scoring.p_score].
  rewrite (analyse_dimension_entry math_sqrt _ "EI" "E" "I") by (reflexivity || discriminate).
  rewrite (analyse_dimension_entry math_sqrt _ "SN" "S" "N") by (reflexivity || discriminate).
  rewrite (analyse_dimension_entry math_sqrt _ "TF" "T" "F") by (reflexivity || discriminate).
  rewrite (analyse_dimension_entry math_sqrt _ "JP" "J" "P") by (reflexivity || discriminate).
  destruct (e + i =? 0), (s + n =? 0), (t + f =? 0), (j + p =? 0); reflexivity.
Qed.

Lemma analyses_of_answers (math_sqrt : Q → Q) (answers : list AssessmentAnswer)
    (questions : gmap Z Question) :
  Enhanced._calculate_dimensional_analyses math_sqrt answers questions
  = omap (λ '(k, o), (λ a, (k, a)) <$> o)
      (entries_of math_sqrt (Scoring._calculate_dimension_scores answers questions)).
Proof.
  unfold Enhanced._calculate_dimensional_analyses.
  rewrite count_answers_counts_of. apply analyses_of_scores.
Qed.

Lemma analyses_get (math_sqrt : Q → Q) (answers : list AssessmentAnswer)
    (questions : gmap Z Question) :
  let scores := Scoring._calculate_dimension_scores answers questions in
  let analyses := Enhanced._calculate_dimensional_analyses math_sqrt answers questions in
  Dict.get analyses "EI"
  = entry_of math_sqrt "EI" "E" "I" (Scoring.e_score scores) (Scoring.i_score scores)
  ∧ Dict.get analyses "SN"
    = entry_of math_sqrt "SN" "S" "N" (Scoring.s_score scores) (Scoring.n_score scores)
  ∧ Dict.get analyses "TF"
    = entry_of math_sqrt "TF" "T" "F" (Scoring.t_score scores) (Scoring.f_score scores)
  ∧ Dict.get analyses "JP"
    = entry_of math_sqrt "JP" "J" "P" (Scoring.j_score scores) (Scoring.p_score scores)
  ∧ ∀ k, k ∉ ["EI"; "SN"; "TF"; "JP"]%string → Dict.get analyses k = None.
Proof.
  cbv zeta. rewrite analyses_of_answers.
  destruct (Scoring._calculate_dimension_scores answers questions) as [e i s n t f j p].
  unfold entries_of, entry_of.
  cbn [Scoring.e_score Scoring.i_score Scoring.s_score Scoring.n_score
         Scoring.t_score Scoring.f_score Scoring.j_score Scoring.p_score].
  split; [|split; [|split; [|split]]].
  1-4: destruct (e + i =? 0), (s + n =? 0), (t + f =? 0), (j + p =? 0); reflexivity.
  intros k Hk.
  assert (String.eqb "EI" k = false ∧ String.eqb "SN" k = false
          ∧ String.eqb "TF" k = false ∧ String.eqb "JP" k = false)
    as (H1 & H2 & H3 & H4).
  { repeat split; apply String.eqb_neq; intros <-; apply Hk; set_solver. }
  destruct (e + i =? 0), (s + n =? 0), (t + f =? 0), (j + p =? 0);
    cbn [omap list_omap fmap option_fmap option_map Dict.get];
    rewrite ?H1, ?H2, ?H3, ?H4; reflexivity.
Qed.

Lemma approx_sqrt_positive : sqrt_positive approx_sqrt.
Proof.
  intros x Hx. unfold approx_sqrt.
  destruct (Qlt_le_dec 0 x) as [_|Hle]; [|lra].
  unfold Qlt. cbn [Qnum Qden]. rewrite Z.mul_1_r. cbn [Z.mul].
  apply Z.sqrt_pos.
  assert (0 < Qnum x) as Hnum.
  { unfold Qlt in Hx. cbn in Hx. lia. }
  pose proof (Pos2Z.is_pos (Qden x)).
  pose proof (Pos2Z.is_pos sqrt_digits).
  apply Z.mul_pos_pos; [apply Z.mul_pos_pos; assumption|apply Z.mul_pos_pos; assumption].
Qed.

Lemma clamp_nonpositive (x : Q) : (x <= 0)%Q → (Py.max 0.0 (Py.min 1.0 x) <= 0)%Q.
Proof.
  intros Hx. unfold Py.max, Py.min.
  destruct (Qlt_le_dec x 1.0); [|lra].
  destruct (Qlt_le_dec 0.0 x); lra.
Qed.

Lemma truediv_half (n : Z) : n ≠ 0 → (Py.truediv n (n + n) == 1 # 2)%Q.
Proof.
  intros Hn. unfold Py.truediv. rewrite inject_Z_plus. field.
  intros H. rewrite <- inject_Z_plus in H.
  unfold Qeq in H. cbn in H. lia.
Qed.

(** The confidence level of a tied pair with answers is not positive. *)
Lemma confidence_level_tie (math_sqrt : Q → Q) (n : Z) :
  sqrt_positive math_sqrt → 0 < n →
  (Enhanced._calculate_confidence_level math_sqrt n (n + n) <= 0)%Q.
Proof.
  intros Hsqrt Hn. unfold Enhanced._calculate_confidence_level.
  destruct (Z.eqb_spec (n + n) 0) as [Heq|_]; [lia|].
  pose proof (truediv_half n ltac:(lia)) as Hp.
  set (p := Py.truediv n (n + n)) in *.
  assert (Py.abs (p - 0.5) == 0)%Q as Habs.
  { unfold Py.abs. rewrite Hp. reflexivity. }
  apply clamp_nonpositive.
  destruct (n + n >? 5).
  - destruct (Qlt_le_dec 0 _) as [Hm|Hm].
    + unfold Py.min. destruct (Qlt_le_dec _ 1.0) as [_|Hge].
      * rewrite Habs. unfold Qdiv. lra.
      * rewrite Habs in Hge. unfold Qdiv in Hge. lra.
    + exfalso. revert Hm. apply Qlt_not_le.
      assert (0 < math_sqrt (p * (1 - p) / inject_Z (n + n)))%Q as Hs.
      { apply Hsqrt. rewrite Hp. apply Qlt_shift_div_l.
        - change 0%Q with (inject_Z 0). rewrite <- Zlt_Qlt. lia.
        - lra. }
      lra.
  - rewrite Habs. lra.
Qed.

Lemma geometric_mean_nonpositive (math_log math_exp : Q → Q) (data : list Q) (x : Q) :
  x ∈ data → (x <= 0)%Q →
  Enhanced.geometric_mean math_log math_exp data = Raise StatisticsError.
Proof.
  intros Hin Hx. unfold Enhanced.geometric_mean.
  destruct data as [|y data]; [reflexivity|].
  destruct (forallb _ (y :: data)) eqn:Hall; [|reflexivity].
  exfalso. rewrite forallb_forall in Hall.
  specialize (Hall x). rewrite <- list_elem_of_In in Hall. specialize (Hall Hin).
  destruct (Qlt_le_dec 0 x); [lra|discriminate].
Qed.

Lemma entry_of_tie (math_sqrt : Q → Q) (dim_key first_letter second_letter : string)
    (first second : Z) :
  sqrt_positive math_sqrt → 0 ≤ first → tied_with_answers first second →
  ∃ analysis,
    entry_of math_sqrt dim_key first_letter second_letter first second = Some analysis
    ∧ (Enhanced.confidence_level analysis <= 0)%Q.
Proof.
  intros Hsqrt Hfirst [<- Htotal]. unfold entry_of.
  destruct (Z.eqb_spec (first + first) 0) as [|_]; [contradiction|].
  eexists. split; [reflexivity|]. unfold analysis_of. cbn [Enhanced.confidence_level].
  destruct (Z.geb_spec first first) as [_|]; [|lia].
  apply confidence_level_tie; [assumption|lia].
Qed.

(** A pair that is tied although it has answers makes the type resolution
    of the enhanced variant raise. *)
Lemma determine_type_raises_on_tie (math_sqrt math_log math_exp : Q → Q)
    (answers : list AssessmentAnswer) (questions : gmap Z Question) :
  let scores := Scoring._calculate_dimension_scores answers questions in
  sqrt_positive math_sqrt →
  tied_with_answers (Scoring.e_score scores) (Scoring.i_score scores)
  ∨ tied_with_answers (Scoring.s_score scores) (Scoring.n_score scores)
  ∨ tied_with_answers (Scoring.t_score scores) (Scoring.f_score scores)
  ∨ tied_with_answers (Scoring.j_score scores) (Scoring.p_score scores) →
  Enhanced._determine_type_with_confidence math_log math_exp
    (Enhanced._calculate_dimensional_analyses math_sqrt answers questions)
  = Raise StatisticsError.
Proof.
  intros scores Hsqrt Htied.
  rewrite type_confidence_is_geometric_mean.
  destruct (analyses_get math_sqrt answers questions) as (Gei & Gsn & Gtf & Gjp & _).
  fold scores in Gei, Gsn, Gtf, Gjp.
  pose proof (tally_nonnegative answers questions)
    as (He & _ & Hs & _ & Ht & _ & Hj & _).
  fold scores in He, Hs, Ht, Hj.
  rewrite Gei, Gsn, Gtf, Gjp.
  destruct Htied as [H|[H|[H|H]]].
  - destruct (entry_of_tie math_sqrt "EI" "E" "I" _ _ Hsqrt He H) as (a & -> & Ha).
    erewrite geometric_mean_nonpositive; [reflexivity| |exact Ha]. set_solver.
  - destruct (entry_of_tie math_sqrt "SN" "S" "N" _ _ Hsqrt Hs H) as (a & -> & Ha).
    erewrite geometric_mean_nonpositive; [reflexivity| |exact Ha]. set_solver.
  - destruct (entry_of_tie math_sqrt "TF" "T" "F" _ _ Hsqrt Ht H) as (a & -> & Ha).
    erewrite geometric_mean_nonpositive; [reflexivity| |exact Ha]. set_solver.
  - destruct (entry_of_tie math_sqrt "JP" "J" "P" _ _ Hsqrt Hj H) as (a & -> & Ha).
    erewrite geometric_mean_nonpositive; [reflexivity| |exact Ha]. set_solver.
Qed.

Lemma tied_with_answers_dec (first second : Z) :
  {tied_with_answers first second} + {¬ tied_with_answers first second}.
Proof.
  unfold tied_with_answers.
  destruct (Z.eq_dec first second); [|right; tauto].
  destruct (Z.eq_dec (first + second) 0); [right; tauto|left; tauto].
Qed.

(** Whenever the type resolution of the enhanced variant returns a code, it
    is the code of the basic resolver. *)
Lemma determine_type_agrees (math_sqrt math_log math_exp : Q → Q)
    (answers : list AssessmentAnswer) (questions : gmap Z Question)
    (type_code : string) (type_confidence : Q) :
  sqrt_positive math_sqrt →
  Enhanced._determine_type_with_confidence math_log math_exp
    (Enhanced._calculate_dimensional_analyses math_sqrt answers questions)
  = Ok (type_code, type_confidence) →
  type_code
  = Scoring._determine_personality_type
      (Scoring._calculate_dimension_scores answers questions).
Proof.
  intros Hsqrt Hok.
  set (scores := Scoring._calculate_dimension_scores answers questions).
  destruct (tied_with_answers_dec (Scoring.e_score scores) (Scoring.i_score scores)) as [T|Nei];
    [rewrite (determine_type_raises_on_tie math_sqrt) in Hok by (assumption || (fold scores; tauto)); discriminate|].
  destruct (tied_with_answers_dec (Scoring.s_score scores) (Scoring.n_score scores)) as [T|Nsn];
    [rewrite (determine_type_raises_on_tie math_sqrt) in Hok by (assumption || (fold scores; tauto)); discriminate|].
  destruct (tied_with_answers_dec (Scoring.t_score scores) (Scoring.f_score scores)) as [T|Ntf];
    [rewrite (determine_type_raises_on_tie math_sqrt) in Hok by (assumption || (fold scores; tauto)); discriminate|].
  destruct (tied_with_answers_dec (Scoring.j_score scores) (Scoring.p_score scores)) as [T|Njp];
    [rewrite (determine_type_raises_on_tie math_sqrt) in Hok by (assumption || (fold scores; tauto)); discriminate|].
  eapply (enhanced_type_agrees_without_ties math_sqrt math_log math_exp answers questions);
    eassumption.
Qed.

(** ** Runs of the two session entry points *)

Lemma validate_and_get_data_inv (sid : Z) (w w' : World)
    (session : AssessmentSession) (answers : list AssessmentAnswer)
    (questions : gmap Z Question) :
  Enhanced._validate_and_get_data sid w = (Ok (session, answers, questions), w') →
  w' = w ∧ scorable w sid session
  ∧ answers = session_answers w sid ∧ questions = active_catalog w.
Proof.
  unfold Enhanced._validate_and_get_data, scorable, session_answers, active_catalog,
    mbind, M_bind, mret, M_ret, query_session, query_answers, query_active_questions, raise.
  destruct (sessions (db w) !! sid) as [s|]; [|discriminate].
  destruct (is_completed s) eqn:Hc; cbn [negb]; [|discriminate].
  destruct (Nat.eqb_spec (length (filter (λ a, session_id a = sid) (Models.answers (db w)))) 36)
    as [Hlen|]; cbn [negb]; [|discriminate].
  intros [= <- <- <- <-]. repeat split; assumption.
Qed.

Lemma validate_and_get_data_ok (sid : Z) (w : World) (session : AssessmentSession) :
  scorable w sid session →
  Enhanced._validate_and_get_data sid w
  = (Ok (session, session_answers w sid, active_catalog w), w).
Proof.
  intros (Hs & Hc & Hlen).
  unfold Enhanced._validate_and_get_data, session_answers, active_catalog in *.
  unfold mbind, M_bind, mret, M_ret, query_session, query_answers, query_active_questions.
  rewrite Hs. cbv beta iota. rewrite Hc. cbn [negb]. cbv beta iota.
  rewrite Hlen. reflexivity.
Qed.

Section EnhancedRuns.
Variables math_sqrt math_log math_exp : Q → Q.

(** What a successful run of the enhanced entry point computed and wrote. *)
Lemma calculate_enhanced_inv (sid : Z) (w w' : World)
    (result : Enhanced.EnhancedPersonalityResult) :
  Enhanced.calculate_enhanced_personality_type math_sqrt math_log math_exp sid w
  = (Ok result, w') →
  ∃ session,
    let analyses :=
      Enhanced._calculate_dimensional_analyses math_sqrt
        (session_answers w sid) (active_catalog w) in
    scorable w sid session
    ∧ commit_ok w = true
    ∧ Enhanced._determine_type_with_confidence math_log math_exp analyses
      = Ok (Enhanced.type_code result, Enhanced.type_confidence result)
    ∧ Enhanced.dimension_analyses result = analyses
    ∧ Enhanced.preference_strengths result = Dict.to_gmap Enhanced.percentage analyses
    ∧ Enhanced.preference_clarity result = Dict.to_gmap Enhanced.strength_category analyses
    ∧ Enhanced._calculate_statistical_metrics math_sqrt
        (session_answers w sid) (active_catalog w) analyses
      = Ok (Enhanced.statistical_metrics result)
    ∧ w' = with_session w sid
             (Enhanced.write_results session
                (type_with_code w (Enhanced.type_code result)) result).
Proof.
  intros Hrun. unfold Enhanced.calculate_enhanced_personality_type in Hrun.
  unfold mbind at 1, M_bind at 1 in Hrun.
  destruct (Enhanced._validate_and_get_data sid w)
    as [[[[session answers] questions]|e] w1] eqn:Hdata; [|discriminate Hrun].
  apply validate_and_get_data_inv in Hdata as (-> & Hscorable & -> & ->).
  cbv zeta in Hrun.
  unfold mbind, M_bind, lift, mret, M_ret, query_personality_type,
    Enhanced._update_session_with_enhanced_results, commit_session in Hrun.
  destruct (Enhanced._determine_type_with_confidence _ _ _)
    as [[type_code type_confidence]|] eqn:Htype; [|discriminate Hrun].
  cbv beta iota in Hrun.
  destruct (Enhanced._calculate_statistical_metrics _ _ _ _) as [metrics|] eqn:Hmetrics;
    [|discriminate Hrun].
  cbv beta iota in Hrun.
  destruct (Enhanced._predict_type_stability _ _) as [stability|]; [|discriminate Hrun].
  cbv beta iota in Hrun.
  destruct (Enhanced._calculate_assessment_quality _ _) as [quality|]; [|discriminate Hrun].
  cbv beta iota in Hrun.
  destruct (Enhanced._generate_confidence_notes _ _) as [notes|]; [|discriminate Hrun].
  cbv beta iota in Hrun. cbn [Enhanced.type_code] in Hrun.
  unfold mbind, M_bind, query_personality_type in Hrun. cbv beta iota in Hrun.
  destruct (commit_ok w) eqn:Hcommit; cbv beta iota in Hrun; [|discriminate Hrun].
  injection Hrun as <- <-. exists session. cbv zeta.
  cbn [Enhanced.type_code Enhanced.type_confidence Enhanced.dimension_analyses
       Enhanced.preference_strengths Enhanced.preference_clarity
       Enhanced.statistical_metrics].
  unfold with_session, type_with_code. rewrite Hcommit.
  split; [exact Hscorable|]. repeat split; try reflexivity; assumption.
Qed.

End EnhancedRuns.

Lemma calculate_personality_type_ok (sid : Z) (w : World) (session : AssessmentSession) :
  scorable w sid session → commit_ok w = true →
  Scoring.calculate_personality_type sid w
  = (Ok (basic_result w sid), with_session w sid (basic_row w sid session)).
Proof.
  intros (Hs & Hc & Hlen) Hcommit.
  unfold basic_row, basic_result, with_session, type_with_code, session_answers, active_catalog in *.
  unfold Scoring.calculate_personality_type, Scoring._update_session_with_results,
    mbind, M_bind, mret, M_ret, query_session, query_answers,
    query_active_questions, query_personality_type, commit_session.
  rewrite Hs. cbv beta iota. rewrite Hc. cbn [negb]. cbv beta iota.
  rewrite Hlen. cbn [negb Nat.eqb]. cbv beta iota zeta. rewrite Hcommit.
  reflexivity.
Qed.

Lemma calculate_personality_type_inv (sid : Z) (w w' : World)
    (result : Scoring.PersonalityResult) :
  Scoring.calculate_personality_type sid w = (Ok result, w') →
  ∃ session, scorable w sid session ∧ commit_ok w = true.
Proof.
  unfold Scoring.calculate_personality_type, Scoring._update_session_with_results,
    scorable, session_answers,
    mbind, M_bind, mret, M_ret, query_session, query_answers,
    query_active_questions, query_personality_type, commit_session, raise.
  destruct (sessions (db w) !! sid) as [session|]; [|discriminate].
  destruct (is_completed session) eqn:Hc; cbn [negb]; [|discriminate].
  destruct (Nat.eqb_spec (length (filter (λ a, session_id a = sid) (Models.answers (db w)))) 36)
    as [Hlen|]; cbn [negb]; [|discriminate].
  cbv beta iota zeta.
  destruct (commit_ok w); [|discriminate].
  intros _. exists session. repeat split; assumption.
Qed.

(** ** What a scoring call writes *)

Lemma with_session_twice (w : World) (sid : Z) (s s' : AssessmentSession) :
  with_session (with_session w sid s) sid s' = with_session w sid s'.
Proof. unfold with_session. cbn. rewrite insert_insert_eq. reflexivity. Qed.

Lemma basic_result_with_session (w : World) (sid sid' : Z) (s : AssessmentSession) :
  basic_result (with_session w sid' s) sid = basic_result w sid.
Proof. reflexivity. Qed.

Lemma write_results_twice (session : AssessmentSession)
    (personality_type : option PersonalityType) (result : Scoring.PersonalityResult) :
  Scoring.write_results (Scoring.write_results session personality_type result)
    personality_type result
  = Scoring.write_results session personality_type result.
Proof. unfold Scoring.write_results. destruct personality_type; reflexivity. Qed.

(** X2: scoring a session a second time with the basic entry point
    returns the same result and leaves the world as the first call left
    it. *)
Theorem basic_scoring_is_idempotent (sid : Z) (w w' : World)
    (result : Scoring.PersonalityResult) :
  Scoring.calculate_personality_type sid w = (Ok result, w') →
  Scoring.calculate_personality_type sid w' = (Ok result, w').
Proof.
  intros Hrun.
  destruct (calculate_personality_type_inv sid w w' result Hrun)
    as (session & Hscorable & Hcommit).
  rewrite (calculate_personality_type_ok sid w session Hscorable Hcommit) in Hrun.
  injection Hrun as <- <-.
  rewrite (calculate_personality_type_ok sid _ (basic_row w sid session)).
  - rewrite with_session_twice. f_equal. f_equal.
    unfold basic_row. rewrite basic_result_with_session.
    change (type_with_code (with_session w sid _) ?c) with (type_with_code w c).
    apply write_results_twice.
  - destruct Hscorable as (Hs & Hc & Hlen). unfold scorable. split; [|split].
    + unfold with_session. cbn. apply lookup_insert_eq.
    + exact Hc.
    + exact Hlen.
  - exact Hcommit.
Qed.

Lemma basic_scoring_is_idempotent_witness :
  ∃ result w',
    Scoring.calculate_personality_type 1 Seed.world_all_A = (Ok result, w')
    ∧ Scoring.calculate_personality_type 1 w' = (Ok result, w').
Proof.
  eexists. eexists.
  assert (∀ r w', Scoring.calculate_personality_type 1 Seed.world_all_A = (Ok r, w') →
            Scoring.calculate_personality_type 1 Seed.world_all_A = (Ok r, w')
            ∧ Scoring.calculate_personality_type 1 w' = (Ok r, w')) as H.
  { intros r w' Hrun. split; [exact Hrun|].
    exact (basic_scoring_is_idempotent 1 Seed.world_all_A w' r Hrun). }
  apply H. vm_compute. reflexivity.
Defined.

(** X3: what a successful call of the basic entry point writes to the row
    of the session it scores: the shares of E, S, T and J in the tally of the
    stored answers (0.0 for a pair without answers), for each pair the
    clarity category of its dominant strength, and the id of the personality
    type row that has the resulting code (the id stays as it was when there
    is no such row); the session stays completed. *)
Theorem basic_write_back (sid : Z) (w w' : World) (result : Scoring.PersonalityResult) :
  Scoring.calculate_personality_type sid w = (Ok result, w') →
  ∃ session session',
    let scores := Scoring.dimension_scores result in
    let clarity (first_letter second_letter : string) :=
      Some (category_under Scoring.STRENGTH_THRESHOLDS
              (dominant (Scoring.preference_strengths result) first_letter second_letter)) in
    sessions (db w) !! sid = Some session
    ∧ sessions (db w') !! sid = Some session'
    ∧ scores = Scoring._calculate_dimension_scores (session_answers w sid) (active_catalog w)
    ∧ e_strength session' = Some (stored_share (Scoring.e_score scores) (Scoring.i_score scores))
    ∧ s_strength session' = Some (stored_share (Scoring.s_score scores) (Scoring.n_score scores))
    ∧ t_strength session' = Some (stored_share (Scoring.t_score scores) (Scoring.f_score scores))
    ∧ j_strength session' = Some (stored_share (Scoring.j_score scores) (Scoring.p_score scores))
    ∧ ei_clarity session' = clarity "E" "I"
    ∧ sn_clarity session' = clarity "S" "N"
    ∧ tf_clarity session' = clarity "T" "F"
    ∧ jp_clarity session' = clarity "J" "P"
    ∧ personality_type_id session'
      = match type_with_code w (Scoring.type_code result) with
        | Some t => Some (pt_id t)
        | None => personality_type_id session
        end
    ∧ is_completed session' = true.
Proof.
  intros Hrun.
  destruct (calculate_personality_type_inv sid w w' result Hrun)
    as (session & Hscorable & Hcommit).
  rewrite (calculate_personality_type_ok sid w session Hscorable Hcommit) in Hrun.
  injection Hrun as <- <-.
  exists session, (basic_row w sid session). cbv zeta.
  destruct Hscorable as (Hs & Hc & Hlen).
  split; [exact Hs|]. split; [unfold with_session; cbn; apply lookup_insert_eq|].
  split; [reflexivity|].
  unfold basic_row, Scoring.write_results.
  cbn [e_strength s_strength t_strength j_strength ei_clarity sn_clarity tf_clarity
       jp_clarity personality_type_id is_completed].
  unfold basic_result.
  cbn [Scoring.preference_strengths Scoring.preference_clarity
       Scoring.dimension_scores Scoring.type_code].
  set (scores := Scoring._calculate_dimension_scores _ _).
  destruct (strengths_lookup scores) as ((HE & _) & (HS & _) & (HT & _) & (HJ & _)).
  destruct (clarity_lookup (Scoring._calculate_preference_strengths scores))
    as (Cei & Csn & Ctf & Cjp).
  rewrite HE, HS, HT, HJ, Cei, Csn, Ctf, Cjp. unfold stored_share.
  repeat split; try assumption;
    match goal with
    | |- Some (default _ (if ?c then _ else _)) = _ => destruct c; reflexivity
    | _ => idtac
    end.
  all: destruct (type_with_code _ _); reflexivity.
Qed.

Lemma same_but_session_refl (sid : Z) (w : World) : same_but_session sid w w.
Proof. unfold same_but_session. repeat split; reflexivity. Qed.

Lemma same_but_session_with_session (sid : Z) (w : World) (s : AssessmentSession) :
  same_but_session sid w (with_session w sid s).
Proof.
  unfold same_but_session, with_session. cbn. repeat split; try reflexivity.
  intros sid' Hne. apply lookup_insert_ne. congruence.
Qed.

(** X4: a call of either session entry point, whether it returns or
    raises, changes nothing but the row of the session it scores: the other
    sessions, the answers, the questions, the personality types, the commit
    switch and the random generator are as before. *)
Theorem scoring_writes_one_row (math_sqrt math_log math_exp : Q → Q) (sid : Z) (w : World) :
  same_but_session sid w (Scoring.calculate_personality_type sid w).2
  ∧ same_but_session sid w
      (Enhanced.calculate_enhanced_personality_type math_sqrt math_log math_exp sid w).2.
Proof.
  split.
  - destruct (Scoring.calculate_personality_type sid w) as [[result|e] w'] eqn:Hrun; cbn [snd].
    + destruct (calculate_personality_type_inv sid w w' result Hrun)
        as (session & Hscorable & Hcommit).
      rewrite (calculate_personality_type_ok sid w session Hscorable Hcommit) in Hrun.
      injection Hrun as _ <-. apply same_but_session_with_session.
    + rewrite (atomic_calculate_personality_type sid w e w' Hrun).
      apply same_but_session_refl.
  - destruct (Enhanced.calculate_enhanced_personality_type _ _ _ sid w)
      as [[result|e] w'] eqn:Hrun; cbn [snd].
    + destruct (calculate_enhanced_inv _ _ _ sid w w' result Hrun)
        as (session & _ & _ & _ & _ & _ & _ & _ & ->).
      apply same_but_session_with_session.
    + rewrite (atomic_calculate_enhanced_personality_type _ _ _ sid w e w' Hrun).
      apply same_but_session_refl.
Qed.

(** X5: when a pair of a completed session with 36 stored answers is
    tied although it has answers, the enhanced entry point raises
    [StatisticsError] and leaves the world as it was, provided [math.sqrt] is
    positive on positive numbers. *)
Theorem enhanced_raises_on_tie (math_sqrt math_log math_exp : Q → Q)
    (sid : Z) (w : World) (session : AssessmentSession) :
  sqrt_positive math_sqrt →
  scorable w sid session →
  has_tie (Scoring._calculate_dimension_scores (session_answers w sid) (active_catalog w)) →
  Enhanced.calculate_enhanced_personality_type math_sqrt math_log math_exp sid w
  = (Raise StatisticsError, w).
Proof.
  intros Hsqrt Hscorable Htie.
  unfold Enhanced.calculate_enhanced_personality_type.
  unfold mbind at 1, M_bind at 1.
  rewrite (validate_and_get_data_ok sid w session Hscorable). cbv beta iota zeta.
  unfold mbind at 1, M_bind at 1, lift at 1.
  rewrite (determine_type_raises_on_tie math_sqrt math_log math_exp) by assumption.
  reflexivity.
Qed.

Lemma enhanced_raises_on_tie_witness :
  Enhanced.calculate_enhanced_personality_type approx_sqrt (λ x, x) (λ x, x)
    1 Seed.world_tied_EI
  = (Raise StatisticsError, Seed.world_tied_EI).
Proof.
  apply (enhanced_raises_on_tie approx_sqrt (λ x, x) (λ x, x) 1 Seed.world_tied_EI
           (Seed.fresh_session true)).
  - exact approx_sqrt_positive.
  - unfold scorable. repeat split; vm_compute; reflexivity.
  - left. unfold tied_with_answers. split; vm_compute; [reflexivity|discriminate].
Defined.

(** X6: whenever the enhanced entry point returns a result, its type
    code is the code that the basic resolver gives for the tally of the same
    answers, and no pair of that tally is tied with answers. *)
Theorem enhanced_type_is_basic_type (math_sqrt math_log math_exp : Q → Q)
    (sid : Z) (w w' : World) (result : Enhanced.EnhancedPersonalityResult) :
  sqrt_positive math_sqrt →
  Enhanced.calculate_enhanced_personality_type math_sqrt math_log math_exp sid w
  = (Ok result, w') →
  Enhanced.type_code result
  = Scoring._determine_personality_type
      (Scoring._calculate_dimension_scores (session_answers w sid) (active_catalog w))
  ∧ ¬ has_tie (Scoring._calculate_dimension_scores (session_answers w sid) (active_catalog w)).
Proof.
  intros Hsqrt Hrun.
  destruct (calculate_enhanced_inv _ _ _ sid w w' result Hrun)
    as (session & Hscorable & _ & Htype & _).
  split.
  - eapply determine_type_agrees; eassumption.
  - intros Htie.
    rewrite (determine_type_raises_on_tie math_sqrt math_log math_exp) in Htype
      by assumption.
    discriminate.
Qed.

Lemma enhanced_type_is_basic_type_witness :
  ∃ result w',
    Enhanced.calculate_enhanced_personality_type approx_sqrt (λ x, x) (λ x, x)
      1 Seed.world_four_of_nine = (Ok result, w')
    ∧ Enhanced.type_code result
      = Scoring._determine_personality_type
          (Scoring._calculate_dimension_scores
             (session_answers Seed.world_four_of_nine 1)
             (active_catalog Seed.world_four_of_nine)).
Proof.
  eexists. eexists.
  assert (∀ r w',
            Enhanced.calculate_enhanced_personality_type approx_sqrt (λ x, x) (λ x, x)
              1 Seed.world_four_of_nine = (Ok r, w') →
            Enhanced.calculate_enhanced_personality_type approx_sqrt (λ x, x) (λ x, x)
              1 Seed.world_four_of_nine = (Ok r, w')
            ∧ Enhanced.type_code r
              = Scoring._determine_personality_type
                  (Scoring._calculate_dimension_scores
                     (session_answers Seed.world_four_of_nine 1)
                     (active_catalog Seed.world_four_of_nine))) as H.
  { intros r w' Hrun. split; [exact Hrun|].
    exact (proj1 (enhanced_type_is_basic_type approx_sqrt (λ x, x) (λ x, x) 1
                    Seed.world_four_of_nine w' r approx_sqrt_positive Hrun)). }
  apply H. vm_compute. reflexivity.
Defined.

(** The comprehension [{k: f(v) for k, v in d.items()}], read at a key. *)
Lemma to_gmap_loop_absent {V W : Type} (f : V → W) (d : Dict.t V) (k : string)
    (acc : gmap string W) :
  Dict.get d k = None →
  foldl (λ m '(k, v), <[k := f v]> m) acc d !! k = acc !! k.
Proof.
  revert acc. induction d as [|[k' v] d IH]; intros acc Hget; [reflexivity|].
  cbn [Dict.get] in Hget. cbn [foldl].
  destruct (String.eqb_spec k' k) as [|Hne]; [discriminate|].
  rewrite IH by exact Hget. apply lookup_insert_ne. exact Hne.
Qed.

Lemma to_gmap_absent {V W : Type} (f : V → W) (d : Dict.t V) (k : string) :
  Dict.get d k = None → Dict.to_gmap f d !! k = None.
Proof.
  intros Hget. unfold Dict.to_gmap. rewrite to_gmap_loop_absent by exact Hget.
  apply lookup_empty.
Qed.

Lemma dict_get_absent {V : Type} (d : Dict.t V) (k : string) :
  k ∉ d.*1 → Dict.get d k = None.
Proof.
  induction d as [|[k' v] d IH]; intros Hk; [reflexivity|].
  cbn [Dict.get]. cbn in Hk. apply not_elem_of_cons in Hk as [Hne Hk].
  destruct (String.eqb_spec k' k) as [->|_]; [contradiction|]. apply IH. exact Hk.
Qed.

Lemma to_gmap_present {V W : Type} (f : V → W) (d : Dict.t V) (k : string) (v : V) :
  NoDup d.*1 → Dict.get d k = Some v → Dict.to_gmap f d !! k = Some (f v).
Proof.
  unfold Dict.to_gmap. generalize (∅ : gmap string W).
  induction d as [|[k' v'] d IH]; intros acc Hnodup Hget; [discriminate|].
  cbn [Dict.get] in Hget. cbn [foldl]. cbn in Hnodup.
  apply NoDup_cons in Hnodup as [Hk' Hnodup].
  destruct (String.eqb_spec k' k) as [->|Hne].
  - injection Hget as ->.
    rewrite to_gmap_loop_absent by (apply dict_get_absent; exact Hk').
    apply lookup_insert_eq.
  - apply IH; assumption.
Qed.

Lemma analyses_keys (math_sqrt : Q → Q) (answers : list AssessmentAnswer)
    (questions : gmap Z Question) :
  NoDup (Enhanced._calculate_dimensional_analyses math_sqrt answers questions).*1.
Proof.
  rewrite analyses_of_answers.
  destruct (Scoring._calculate_dimension_scores answers questions) as [e i s n t f j p].
  unfold entries_of, entry_of.
  cbn [Scoring.e_score Scoring.i_score Scoring.s_score Scoring.n_score
         Scoring.t_score Scoring.f_score Scoring.j_score Scoring.p_score].
  destruct (e + i =? 0), (s + n =? 0), (t + f =? 0), (j + p =? 0);
    cbn [omap list_omap fmap option_fmap option_map list_fmap fst];
    apply (bool_decide_unpack _); vm_compute; exact I.
Qed.

Lemma analyses_to_gmap {W : Type} (f : Enhanced.DimensionAnalysis → W)
    (math_sqrt : Q → Q) (answers : list AssessmentAnswer)
    (questions : gmap Z Question) (k : string) :
  let analyses := Enhanced._calculate_dimensional_analyses math_sqrt answers questions in
  Dict.to_gmap f analyses !! k = f <$> Dict.get analyses k.
Proof.
  cbv zeta. destruct (Dict.get _ k) as [a|] eqn:Hget.
  - apply to_gmap_present; [apply analyses_keys|exact Hget].
  - apply to_gmap_absent. exact Hget.
Qed.

(** X7: what a successful call of the enhanced entry point writes to the
    row of the session it scores.  The strengths of the result are keyed by
    pair (EI, SN, TF, JP) and no other key is present, so the reads of E, S,
    T and J fall back to 0.0 and all four stored strengths are 0.0; the
    stored clarity of each pair is the category of its analysis (nothing for
    a pair without analysis), and the stored type id is the id of the row
    with the resulting code (unchanged when there is none). *)
Theorem enhanced_write_back (math_sqrt math_log math_exp : Q → Q)
    (sid : Z) (w w' : World) (result : Enhanced.EnhancedPersonalityResult) :
  Enhanced.calculate_enhanced_personality_type math_sqrt math_log math_exp sid w
  = (Ok result, w') →
  ∃ session session',
    let analyses := Enhanced.dimension_analyses result in
    sessions (db w) !! sid = Some session
    ∧ sessions (db w') !! sid = Some session'
    ∧ (∀ k, Enhanced.preference_strengths result !! k
            = Enhanced.percentage <$> Dict.get analyses k)
    ∧ (∀ k, k ∉ ["EI"; "SN"; "TF"; "JP"]%string → Dict.get analyses k = None)
    ∧ e_strength session' = Some 0.0%Q
    ∧ s_strength session' = Some 0.0%Q
    ∧ t_strength session' = Some 0.0%Q
    ∧ j_strength session' = Some 0.0%Q
    ∧ ei_clarity session' = Enhanced.strength_category <$> Dict.get analyses "EI"
    ∧ sn_clarity session' = Enhanced.strength_category <$> Dict.get analyses "SN"
    ∧ tf_clarity session' = Enhanced.strength_category <$> Dict.get analyses "TF"
    ∧ jp_clarity session' = Enhanced.strength_category <$> Dict.get analyses "JP"
    ∧ personality_type_id session'
      = match type_with_code w (Enhanced.type_code result) with
        | Some t => Some (pt_id t)
        | None => personality_type_id session
        end.
Proof.
  intros Hrun.
  destruct (calculate_enhanced_inv _ _ _ sid w w' result Hrun)
    as (session & (Hs & _) & _ & _ & Hanalyses & Hstrengths & Hclarity & _ & ->).
  exists session. eexists. cbv zeta.
  split; [exact Hs|]. split; [unfold with_session; cbn; apply lookup_insert_eq|].
  destruct (analyses_get math_sqrt (session_answers w sid) (active_catalog w))
    as (_ & _ & _ & _ & Hother).
  assert (∀ k, k ∉ ["EI"; "SN"; "TF"; "JP"]%string →
               Enhanced.preference_strengths result !! k = None) as Hnone.
  { intros k Hk. rewrite Hstrengths, analyses_to_gmap, (Hother k Hk). reflexivity. }
  unfold Enhanced.write_results.
  cbn [e_strength s_strength t_strength j_strength ei_clarity sn_clarity tf_clarity
       jp_clarity personality_type_id].
  rewrite !Hnone
    by (rewrite !not_elem_of_cons; repeat split; first [discriminate | apply not_elem_of_nil]).
  rewrite Hclarity, Hstrengths, Hanalyses, !analyses_to_gmap.
  split; [intros k; apply analyses_to_gmap|]. split; [exact Hother|].
  repeat split; try reflexivity; destruct (type_with_code _ _); reflexivity.
Qed.

Lemma basic_write_back_witness :
  ∃ result w' session',
    Scoring.calculate_personality_type 1 Seed.world_all_A = (Ok result, w')
    ∧ sessions (db w') !! 1 = Some session'
    ∧ e_strength session'
      = Some (stored_share (Scoring.e_score (Scoring.dimension_scores result))
                (Scoring.i_score (Scoring.dimension_scores result)))
    ∧ is_completed session' = true.
Proof.
  destruct (Scoring.calculate_personality_type 1 Seed.world_all_A)
    as [[result|e] w'] eqn:Hrun.
  - destruct (basic_write_back 1 Seed.world_all_A w' result Hrun)
      as (session & session' & _ & Hrow & _ & He & _ & _ & _ & _ & _ & _ & _ & _ & Hc).
    exists result, w', session'. repeat split; assumption.
  - vm_compute in Hrun. discriminate Hrun.
Defined.

Lemma enhanced_write_back_witness :
  ∃ result w' session',
    Enhanced.calculate_enhanced_personality_type approx_sqrt (λ x, x) (λ x, x)
      1 Seed.world_all_A = (Ok result, w')
    ∧ sessions (db w') !! 1 = Some session'
    ∧ e_strength session' = Some 0.0%Q
    ∧ ei_clarity session'
      = Enhanced.strength_category <$> Dict.get (Enhanced.dimension_analyses result) "EI".
Proof.
  destruct (Enhanced.calculate_enhanced_personality_type approx_sqrt (λ x, x) (λ x, x)
              1 Seed.world_all_A) as [[result|e] w'] eqn:Hrun.
  - destruct (enhanced_write_back approx_sqrt (λ x, x) (λ x, x) 1 Seed.world_all_A
                w' result Hrun)
      as (session & session' & _ & Hrow & _ & _ & He & _ & _ & _ & Hei & _).
    exists result, w', session'. repeat split; assumption.
  - vm_compute in Hrun. discriminate Hrun.
Defined.

(** ** The completeness check *)

Lemma count_dimension_totals_of (questions : gmap Z Question)
    (scores : Scoring.PersonalityScores) (answer : AssessmentAnswer) :
  Completeness.count_dimension questions (totals_of scores) answer
  = totals_of (Scoring.score_answer questions scores answer).
Proof.
  unfold Completeness.count_dimension, Scoring.score_answer.
  destruct (questions !! question_id answer) as [question|]; [|reflexivity].
  destruct scores as [e i s n t f j p].
  destruct (dimension question),
    (Scoring.maps_to_first (selected_option answer) question);
    cbn; unfold totals_of; cbn;
    rewrite <- ?Z.add_assoc, ?(Z.add_comm 1); reflexivity.
Qed.

Lemma count_dimensions_totals_of (answers : list AssessmentAnswer)
    (questions : gmap Z Question) :
  foldl (Completeness.count_dimension questions)
    [("EI", 0); ("SN", 0); ("TF", 0); ("JP", 0)]%string answers
  = totals_of (Scoring._calculate_dimension_scores answers questions).
Proof.
  unfold Scoring._calculate_dimension_scores.
  change [("EI", 0); ("SN", 0); ("TF", 0); ("JP", 0)]%string
    with (totals_of Scoring.no_scores).
  generalize Scoring.no_scores as scores.
  induction answers as [|answer answers IH]; intros scores; [reflexivity|].
  cbn [foldl]. rewrite count_dimension_totals_of. apply IH.
Qed.

Lemma first_empty_totals (scores : Scoring.PersonalityScores) :
  nonnegative scores →
  (Completeness.first_empty (totals_of scores) = None ↔ all_pairs_answered scores)
  ∧ ∀ dim, Completeness.first_empty (totals_of scores) = Some dim →
      Dict.get (totals_of scores) dim = Some 0.
Proof.
  destruct scores as [e i s n t f j p]. unfold nonnegative, all_pairs_answered, totals_of.
  cbn. intros (He & Hi & Hs & Hn & Ht & Hf & Hj & Hp).
  destruct (Z.eqb_spec (e + i) 0) as [E1|E1], (Z.eqb_spec (s + n) 0) as [E2|E2],
    (Z.eqb_spec (t + f) 0) as [E3|E3], (Z.eqb_spec (j + p) 0) as [E4|E4].
  all: split; [split; [try discriminate; intros _; lia | try (intros; lia); reflexivity]|].
  all: intros dim [= <-]; cbn; rewrite ?E1, ?E2, ?E3, ?E4; reflexivity.
Qed.

Lemma completeness_check_run (sid : Z) (w : World) :
  Completeness.validate_answers_completeness sid w
  = (Ok (completeness_outcome (session_answers w sid)
           (Scoring._calculate_dimension_scores (session_answers w sid) (active_catalog w))),
     w).
Proof.
  unfold completeness_outcome, session_answers, active_catalog.
  unfold Completeness.validate_answers_completeness, Completeness.try_except,
    mbind, M_bind, mret, M_ret, query_answers, query_active_questions.
  set (answers := filter (λ a, session_id a = sid) (Models.answers (db w))).
  set (questions := questions_by_id _).
  destruct (Nat.eqb_spec (length answers) 36) as [Hlen|Hlen]; cbn [negb].
  - destruct (decide (length answers = 36%nat)) as [_|]; [|contradiction].
    cbv zeta. rewrite count_dimensions_totals_of.
    destruct (Completeness.first_empty _); reflexivity.
  - destruct (decide (length answers = 36%nat)) as [|_]; [contradiction|]. reflexivity.
Qed.

(** X8: the completeness check never raises and never writes; it
    accepts a session exactly when it has 36 stored answers and every pair of
    the tally has an answer; a wrong number of answers is reported before
    anything else, and a dimension it names has no counted answer. *)
Theorem completeness_check_verdict (sid : Z) (w : World) :
  let scores :=
    Scoring._calculate_dimension_scores (session_answers w sid) (active_catalog w) in
  ∃ verdict message,
    Completeness.validate_answers_completeness sid w = (Ok (verdict, message), w)
    ∧ (verdict = true
       ↔ length (session_answers w sid) = 36%nat ∧ all_pairs_answered scores)
    ∧ (length (session_answers w sid) ≠ 36%nat →
       message = Completeness.ExpectedAnswersGot (length (session_answers w sid)))
    ∧ (∀ dim, message = Completeness.NoAnswersForDimension dim →
         Dict.get (totals_of scores) dim = Some 0).
Proof.
  cbv zeta. rewrite completeness_check_run. unfold completeness_outcome.
  set (answers := session_answers w sid).
  set (scores := Scoring._calculate_dimension_scores answers (active_catalog w)).
  pose proof (first_empty_totals _ (tally_nonnegative answers (active_catalog w)))
    as [Hnone Hsome].
  fold scores in Hnone, Hsome.
  destruct (decide (length answers = 36%nat)) as [Hlen|Hlen].
  - destruct (Completeness.first_empty _) as [dim|] eqn:Hfirst.
    + eexists. eexists. split; [reflexivity|]. split; [|split].
      * split; [discriminate|]. intros [_ Hall]. apply Hnone in Hall. discriminate.
      * intros Hne. contradiction.
      * intros dim' [= <-]. apply Hsome. reflexivity.
    + eexists. eexists. split; [reflexivity|]. split; [|split].
      * split; [intros _; split; [exact Hlen|apply Hnone; reflexivity]|reflexivity].
      * intros Hne. contradiction.
      * intros dim' [=].
  - eexists. eexists. split; [reflexivity|]. split; [|split].
    + split; [discriminate|]. intros [Heq _]. contradiction.
    + intros _. reflexivity.
    + intros dim' [=].
Qed.

Lemma completeness_check_verdict_witness :
  ∃ verdict message,
    Completeness.validate_answers_completeness 1 Seed.world_35_answers
    = (Ok (verdict, message), Seed.world_35_answers)
    ∧ message = Completeness.ExpectedAnswersGot 35.
Proof.
  destruct (completeness_check_verdict 1 Seed.world_35_answers)
    as (verdict & message & Hrun & _ & Hmessage & _).
  exists verdict, message. split; [exact Hrun|].
  apply Hmessage. vm_compute. discriminate.
Defined.

(** X9: a completed session that passes the completeness check is scored
    by the basic entry point when the commit goes through; every pair of the
    resulting tally has an answer and all eight strengths are defined. *)
Theorem checked_session_is_scored (sid : Z) (w w0 : World) (session : AssessmentSession)
    (message : Completeness.message) :
  Completeness.validate_answers_completeness sid w = (Ok (true, message), w0) →
  sessions (db w) !! sid = Some session →
  is_completed session = true →
  commit_ok w = true →
  ∃ result w',
    Scoring.calculate_personality_type sid w = (Ok result, w')
    ∧ all_pairs_answered (Scoring.dimension_scores result)
    ∧ ∀ letter, letter ∈ ["E"; "I"; "S"; "N"; "T"; "F"; "J"; "P"]%string →
        is_Some (Scoring.preference_strengths result !! letter).
Proof.
  intros Hcheck Hsession Hcompleted Hcommit.
  rewrite completeness_check_run in Hcheck. unfold completeness_outcome in Hcheck.
  destruct (decide (length (session_answers w sid) = 36%nat)) as [Hlen|];
    [|discriminate Hcheck].
  pose proof (first_empty_totals _
                (tally_nonnegative (session_answers w sid) (active_catalog w)))
    as [Hnone _].
  destruct (Completeness.first_empty _); [discriminate Hcheck|].
  assert (all_pairs_answered
            (Scoring._calculate_dimension_scores (session_answers w sid) (active_catalog w)))
    as Hall by (apply Hnone; reflexivity).
  assert (scorable w sid session) as Hscorable by (repeat split; assumption).
  exists (basic_result w sid). eexists.
  split; [apply (calculate_personality_type_ok sid w session Hscorable Hcommit)|].
  unfold basic_result. cbn [Scoring.dimension_scores Scoring.preference_strengths].
  split; [exact Hall|].
  set (scores := Scoring._calculate_dimension_scores _ _) in *.
  destruct (strengths_lookup scores) as ((HE & HI) & (HS & HN) & (HT & HF) & (HJ & HP)).
  destruct Hall as (Tei & Tsn & Ttf & Tjp).
  intros letter Hin.
  repeat (apply elem_of_cons in Hin as [->|Hin];
          [match goal with
           | H : Scoring._calculate_preference_strengths scores !! ?k = _
             |- is_Some (_ !! ?k) =>
               rewrite H;
               match goal with
               | |- is_Some (if ?x >? 0 then _ else _) =>
                   destruct (Z.gtb_spec x 0); [eexists; reflexivity|lia]
               end
           end|]).
  apply elem_of_nil in Hin. destruct Hin.
Qed.

Lemma checked_session_is_scored_witness :
  ∃ result w',
    Scoring.calculate_personality_type 1 Seed.world_all_A = (Ok result, w')
    ∧ all_pairs_answered (Scoring.dimension_scores result)
    ∧ ∀ letter, letter ∈ ["E"; "I"; "S"; "N"; "T"; "F"; "J"; "P"]%string →
        is_Some (Scoring.preference_strengths result !! letter).
Proof.
  apply (checked_session_is_scored 1 Seed.world_all_A Seed.world_all_A
           (Seed.fresh_session true) Completeness.AllAnswersPresent).
  - vm_compute. reflexivity.
  - vm_compute. reflexivity.
  - reflexivity.
  - reflexivity.
Defined.

(** ** The raw entry point *)

Lemma validate_responses_valid (responses : list Scoring.py_value) : ∀ i,
  Forall valid_response responses →
  Scoring.validate_responses i responses = Ok (ints_of responses).
Proof.
  induction responses as [|[z|] responses IH]; intros i Hall; [reflexivity| |].
  - apply Forall_cons in Hall as [Hz Hall]. cbn in Hz. cbn [Scoring.validate_responses].
    destruct (Z.ltb_spec z 1); [lia|]. destruct (Z.gtb_spec z 5); [lia|]. cbn [orb].
    rewrite IH by exact Hall. reflexivity.
  - apply Forall_cons in Hall as [[] _].
Qed.

Lemma validate_responses_invalid (good rest : list Scoring.py_value)
    (bad : Scoring.py_value) : ∀ i,
  Forall valid_response good → ¬ valid_response bad →
  Scoring.validate_responses i (good ++ bad :: rest)
  = Raise (ValueError (InvalidResponse (i + length good))).
Proof.
  induction good as [|[z|] good IH]; intros i Hgood Hbad.
  - cbn [app length Scoring.validate_responses]. rewrite Nat.add_0_r.
    destruct bad as [z|]; [|reflexivity]. cbn in Hbad.
    destruct (Z.ltb_spec z 1); [reflexivity|].
    destruct (Z.gtb_spec z 5); [reflexivity|]. lia.
  - apply Forall_cons in Hgood as [Hz Hgood]. cbn in Hz.
    cbn [app Scoring.validate_responses].
    destruct (Z.ltb_spec z 1); [lia|]. destruct (Z.gtb_spec z 5); [lia|]. cbn [orb].
    rewrite IH by assumption. cbn [mbind res_bind length]. do 3 f_equal. lia.
  - apply Forall_cons in Hgood as [[] _].
Qed.

Lemma score_responses_run (pairs : list (Z * Question)) : ∀ scores w,
  ∃ scores',
    for_each Scoring.score_response scores pairs w
    = (Ok scores', after_draws w (neutral_count pairs.*1))
    ∧ (neutral_count pairs.*1 = 0%nat →
       scores' = foldl (λ s '(r, q), Scoring.increment s (dimension q)
                                      (Scoring.maps_to_first (option_of r) q))
                   scores pairs).
Proof.
  induction pairs as [|[r q] pairs IH]; intros scores w.
  - exists scores. split; [|reflexivity].
    cbn. unfold after_draws. rewrite Nat.add_0_r. destruct w; reflexivity.
  - cbn [for_each fmap list_fmap fst]. unfold neutral_count.
    unfold mbind at 1, M_bind at 1. unfold Scoring.score_response at 1.
    unfold mbind at 1, M_bind at 1.
    destruct (decide (r = 3)) as [->|Hr].
    + rewrite filter_cons_True by reflexivity. cbn [Z.leb Z.geb Z.compare Pos.compare Pos.compare_cont length].
      unfold random_choice_AB at 1. cbv beta iota. unfold mret at 1, M_ret at 1.
      destruct (IH (Scoring.increment scores (dimension q)
                      (Scoring.maps_to_first (if rng w (rng_pos w) then "A" else "B")%string q))
                  {| db := db w; commit_ok := commit_ok w; rng := rng w;
                     rng_pos := S (rng_pos w) |}) as (scores' & Hrun & _).
      exists scores'. split; [|discriminate].
      rewrite Hrun. unfold after_draws, neutral_count. cbn. do 2 f_equal. lia.
    + rewrite filter_cons_False by exact Hr.
      assert ((if r <=? 2 then mret "A"%string
               else if r >=? 4 then mret "B"%string else random_choice_AB) w
              = (Ok (option_of r), w)) as ->.
      { unfold option_of. destruct (Z.leb_spec r 2); [reflexivity|].
        destruct (Z.geb_spec r 4); [reflexivity|]. lia. }
      cbv beta iota. unfold mret at 1, M_ret at 1.
      destruct (IH (Scoring.increment scores (dimension q)
                      (Scoring.maps_to_first (option_of r) q)) w)
        as (scores' & Hrun & Hpure).
      exists scores'. split; [exact Hrun|]. intros Hzero. cbn [foldl].
      apply Hpure. exact Hzero.
Qed.

Lemma counted_increment scores dim first :
  counted (Scoring.increment scores dim first) = counted scores + 1.
Proof. destruct scores, dim, first; unfold counted; cbn; lia. Qed.

Lemma score_responses_counted (pairs : list (Z * Question)) : ∀ scores scores' w w',
  for_each Scoring.score_response scores pairs w = (Ok scores', w') →
  counted scores' = counted scores + Z.of_nat (length pairs).
Proof.
  induction pairs as [|[r q] pairs IH]; intros scores scores' w w' Hrun.
  - cbn in Hrun. injection Hrun as <- _. cbn. lia.
  - cbn [for_each] in Hrun. unfold mbind at 1, M_bind at 1 in Hrun.
    unfold Scoring.score_response at 1 in Hrun.
    unfold mbind at 1, M_bind at 1 in Hrun.
    destruct ((if r <=? 2 then mret "A"%string
               else if r >=? 4 then mret "B"%string else random_choice_AB) w)
      as [[option|e] w1] eqn:Hopt; cbv beta iota in Hrun.
    + unfold mret at 1, M_ret at 1 in Hrun. apply IH in Hrun.
      rewrite Hrun, counted_increment. cbn [length]. lia.
    + exfalso. destruct (r <=? 2); [discriminate Hopt|].
      destruct (r >=? 4); [discriminate Hopt|]. discriminate Hopt.
Qed.

Lemma ints_of_length (responses : list Scoring.py_value) :
  Forall valid_response responses → length (ints_of responses) = length responses.
Proof.
  induction 1 as [|[z|] responses Hz _ IH]; [reflexivity| |destruct Hz].
  cbn. f_equal. exact IH.
Qed.

Lemma sorted_length (rows : list Question) :
  length (merge_sort Scoring.by_id rows) = length rows.
Proof. apply Permutation_length, merge_sort_Permutation. Qed.

(** X10: the raw entry point checks in the order of the source: the
    number of responses, then each response from the left (the position
    reported is that of the first invalid one), then the number of active
    questions; each failure leaves the world as it was. *)
Theorem raw_responses_are_checked_in_order (responses : list Scoring.py_value) (w : World) :
  (length responses ≠ 36%nat →
   Scoring.calculate_personality_type_from_responses responses w
   = (Raise (ValueError (ExpectedResponses (length responses))), w))
  ∧ (length responses = 36%nat →
     ∀ good bad rest, responses = good ++ bad :: rest →
       Forall valid_response good → ¬ valid_response bad →
       Scoring.calculate_personality_type_from_responses responses w
       = (Raise (ValueError (InvalidResponse (length good))), w))
  ∧ (length responses = 36%nat → Forall valid_response responses →
     length (active_questions w) ≠ 36%nat →
     Scoring.calculate_personality_type_from_responses responses w
     = (Raise (ValueError (ExpectedActiveQuestions (length (active_questions w)))), w)).
Proof.
  unfold Scoring.calculate_personality_type_from_responses. repeat split.
  - intros Hlen. apply Nat.eqb_neq in Hlen. rewrite Hlen. reflexivity.
  - intros Hlen good bad rest -> Hgood Hbad. rewrite Hlen. cbn [Nat.eqb negb].
    unfold mbind at 1, M_bind at 1, lift.
    rewrite (validate_responses_invalid good rest bad 0 Hgood Hbad). reflexivity.
  - intros Hlen Hall Hactive. rewrite Hlen. cbn [Nat.eqb negb].
    unfold mbind at 1, M_bind at 1, lift.
    rewrite (validate_responses_valid responses 0 Hall).
    unfold mbind at 1, M_bind at 1, Scoring.query_active_questions_by_id.
    unfold mbind at 1, M_bind at 1, query_active_questions, mret, M_ret.
    rewrite sorted_length. fold (active_questions w).
    apply Nat.eqb_neq in Hactive. rewrite Hactive. reflexivity.
Qed.

(** X11: with 36 valid responses and 36 active questions the raw entry
    point returns a result; its eight counters add up to 36, and it has drawn
    from the random generator once per neutral response (a 3), changing
    nothing else in the world. *)
Theorem raw_scoring_counts_every_response (responses : list Scoring.py_value) (w : World) :
  length responses = 36%nat → Forall valid_response responses →
  length (active_questions w) = 36%nat →
  ∃ result,
    Scoring.calculate_personality_type_from_responses responses w
    = (Ok result, after_draws w (neutral_count (ints_of responses)))
    ∧ counted (Scoring.dimension_scores result) = 36.
Proof.
  intros Hlen Hall Hactive.
  unfold Scoring.calculate_personality_type_from_responses.
  rewrite Hlen. cbn [Nat.eqb negb].
  unfold mbind at 1, M_bind at 1, lift.
  rewrite (validate_responses_valid responses 0 Hall).
  unfold mbind at 1, M_bind at 1, Scoring.query_active_questions_by_id.
  unfold mbind at 1, M_bind at 1, query_active_questions, mret at 1, M_ret at 1.
  fold (active_questions w).
  rewrite sorted_length, Hactive. cbn [Nat.eqb negb].
  unfold mbind at 1, M_bind at 1.
  destruct (score_responses_run
              (zip (ints_of responses) (merge_sort Scoring.by_id (active_questions w)))
              Scoring.no_scores w) as (scores & Hrun & _).
  assert (length (ints_of responses) = length (merge_sort Scoring.by_id (active_questions w)))
    as Hsame by (rewrite ints_of_length, sorted_length by exact Hall; congruence).
  rewrite fst_zip in Hrun by lia.
  rewrite Hrun.
  unfold mbind, M_bind, query_personality_type, mret, M_ret.
  eexists. split; [reflexivity|]. cbn [Scoring.dimension_scores].
  rewrite (score_responses_counted _ _ _ _ _ Hrun).
  rewrite length_zip_with, ints_of_length, Hlen, sorted_length, Hactive by exact Hall.
  reflexivity.
Qed.

Lemma raw_responses_are_checked_in_order_witness :
  Scoring.calculate_personality_type_from_responses
    (replicate 35 (Scoring.PyInt 1) ++ [Scoring.PyInt 7]) Seed.world_all_A
  = (Raise (ValueError (InvalidResponse 35)), Seed.world_all_A).
Proof.
  apply (proj1 (proj2 (raw_responses_are_checked_in_order
                         (replicate 35 (Scoring.PyInt 1) ++ [Scoring.PyInt 7])
                         Seed.world_all_A))
           eq_refl (replicate 35 (Scoring.PyInt 1)) (Scoring.PyInt 7) [] eq_refl).
  - cbn [replicate]. repeat constructor; cbn; lia.
  - cbn. lia.
Defined.

Lemma raw_scoring_counts_every_response_witness :
  ∃ result,
    Scoring.calculate_personality_type_from_responses
      (replicate 35 (Scoring.PyInt 1) ++ [Scoring.PyInt 3]) Seed.world_all_A
    = (Ok result, after_draws Seed.world_all_A 1)
    ∧ counted (Scoring.dimension_scores result) = 36.
Proof.
  apply (raw_scoring_counts_every_response
           (replicate 35 (Scoring.PyInt 1) ++ [Scoring.PyInt 3]) Seed.world_all_A).
  - reflexivity.
  - cbn [replicate app]. repeat constructor; cbn; lia.
  - vm_compute. reflexivity.
Defined.

Lemma questions_by_id_loop_absent (rows : list Question) (id : Z) : ∀ d : gmap Z Question,
  id ∉ q_id <$> rows →
  foldl (λ d q, <[q_id q := q]> d) d rows !! id = d !! id.
Proof.
  induction rows as [|row rows IH]; intros d Habsent; [reflexivity|].
  cbn [foldl]. rewrite fmap_cons, not_elem_of_cons in Habsent.
  destruct Habsent as [Hne Habsent].
  rewrite IH by exact Habsent. apply lookup_insert_ne. congruence.
Qed.

Lemma questions_by_id_loop_present (rows : list Question) (question : Question) : ∀ d : gmap Z Question,
  NoDup (q_id <$> rows) → question ∈ rows →
  foldl (λ d q, <[q_id q := q]> d) d rows !! q_id question = Some question.
Proof.
  induction rows as [|row rows IH]; intros d Hnodup Hin.
  - apply elem_of_nil in Hin as [].
  - rewrite fmap_cons in Hnodup. apply NoDup_cons in Hnodup as [Hfresh Hnodup].
    cbn [foldl]. apply elem_of_cons in Hin as [->|Hin].
    + rewrite questions_by_id_loop_absent by exact Hfresh. apply lookup_insert_eq.
    + apply IH; assumption.
Qed.

(** With distinct ids, the dict [{q.id: q for q in rows}] finds every row
    under its own id. *)
Lemma questions_by_id_lookup (rows : list Question) (question : Question) :
  NoDup (q_id <$> rows) → question ∈ rows →
  questions_by_id rows !! q_id question = Some question.
Proof. apply questions_by_id_loop_present. Qed.

Lemma raw_loop_is_session_loop (catalog : gmap Z Question) (sid : Z)
    (ints : list Z) : ∀ (rows : list Question) scores,
  (∀ q, q ∈ rows → catalog !! q_id q = Some q) →
  foldl (λ s '(r, q), Scoring.increment s (dimension q)
                        (Scoring.maps_to_first (option_of r) q))
    scores (zip ints rows)
  = foldl (Scoring.score_answer catalog) scores (answers_for sid ints rows).
Proof.
  induction ints as [|r ints IH]; intros rows scores Hfound; [reflexivity|].
  destruct rows as [|q rows]; [reflexivity|].
  cbn [zip zip_with foldl answers_for]. unfold answers_for in IH.
  unfold zip in IH. rewrite IH by (intros q' Hq'; apply Hfound; right; exact Hq').
  f_equal. unfold Scoring.score_answer. cbn [question_id selected_option].
  rewrite Hfound by left. reflexivity.
Qed.

Lemma after_no_draw (w : World) : after_draws w 0 = w.
Proof. destruct w. unfold after_draws. cbn. rewrite Nat.add_0_r. reflexivity. Qed.

(** X12: without a neutral response the raw entry point leaves the world
    as it was, and its tally is the tally that the session path computes from
    the answers the responses stand for (A for 1 and 2, B for 4 and 5), given
    to the active questions in the order of their ids, provided the ids are
    distinct. *)
Theorem raw_tally_is_session_tally (responses : list Scoring.py_value) (w : World)
    (sid : Z) :
  length responses = 36%nat → Forall valid_response responses →
  neutral_count (ints_of responses) = 0%nat →
  length (active_questions w) = 36%nat →
  NoDup (q_id <$> active_questions w) →
  ∃ result,
    Scoring.calculate_personality_type_from_responses responses w = (Ok result, w)
    ∧ Scoring.dimension_scores result
      = Scoring._calculate_dimension_scores
          (answers_for sid (ints_of responses)
             (merge_sort Scoring.by_id (active_questions w)))
          (active_catalog w).
Proof.
  intros Hlen Hall Hneutral Hactive Hnodup.
  unfold Scoring.calculate_personality_type_from_responses.
  rewrite Hlen. cbn [Nat.eqb negb].
  unfold mbind at 1, M_bind at 1, lift.
  rewrite (validate_responses_valid responses 0 Hall).
  unfold mbind at 1, M_bind at 1, Scoring.query_active_questions_by_id.
  unfold mbind at 1, M_bind at 1, query_active_questions, mret at 1, M_ret at 1.
  fold (active_questions w).
  rewrite sorted_length, Hactive. cbn [Nat.eqb negb].
  unfold mbind at 1, M_bind at 1.
  destruct (score_responses_run
              (zip (ints_of responses) (merge_sort Scoring.by_id (active_questions w)))
              Scoring.no_scores w) as (scores & Hrun & Hpure).
  assert (length (ints_of responses)
          = length (merge_sort Scoring.by_id (active_questions w)))
    as Hsame by (rewrite ints_of_length, sorted_length by exact Hall; congruence).
  rewrite fst_zip in Hrun, Hpure by lia.
  rewrite Hrun, Hneutral, after_no_draw.
  unfold mbind, M_bind, query_personality_type, mret, M_ret.
  eexists. split; [reflexivity|]. cbn [Scoring.dimension_scores].
  rewrite (Hpure Hneutral). unfold Scoring._calculate_dimension_scores.
  apply raw_loop_is_session_loop. intros q Hq.
  apply questions_by_id_lookup; [exact Hnodup|].
  rewrite <- (merge_sort_Permutation Scoring.by_id (active_questions w)). exact Hq.
Qed.

Lemma raw_tally_is_session_tally_witness :
  ∃ result,
    Scoring.calculate_personality_type_from_responses all_ones Seed.world_all_A
    = (Ok result, Seed.world_all_A)
    ∧ Scoring.dimension_scores result
      = Scoring._calculate_dimension_scores
          (answers_for 1 (ints_of all_ones)
             (merge_sort Scoring.by_id (active_questions Seed.world_all_A)))
          (active_catalog Seed.world_all_A).
Proof.
  apply (raw_tally_is_session_tally all_ones Seed.world_all_A 1).
  - reflexivity.
  - unfold all_ones. cbn [replicate]. repeat constructor; cbn; lia.
  - vm_compute. reflexivity.
  - vm_compute. reflexivity.
  - apply (bool_decide_unpack _). vm_compute. exact I.
Defined.

(** ** Borderline dimensions of the basic variant *)

Lemma borderline_loop (threshold : Q) (dim : string) (pairs : list (string * Q)) :
  ∀ borderline : list string,
  dim ∈ foldl
          (λ (borderline : list string) '(dim_name, strength),
             if Qlt_le_dec strength threshold then borderline ++ [dim_name]
             else borderline)
          borderline pairs
  ↔ dim ∈ borderline ∨ ∃ strength, (dim, strength) ∈ pairs ∧ (strength < threshold)%Q.
Proof.
  induction pairs as [|[dim_name strength] pairs IH]; intros borderline; cbn [foldl].
  - split; [tauto|]. intros [H|(s & H & _)]; [exact H|]. apply elem_of_nil in H as [].
  - rewrite IH. destruct (Qlt_le_dec strength threshold) as [Hlt|Hge].
    + rewrite elem_of_app, list_elem_of_singleton. split.
      * intros [[H| ->]|(s & H & Hs)]; [tauto| |].
        -- right. exists strength. split; [left|exact Hlt].
        -- right. exists s. split; [right; exact H|exact Hs].
      * intros [H|(s & H & Hs)]; [tauto|].
        apply elem_of_cons in H as [[= -> ->]|H]; [tauto|].
        right. exists s. tauto.
    + split.
      * intros [H|(s & H & Hs)]; [tauto|]. right. exists s. split; [right; exact H|exact Hs].
      * intros [H|(s & H & Hs)]; [tauto|].
        apply elem_of_cons in H as [[= -> ->]|H]; [lra|].
        right. exists s. tauto.
Qed.

Lemma borderline_lookup (strengths : gmap string Q) (threshold : Q) (dim : string) :
  dim ∈ Scoring._identify_borderline_dimensions strengths threshold
  ↔ ∃ first_letter second_letter,
      (dim, first_letter, second_letter) ∈ letter_pairs
      ∧ (dominant strengths first_letter second_letter < threshold)%Q.
Proof.
  unfold Scoring._identify_borderline_dimensions. rewrite borderline_loop.
  rewrite dominant_strengths_entries. unfold letter_pairs. split.
  - intros [H|(s & H & Hs)]; [apply elem_of_nil in H as []|].
    repeat (apply elem_of_cons in H as [[= -> ->]|H];
            [eexists; eexists; split; [|exact Hs]; repeat first [constructor 1; fail | constructor 2]|]).
    apply elem_of_nil in H as [].
  - intros (a & b & H & Hs). right.
    repeat (apply elem_of_cons in H as [[= -> -> ->]|H];
            [eexists; split; [|exact Hs]; repeat first [constructor 1; fail | constructor 2]|]).
    apply elem_of_nil in H as [].
Qed.

(** Membership in the borderline list, pair by pair. *)
Lemma borderline_of_pair (strengths : gmap string Q) (threshold : Q)
    (dim first_letter second_letter : string) :
  (dim, first_letter, second_letter) ∈ letter_pairs →
  dim ∈ Scoring._identify_borderline_dimensions strengths threshold
  ↔ (dominant strengths first_letter second_letter < threshold)%Q.
Proof.
  intros Hletters. rewrite borderline_lookup. split.
  - intros (a & b & Hab & Hlt). unfold letter_pairs in Hab, Hletters.
    repeat (apply elem_of_cons in Hab as [Hab|Hab];
            [injection Hab as -> -> ->;
             repeat (apply elem_of_cons in Hletters as [Hletters|Hletters];
                     [first [discriminate Hletters
                            |injection Hletters as -> ->; exact Hlt]|]);
             apply elem_of_nil in Hletters as []|]).
    apply elem_of_nil in Hab as [].
  - intros Hlt. exists first_letter, second_letter. split; assumption.
Qed.

Lemma category_slight (strength : Q) :
  (strength < 0.60)%Q → category_under Scoring.STRENGTH_THRESHOLDS strength = SLIGHT.
Proof.
  intros H. unfold category_under.
  destruct (Qlt_le_dec strength (Scoring.STRENGTH_THRESHOLDS SLIGHT)) as [|Hge];
    [reflexivity|]. cbn in Hge. lra.
Qed.

(** X13: a dimension that the basic variant reports as borderline has
    slight clarity, for every threshold up to 0.60 and so for the default
    0.55. *)
Theorem borderline_dimensions_are_slight (strengths : gmap string Q) (threshold : Q)
    (dim : string) :
  (threshold <= 0.60)%Q →
  dim ∈ Scoring._identify_borderline_dimensions strengths threshold →
  Scoring._calculate_preference_clarity strengths !! dim = Some SLIGHT.
Proof.
  intros Hthreshold Hin. apply borderline_lookup in Hin as (a & b & Hin & Hlt).
  destruct (clarity_lookup strengths) as (Hei & Hsn & Htf & Hjp).
  unfold letter_pairs in Hin.
  repeat (apply elem_of_cons in Hin as [[= -> -> ->]|Hin];
          [first [rewrite Hei|rewrite Hsn|rewrite Htf|rewrite Hjp];
           rewrite category_slight by lra; reflexivity|]).
  apply elem_of_nil in Hin as [].
Qed.

Lemma borderline_dimensions_are_slight_witness :
  Scoring._calculate_preference_clarity
    (Scoring._calculate_preference_strengths
       {| Scoring.e_score := 5; Scoring.i_score := 5;
          Scoring.s_score := 8; Scoring.n_score := 0;
          Scoring.t_score := 9; Scoring.f_score := 0;
          Scoring.j_score := 9; Scoring.p_score := 0 |}) !! "EI"
  = Some SLIGHT.
Proof.
  apply (borderline_dimensions_are_slight _ Scoring.default_threshold).
  - vm_compute. discriminate.
  - vm_compute. repeat first [constructor 1; fail | constructor 2].
Defined.

Lemma dominant_below_by_counts (strengths : gmap string Q)
    (first_letter second_letter : string) (first second : Z) :
  0 ≤ first → 0 ≤ second →
  strengths !! first_letter = share first (first + second) →
  strengths !! second_letter = share second (first + second) →
  (dominant strengths first_letter second_letter < Scoring.default_threshold)%Q
  ↔ 20 * Z.max first second < 11 * (first + second) ∨ first + second = 0.
Proof.
  intros Hfirst Hsecond Ha Hb. unfold share in Ha, Hb.
  destruct (Z.gtb_spec (first + second) 0) as [Htotal|Htotal].
  - destruct (pair_strengths_intro strengths first_letter second_letter first second)
      as (p1 & p2 & _ & _ & (Hwin & _) & _); [lia..|assumption|assumption|].
    rewrite Hwin. unfold Scoring.default_threshold.
    assert (0 < inject_Z (first + second))%Q as Hpos
      by (change 0%Q with (inject_Z 0); rewrite <- Zlt_Qlt; lia).
    split.
    + intros Hlt. left.
      apply (Qmult_lt_compat_r _ _ _ Hpos) in Hlt.
      assert (inject_Z (Z.max first second) / inject_Z (first + second)
              * inject_Z (first + second) == inject_Z (Z.max first second))%Q as Heq
        by (field; lra).
      rewrite Heq in Hlt.
      rewrite Zlt_Qlt, !inject_Z_mult.
      change (inject_Z 20) with 20%Q. change (inject_Z 11) with 11%Q. lra.
    + intros [Hlt|Hzero]; [|lia]. apply Qlt_shift_div_r; [exact Hpos|].
      rewrite Zlt_Qlt, !inject_Z_mult in Hlt.
      change (inject_Z 20) with 20%Q in Hlt. change (inject_Z 11) with 11%Q in Hlt. lra.
  - assert (first + second = 0) as Hzero by lia.
    unfold dominant, Scoring.get_strength. rewrite Ha, Hb. cbn [default from_option id].
    split; [right; exact Hzero|]. intros _. vm_compute. reflexivity.
Qed.

(** X14: with the default threshold, the basic variant reports a pair as
    borderline exactly when its larger count is below 55% of the answers of
    the pair, or the pair has no answer at all. *)
Theorem borderline_by_counts (scores : Scoring.PersonalityScores)
    (dim : string) (first second : Z) :
  nonnegative scores →
  (dim, first, second) ∈ pair_counts scores →
  dim ∈ Scoring._identify_borderline_dimensions
          (Scoring._calculate_preference_strengths scores) Scoring.default_threshold
  ↔ 20 * Z.max first second < 11 * (first + second) ∨ first + second = 0.
Proof.
  intros (He & Hi & Hs & Hn & Ht & Hf & Hj & Hp) Hin.
  destruct (strengths_lookup scores)
    as ((HE & HI) & (HS & HN) & (HT & HF) & (HJ & HP)).
  unfold pair_counts in Hin.
  repeat (apply elem_of_cons in Hin as [[= -> -> ->]|Hin];
    [first [rewrite (borderline_of_pair _ _ "EI" "E" "I") by in_letter_pairs
           |rewrite (borderline_of_pair _ _ "SN" "S" "N") by in_letter_pairs
           |rewrite (borderline_of_pair _ _ "TF" "T" "F") by in_letter_pairs
           |rewrite (borderline_of_pair _ _ "JP" "J" "P") by in_letter_pairs];
     apply dominant_below_by_counts; assumption|]).
  apply elem_of_nil in Hin as [].
Qed.

Lemma borderline_by_counts_witness :
  "EI"%string ∈ Scoring._identify_borderline_dimensions
          (Scoring._calculate_preference_strengths
             {| Scoring.e_score := 5; Scoring.i_score := 5;
                Scoring.s_score := 8; Scoring.n_score := 0;
                Scoring.t_score := 9; Scoring.f_score := 0;
                Scoring.j_score := 9; Scoring.p_score := 0 |})
          Scoring.default_threshold.
Proof.
  apply (borderline_by_counts _ "EI" 5 5).
  - unfold nonnegative. cbn. lia.
  - left.
  - left. reflexivity.
Defined.

(** ** Response biases *)

Lemma ratio_unit (count total : Z) :
  0 ≤ count ≤ total → 0 < total →
  (0 <= Py.truediv count total ∧ Py.truediv count total <= 1)%Q.
Proof.
  intros Hcount Htotal. unfold Py.truediv.
  assert (0 < inject_Z total)%Q as Hpos
    by (change 0%Q with (inject_Z 0); rewrite <- Zlt_Qlt; lia).
  split.
  - apply Qle_shift_div_l; [exact Hpos|]. rewrite Qmult_0_l.
    change 0%Q with (inject_Z 0). rewrite <- Zle_Qle. lia.
  - apply Qle_shift_div_r; [exact Hpos|]. rewrite Qmult_1_l.
    rewrite <- Zle_Qle. lia.
Qed.

Lemma ratio_zero (count total : Z) :
  0 < total → (Py.truediv count total == 0)%Q ↔ count = 0.
Proof.
  intros Htotal. unfold Py.truediv.
  assert (0 < inject_Z total)%Q as Hpos
    by (change 0%Q with (inject_Z 0); rewrite <- Zlt_Qlt; lia).
  split.
  - intros H.
    assert (inject_Z count == 0)%Q as H0.
    { rewrite <- (Qmult_div_r (inject_Z count) (inject_Z total)) by lra.
      rewrite H. ring. }
    unfold Qeq in H0. cbn in H0. lia.
  - intros ->. unfold Qdiv. change (inject_Z 0) with 0%Q. ring.
Qed.

Lemma ratio_one (count total : Z) :
  0 < total → (Py.truediv count total == 1)%Q ↔ count = total.
Proof.
  intros Htotal. unfold Py.truediv.
  assert (0 < inject_Z total)%Q as Hpos
    by (change 0%Q with (inject_Z 0); rewrite <- Zlt_Qlt; lia).
  split.
  - intros H.
    assert (inject_Z count == inject_Z total)%Q as H0.
    { rewrite <- (Qmult_div_r (inject_Z count) (inject_Z total)) by lra.
      rewrite H. ring. }
    unfold Qeq in H0. cbn in H0. lia.
  - intros ->. field. lra.
Qed.

Lemma distance_unit (ratio : Q) :
  (0 <= ratio)%Q → (ratio <= 1)%Q →
  (0 <= Py.abs (ratio - 0.5) * 2 ∧ Py.abs (ratio - 0.5) * 2 <= 1
   ∧ (Py.abs (ratio - 0.5) * 2 == 1 ↔ ratio == 0 ∨ ratio == 1))%Q.
Proof.
  intros H0 H1. unfold Py.abs.
  apply Qabs_case; intros Hsign; repeat split; lra.
Qed.

(** X15: the extreme-response bias lies in [0, 1]; it is 1 exactly when
    at least one answer is stored and either all stored answers selected
    option A or none did. *)
Theorem extreme_response_bias_unit (answers : list AssessmentAnswer) :
  let bias := Enhanced._calculate_extreme_response_bias answers in
  (0 <= bias)%Q ∧ (bias <= 1)%Q
  ∧ ((bias == 1)%Q
     ↔ answers ≠ [] ∧ (a_count answers = 0%nat ∨ a_count answers = length answers)).
Proof.
  cbv zeta. unfold Enhanced._calculate_extreme_response_bias.
  destruct answers as [|answer answers].
  - split; [lra|]. split; [lra|]. split.
    + intros H. exfalso. unfold Qeq in H. cbn in H. lia.
    + intros [H _]. congruence.
  - set (all := answer :: answers). fold (a_count all).
    assert (a_count all ≤ length all)%nat as Hle by apply length_filter.
    assert (0 < Z.of_nat (length all)) as Hpos by (cbn [length all]; lia).
    destruct (ratio_unit (Z.of_nat (a_count all)) (Z.of_nat (length all))) as [H0 H1];
      [lia|exact Hpos|].
    destruct (distance_unit _ H0 H1) as (Hlo & Hhi & Hone).
    split; [exact Hlo|]. split; [exact Hhi|].
    rewrite Hone, ratio_zero, ratio_one by exact Hpos.
    split.
    + intros [H|H]; (split; [discriminate|]); [left|right]; lia.
    + intros [_ [H|H]]; [left|right]; lia.
Qed.

Lemma acquiescence_loop (questions : gmap Z Question) (answers : list AssessmentAnswer) :
  ∀ (scores : Scoring.PersonalityScores),
  foldl
    (λ '(first_trait_choices, total_mappable) answer,
       match questions !! question_id answer with
       | Some question =>
           if Scoring.maps_to_first (selected_option answer) question
           then ((first_trait_choices + 1)%Z, (total_mappable + 1)%Z)
           else (first_trait_choices, (total_mappable + 1)%Z)
       | None => (first_trait_choices, total_mappable)
       end)
    (first_letters scores, counted scores) answers
  = (first_letters (foldl (Scoring.score_answer questions) scores answers),
     counted (foldl (Scoring.score_answer questions) scores answers)).
Proof.
  induction answers as [|answer answers IH]; intros scores; [reflexivity|].
  cbn [foldl]. rewrite <- IH. f_equal. unfold Scoring.score_answer.
  destruct (questions !! question_id answer) as [question|]; [|reflexivity].
  destruct scores as [e i s n t f j p].
  destruct (dimension question), (Scoring.maps_to_first _ question);
    unfold first_letters, counted; cbn; f_equal; lia.
Qed.

(** X16: the acquiescence bias is a function of the tally of the basic
    variant: the distance from one half of the share of the counted answers
    that went to the first letter of their pair, doubled (0.0 when no answer
    is counted); it lies in [0, 1]. *)
Theorem acquiescence_bias_of_tally (answers : list AssessmentAnswer)
    (questions : gmap Z Question) :
  let scores := Scoring._calculate_dimension_scores answers questions in
  let bias := Enhanced._calculate_acquiescence_bias answers questions in
  bias = (if counted scores =? 0 then 0.0%Q
          else (Py.abs (Py.truediv (first_letters scores) (counted scores) - 0.5) * 2)%Q)
  ∧ (0 <= bias)%Q ∧ (bias <= 1)%Q.
Proof.
  cbv zeta.
  pose proof (tally_nonnegative answers questions)
    as (He & Hi & Hs & Hn & Ht & Hf & Hj & Hp).
  assert (Enhanced._calculate_acquiescence_bias answers questions
          = if counted (Scoring._calculate_dimension_scores answers questions) =? 0
            then 0.0%Q
            else (Py.abs
                    (Py.truediv
                       (first_letters (Scoring._calculate_dimension_scores answers questions))
                       (counted (Scoring._calculate_dimension_scores answers questions))
                     - 0.5) * 2)%Q) as Heq.
  { unfold Enhanced._calculate_acquiescence_bias, Scoring._calculate_dimension_scores.
    destruct answers as [|answer answers]; [reflexivity|].
    change (0, 0) with (first_letters Scoring.no_scores, counted Scoring.no_scores).
    rewrite acquiescence_loop. reflexivity. }
  split; [exact Heq|]. rewrite Heq.
  set (scores := Scoring._calculate_dimension_scores answers questions) in *.
  destruct (Z.eqb_spec (counted scores) 0) as [|Hne]; [split; lra|].
  destruct (ratio_unit (first_letters scores) (counted scores)) as [H0 H1];
    [unfold first_letters, counted; lia|unfold counted in *; lia|].
  destruct (distance_unit _ H0 H1) as (Hlo & Hhi & _). split; assumption.
Qed.

(** ** The analyses of the enhanced variant *)

Lemma half_ratio (count total : Z) :
  0 < total → total ≤ 2 * count → (1 # 2 <= Py.truediv count total)%Q.
Proof.
  intros Htotal Hhalf. unfold Py.truediv.
  assert (0 < inject_Z total)%Q as Hpos
    by (change 0%Q with (inject_Z 0); rewrite <- Zlt_Qlt; lia).
  apply Qle_shift_div_l; [exact Hpos|].
  rewrite Zle_Qle, inject_Z_mult in Hhalf. change (inject_Z 2) with 2%Q in Hhalf. lra.
Qed.

Lemma analysis_of_well_formed (math_sqrt : Q → Q)
    (dim_key first_letter second_letter : string) (first second : Z) :
  0 ≤ first → 0 ≤ second → first + second ≠ 0 →
  well_formed (analysis_of math_sqrt dim_key first_letter second_letter first second).
Proof.
  intros Hfirst Hsecond Htotal. unfold well_formed, analysis_of.
  cbn [Enhanced.total_questions Enhanced.raw_score Enhanced.percentage
       Enhanced.z_score Enhanced.confidence_level Enhanced.strength_category].
  set (raw := if first >=? second then first else second).
  assert (first + second ≤ 2 * raw ∧ raw ≤ first + second) as [Hhalf Hle]
    by (unfold raw; destruct (Z.geb_spec first second); lia).
  pose proof (half_ratio raw (first + second) ltac:(lia) Hhalf) as Hlo.
  destruct (ratio_unit raw (first + second) ltac:(lia) ltac:(lia)) as [_ Hhi].
  split; [lia|]. split; [exact Hhalf|]. split; [exact Hle|]. split; [reflexivity|].
  split; [split; assumption|].
  split; [unfold Enhanced._calculate_z_score; split;
          [apply Qle_shift_div_l; lra|apply Qle_shift_div_r; lra]|].
  split; [apply confidence_level_unit|reflexivity].
Qed.

Lemma analyses_entries (math_sqrt : Q → Q) (answers : list AssessmentAnswer)
    (questions : gmap Z Question) (dim_key : string)
    (analysis : Enhanced.DimensionAnalysis) :
  (dim_key, analysis) ∈ Enhanced._calculate_dimensional_analyses math_sqrt answers questions
  ↔ ∃ first_letter second_letter first second,
      (dim_key, first_letter, second_letter) ∈ letter_pairs
      ∧ (dim_key, first, second)
          ∈ pair_counts (Scoring._calculate_dimension_scores answers questions)
      ∧ first + second ≠ 0
      ∧ analysis = analysis_of math_sqrt dim_key first_letter second_letter first second.
Proof.
  rewrite analyses_of_answers.
  set (scores := Scoring._calculate_dimension_scores answers questions).
  rewrite list_elem_of_omap. unfold entries_of, pair_counts, letter_pairs, entry_of. split.
  - intros ([k [a|]] & Hin & Heq); [|discriminate]. injection Heq as -> ->.
    repeat (apply elem_of_cons in Hin as [Hin|Hin];
      [injection Hin as -> Hin;
       match type of Hin with
       | Some _ = (if ?t =? 0 then _ else _) =>
           destruct (Z.eqb_spec t 0) as [|Hne]; [discriminate|]; injection Hin as ->
       end;
       do 4 eexists; split; [|split; [|split; [exact Hne|reflexivity]]];
       repeat first [constructor 1; fail | constructor 2]|]).
    apply elem_of_nil in Hin as [].
  - intros (a & b & first & second & Hletters & Hcounts & Hne & ->).
    exists (dim_key, Some (analysis_of math_sqrt dim_key a b first second)).
    split; [|reflexivity].
    repeat (apply elem_of_cons in Hletters as [Hletters|Hletters];
      [injection Hletters as -> -> ->;
       repeat (apply elem_of_cons in Hcounts as [Hcounts|Hcounts];
         [first [discriminate Hcounts
                |injection Hcounts as -> ->;
                 match goal with
                 | |- (_, Some (analysis_of _ _ _ _ ?x ?y)) ∈ _ =>
                     destruct (Z.eqb_spec (x + y) 0) as [|_]; [contradiction|]
                 end;
                 repeat first [constructor 1; fail | constructor 2]]|]);
       apply elem_of_nil in Hcounts as []|]).
    apply elem_of_nil in Hletters as [].
Qed.

Lemma stored_analysis_well_formed (math_sqrt : Q → Q) (answers : list AssessmentAnswer)
    (questions : gmap Z Question) (dim_key : string)
    (analysis : Enhanced.DimensionAnalysis) :
  (dim_key, analysis) ∈ Enhanced._calculate_dimensional_analyses math_sqrt answers questions →
  well_formed analysis.
Proof.
  intros Hin.
  apply analyses_entries in Hin as (a & b & first & second & _ & Hcounts & Hne & ->).
  pose proof (tally_nonnegative answers questions)
    as (He & Hi & Hs & Hn & Ht & Hf & Hj & Hp).
  unfold pair_counts in Hcounts.
  repeat (apply elem_of_cons in Hcounts as [Hcounts|Hcounts];
          [injection Hcounts as _ -> ->; apply analysis_of_well_formed; assumption|]).
  apply elem_of_nil in Hcounts as [].
Qed.

Lemma dict_get_present {V : Type} (d : Dict.t V) (k : string) (v : V) :
  (k, v) ∈ d → is_Some (Dict.get d k).
Proof.
  induction d as [|[k' v'] d IH]; intros Hin.
  - apply elem_of_nil in Hin as [].
  - cbn [Dict.get]. destruct (String.eqb_spec k' k) as [|Hne]; [eexists; reflexivity|].
    apply elem_of_cons in Hin as [[= <- <-]|Hin]; [contradiction|]. apply IH. exact Hin.
Qed.

(** X17: every analysis that the enhanced variant stores belongs to one
    of the four pairs and is computed from the two counts that the basic
    tally has for that pair: it carries the key it is stored under, the
    number of answers of the pair, the larger count and its letter (the first
    letter when the counts are equal), and its percentage, z-score and
    confidence level lie in [1/2, 1], [0, 1] and [0, 1]. *)
Theorem analyses_are_well_formed (math_sqrt : Q → Q) (answers : list AssessmentAnswer)
    (questions : gmap Z Question) (dim_key : string)
    (analysis : Enhanced.DimensionAnalysis) :
  (dim_key, analysis) ∈ Enhanced._calculate_dimensional_analyses math_sqrt answers questions →
  ∃ first_letter second_letter first second,
    (dim_key, first_letter, second_letter) ∈ letter_pairs
    ∧ (dim_key, first, second)
        ∈ pair_counts (Scoring._calculate_dimension_scores answers questions)
    ∧ Enhanced.dimension analysis = dim_key
    ∧ Enhanced.total_questions analysis = first + second
    ∧ Enhanced.raw_score analysis = Z.max first second
    ∧ Enhanced.preference_letter analysis
      = (if first >=? second then first_letter else second_letter)
    ∧ well_formed analysis.
Proof.
  intros Hin. pose proof (stored_analysis_well_formed _ _ _ _ _ Hin) as Hwf.
  apply analyses_entries in Hin as (a & b & first & second & Hletters & Hcounts & _ & ->).
  exists a, b, first, second.
  split; [exact Hletters|]. split; [exact Hcounts|]. split; [reflexivity|].
  split; [reflexivity|]. split; [|split; [reflexivity|exact Hwf]].
  unfold analysis_of. cbn [Enhanced.raw_score].
  destruct (Z.geb_spec first second); lia.
Qed.

Lemma analyses_are_well_formed_witness :
  ∃ first_letter second_letter first second,
    ("EI"%string, first_letter, second_letter) ∈ letter_pairs
    ∧ ("EI"%string, first, second)
        ∈ pair_counts (Scoring._calculate_dimension_scores
                         (session_answers Seed.world_all_A 1)
                         (active_catalog Seed.world_all_A))
    ∧ Enhanced.dimension (analysis_of approx_sqrt "EI" "E" "I" 9 0) = "EI"%string
    ∧ Enhanced.total_questions (analysis_of approx_sqrt "EI" "E" "I" 9 0) = first + second
    ∧ Enhanced.raw_score (analysis_of approx_sqrt "EI" "E" "I" 9 0) = Z.max first second
    ∧ Enhanced.preference_letter (analysis_of approx_sqrt "EI" "E" "I" 9 0)
      = (if first >=? second then first_letter else second_letter)
    ∧ well_formed (analysis_of approx_sqrt "EI" "E" "I" 9 0).
Proof.
  apply (analyses_are_well_formed approx_sqrt
           (session_answers Seed.world_all_A 1) (active_catalog Seed.world_all_A) "EI").
  vm_compute. constructor 1.
Defined.

Lemma enhanced_borderline_loop (dim : string)
    (analyses : Dict.t Enhanced.DimensionAnalysis) :
  ∀ borderline : list string,
  dim ∈ foldl
          (λ (borderline : list string) '(dim_key, analysis),
             let close_to_neutral :=
               if Qlt_le_dec (Py.abs (Enhanced.percentage analysis - 0.5)) 0.1
               then true else false in
             let low_confidence :=
               if Qlt_le_dec (Enhanced.confidence_level analysis) 0.7 then true else false in
             let high_uncertainty :=
               if Qlt_le_dec 0.15 (Enhanced.standard_error analysis) then true else false in
             if close_to_neutral || (low_confidence && high_uncertainty)
             then borderline ++ [dim_key] else borderline)
          borderline analyses
  ↔ dim ∈ borderline
    ∨ ∃ analysis, (dim, analysis) ∈ analyses
        ∧ ((Py.abs (Enhanced.percentage analysis - 0.5) < 0.1)%Q
           ∨ (Enhanced.confidence_level analysis < 0.7)%Q
             ∧ (0.15 < Enhanced.standard_error analysis)%Q).
Proof.
  induction analyses as [|[dim_key analysis] analyses IH]; intros borderline; cbn [foldl].
  - split; [tauto|]. intros [H|(s & H & _)]; [exact H|]. apply elem_of_nil in H as [].
  - rewrite IH. cbv zeta.
    destruct (Qlt_le_dec (Py.abs (Enhanced.percentage analysis - 0.5)) 0.1) as [Hc|Hc],
      (Qlt_le_dec (Enhanced.confidence_level analysis) 0.7) as [Hl|Hl],
      (Qlt_le_dec 0.15 (Enhanced.standard_error analysis)) as [Hu|Hu];
      cbn [orb andb]; rewrite ?elem_of_app, ?list_elem_of_singleton;
      (split;
       [intros [H|(s & H & Hs)];
        [try tauto;
         try (destruct H as [H| ->]; [tauto|right; exists analysis; split; [left|tauto]])
         |right; exists s; split; [right; exact H|exact Hs]]
       |intros [H|(s & H & Hs)]; [tauto|];
        apply elem_of_cons in H as [[= -> ->]|H];
        [try tauto; exfalso; destruct Hs as [Hs|[Hs1 Hs2]]; lra
        |right; exists s; tauto]]).
Qed.

(** X18: the enhanced variant reports every analysed dimension of slight
    clarity as borderline, and every dimension it reports as borderline has
    an analysis. *)
Theorem slight_dimensions_are_borderline (math_sqrt : Q → Q)
    (answers : list AssessmentAnswer) (questions : gmap Z Question) :
  let analyses := Enhanced._calculate_dimensional_analyses math_sqrt answers questions in
  let borderline := Enhanced._identify_borderline_dimensions_enhanced analyses in
  (∀ dim_key analysis,
     (dim_key, analysis) ∈ analyses →
     Enhanced.strength_category analysis = SLIGHT → dim_key ∈ borderline)
  ∧ (∀ dim_key, dim_key ∈ borderline → is_Some (Dict.get analyses dim_key)).
Proof.
  cbv zeta. unfold Enhanced._identify_borderline_dimensions_enhanced. split.
  - intros dim_key analysis Hin Hslight. apply enhanced_borderline_loop.
    right. exists analysis. split; [exact Hin|]. left.
    apply stored_analysis_well_formed in Hin
      as (_ & _ & _ & _ & [Hlo Hhi] & _ & _ & Hcategory).
    rewrite Hcategory in Hslight. unfold category_under in Hslight.
    destruct (Qlt_le_dec _ (Enhanced.PROFESSIONAL_THRESHOLDS SLIGHT)) as [Hlt|];
      [|destruct (Qlt_le_dec _ _); [discriminate|destruct (Qlt_le_dec _ _); discriminate]].
    cbn in Hlt. unfold Py.abs. apply Qabs_case; intros; lra.
  - intros dim_key Hin. apply enhanced_borderline_loop in Hin as [Hin|(analysis & Hin & _)];
      [apply elem_of_nil in Hin as []|].
    eapply dict_get_present. exact Hin.
Qed.

Lemma slight_dimensions_are_borderline_witness :
  "EI"%string
  ∈ Enhanced._identify_borderline_dimensions_enhanced
      (Enhanced._calculate_dimensional_analyses approx_sqrt
         (session_answers Seed.world_four_of_nine 1)
         (active_catalog Seed.world_four_of_nine)).
Proof.
  apply (proj1 (slight_dimensions_are_borderline approx_sqrt
                  (session_answers Seed.world_four_of_nine 1)
                  (active_catalog Seed.world_four_of_nine))
           "EI"%string (analysis_of approx_sqrt "EI" "E" "I" 4 5)).
  - vm_compute. constructor 1.
  - vm_compute. reflexivity.
Defined.

(** ** Questions per dimension and quality levels *)

Lemma questions_of_cons dim question questions :
  questions_of dim (question :: questions)
  = (if same_dimension (dimension question) dim then 1 else 0) + questions_of dim questions.
Proof.
  unfold questions_of. destruct (same_dimension (dimension question) dim) eqn:Hd.
  - rewrite filter_cons_True by exact Hd. cbn [length]. lia.
  - rewrite filter_cons_False by (rewrite Hd; discriminate). lia.
Qed.

Lemma count_questions_loop (questions : list Question) : ∀ ei sn tf jp : Z,
  foldl
    (λ (counts : gmap string Z) question,
       let dim_key := Py.str_remove "-"%char (dimension_value (dimension question)) in
       if decide (is_Some (counts !! dim_key)) then
         alter (λ c, c + 1) dim_key counts
       else counts)
    (<["JP" := jp]> (<["TF" := tf]> (<["SN" := sn]> (<["EI" := ei]> ∅)))) questions
  = <["JP" := jp + questions_of JP questions]>
      (<["TF" := tf + questions_of TF questions]>
         (<["SN" := sn + questions_of SN questions]>
            (<["EI" := ei + questions_of EI questions]> ∅))).
Proof.
  induction questions as [|question questions IH]; intros ei sn tf jp.
  - unfold questions_of. cbn. rewrite !Z.add_0_r. reflexivity.
  - cbn [foldl]. rewrite !questions_of_cons. cbv zeta.
    destruct (dimension question) eqn:Hd; cbn [dimension_value same_dimension];
      match goal with
      | |- context [decide ?P] => destruct (decide P) as [_|Hno]
      end.
    all: try (exfalso; apply Hno; vm_compute; eexists; reflexivity).
    all: change (Py.str_remove "-" "E-I") with "EI"%string;
      change (Py.str_remove "-" "S-N") with "SN"%string;
      change (Py.str_remove "-" "T-F") with "TF"%string;
      change (Py.str_remove "-" "J-P") with "JP"%string.
    + rewrite !alter_insert_ne, alter_insert_eq by discriminate.
      rewrite IH. rewrite !Z.add_0_l, Z.add_assoc. reflexivity.
    + rewrite !alter_insert_ne, alter_insert_eq by discriminate.
      rewrite IH. rewrite !Z.add_0_l, Z.add_assoc. reflexivity.
    + rewrite !alter_insert_ne, alter_insert_eq by discriminate.
      rewrite IH. rewrite !Z.add_0_l, Z.add_assoc. reflexivity.
    + rewrite alter_insert_eq.
      rewrite IH. rewrite !Z.add_0_l, Z.add_assoc. reflexivity.
Qed.

Lemma questions_of_total (questions : list Question) :
  questions_of EI questions + questions_of SN questions
  + questions_of TF questions + questions_of JP questions
  = Z.of_nat (length questions).
Proof.
  induction questions as [|question questions IH]; [reflexivity|].
  rewrite !questions_of_cons. cbn [length].
  destruct (dimension question); cbn [same_dimension]; lia.
Qed.

(** X19: [_count_questions_per_dimension] counts the questions of each
    of the four dimensions under the keys EI, SN, TF and JP, so its four
    counts add up to the number of questions. *)
Theorem questions_per_dimension_counts (questions : list Question) :
  let counts := Scoring._count_questions_per_dimension questions in
  counts !! "EI" = Some (questions_of EI questions)
  ∧ counts !! "SN" = Some (questions_of SN questions)
  ∧ counts !! "TF" = Some (questions_of TF questions)
  ∧ counts !! "JP" = Some (questions_of JP questions)
  ∧ questions_of EI questions + questions_of SN questions
    + questions_of TF questions + questions_of JP questions
    = Z.of_nat (length questions).
Proof.
  cbv zeta. unfold Scoring._count_questions_per_dimension.
  rewrite count_questions_loop, !Z.add_0_l.
  split; [reflexivity|]. split; [reflexivity|]. split; [reflexivity|].
  split; [reflexivity|]. apply questions_of_total.
Qed.

(** X20: the level "Questionable" is given exactly to the quality scores
    below the "acceptable" threshold 0.55 (the "questionable" threshold 0.40
    plays no part), and for every such score retesting is recommended,
    whatever the type confidence; retesting is not recommended exactly when
    the score is at least 0.55 and the type confidence at least 0.6. *)
Theorem questionable_quality_recommends_retesting (quality_score type_confidence : Q) :
  (Enhanced._get_quality_level quality_score = "Questionable"%string
   ↔ (quality_score < 0.55)%Q)
  ∧ (Enhanced._get_quality_level quality_score = "Questionable"%string →
     Enhanced._should_recommend_retesting quality_score type_confidence = true)
  ∧ (Enhanced._should_recommend_retesting quality_score type_confidence = false
     ↔ (0.55 <= quality_score)%Q ∧ (0.6 <= type_confidence)%Q).
Proof.
  unfold Enhanced._get_quality_level, Enhanced._should_recommend_retesting.
  change (Enhanced.QUALITY_THRESHOLDS !!! "excellent"%string) with 0.85%Q.
  change (Enhanced.QUALITY_THRESHOLDS !!! "good"%string) with 0.70%Q.
  change (Enhanced.QUALITY_THRESHOLDS !!! "acceptable"%string) with 0.55%Q.
  destruct (Qlt_le_dec quality_score 0.85), (Qlt_le_dec quality_score 0.70),
    (Qlt_le_dec quality_score 0.55), (Qlt_le_dec type_confidence 0.6);
    cbn [orb]; repeat split; intros; try discriminate; try lra;
    try match goal with H : _ ∧ _ |- _ => destruct H; lra end.
Qed.

Lemma questionable_quality_recommends_retesting_witness :
  Enhanced._should_recommend_retesting 0.5 0.9 = true.
Proof.
  apply (proj1 (proj2 (questionable_quality_recommends_retesting 0.5 0.9))).
  vm_compute. reflexivity.
Defined.

(** ** When the enhanced entry point returns *)

Lemma mean_defined (data : list Q) : data ≠ [] → ∃ m, Py.mean data = Ok m.
Proof. destruct data; [congruence|]. intros _. eexists. reflexivity. Qed.

Lemma variance_defined (data : list Q) :
  (1 <? length data)%nat = true → ∃ v, Py.variance data = Ok v.
Proof.
  intros Hlen. unfold Py.variance.
  destruct (Nat.ltb_spec (length data) 2) as [Hlt|_].
  - apply Nat.ltb_lt in Hlen. lia.
  - eexists. reflexivity.
Qed.

Lemma internal_consistency_defined (answers : list AssessmentAnswer)
    (questions : gmap Z Question) :
  ∃ consistency, Enhanced._calculate_internal_consistency answers questions = Ok consistency.
Proof.
  unfold Enhanced._calculate_internal_consistency.
  generalize (foldl (Enhanced.group_response questions)
                [("EI", []); ("SN", []); ("TF", []); ("JP", [])]%string answers).
  intros groups.
  match goal with
  | |- context [foldl ?body (Ok []) groups] =>
      assert (∀ acc : list Q, ∃ consistencies,
                foldl body (Ok acc) groups = Ok consistencies) as Hloop
  end.
  { induction groups as [|[dim responses] groups IH]; intros acc; cbn [foldl].
    - eexists. reflexivity.
    - cbn [mbind res_bind].
      destruct (1 <? length responses)%nat eqn:Hlen; [|apply IH].
      destruct (mean_defined responses) as [m ->];
        [destruct responses; [discriminate|congruence]|].
      destruct (variance_defined responses Hlen) as [v ->].
      cbn [mbind res_bind]. apply IH. }
  destruct (Hloop []) as [consistencies ->]. cbn [mbind res_bind].
  destruct consistencies as [|c consistencies]; [eexists; reflexivity|].
  apply mean_defined. discriminate.
Qed.

Lemma statistical_metrics_defined (math_sqrt : Q → Q) (answers : list AssessmentAnswer)
    (questions : gmap Z Question) (analyses : Dict.t Enhanced.DimensionAnalysis) :
  ∃ metrics,
    Enhanced._calculate_statistical_metrics math_sqrt answers questions analyses = Ok metrics.
Proof.
  unfold Enhanced._calculate_statistical_metrics.
  destruct (internal_consistency_defined answers questions) as [c ->].
  cbn [mbind res_bind]. cbv zeta.
  destruct (map Enhanced.confidence_level (Dict.values analyses)) as [|x xs] eqn:Hscores.
  - eexists. reflexivity.
  - destruct (mean_defined (x :: xs)) as [m ->]; [discriminate|]. cbn [mbind res_bind].
    destruct (1 <? length (x :: xs))%nat eqn:Hlen.
    + unfold Enhanced.stdev. destruct (variance_defined (x :: xs) Hlen) as [v ->].
      eexists. reflexivity.
    + eexists. reflexivity.
Qed.

Lemma type_stability_defined (analyses : Dict.t Enhanced.DimensionAnalysis)
    (metrics : Enhanced.StatisticalMetrics) :
  ∃ stability, Enhanced._predict_type_stability analyses metrics = Ok stability.
Proof.
  unfold Enhanced._predict_type_stability.
  destruct (map Enhanced.percentage (Dict.values analyses)) as [|x xs];
    [eexists; reflexivity|].
  destruct (map Enhanced.confidence_level (Dict.values analyses)) as [|y ys];
    [eexists; reflexivity|].
  eexists. reflexivity.
Qed.

Lemma assessment_quality_defined (metrics : Enhanced.StatisticalMetrics)
    (analyses : Dict.t Enhanced.DimensionAnalysis) :
  ∃ quality, Enhanced._calculate_assessment_quality metrics analyses = Ok quality.
Proof.
  unfold Enhanced._calculate_assessment_quality.
  destruct analyses as [|entry analyses]; [eexists; reflexivity|].
  destruct (mean_defined (map Enhanced.confidence_level (Dict.values (entry :: analyses))))
    as [m ->]; [destruct entry; discriminate|].
  eexists. reflexivity.
Qed.

Lemma confidence_notes_defined (metrics : Enhanced.StatisticalMetrics)
    (analyses : Dict.t Enhanced.DimensionAnalysis) :
  ∃ notes, Enhanced._generate_confidence_notes analyses metrics = Ok notes.
Proof.
  unfold Enhanced._generate_confidence_notes.
  destruct (assessment_quality_defined metrics analyses) as [q ->].
  eexists. reflexivity.
Qed.

Lemma clamp_positive (x : Q) : (0 < x)%Q → (0 < Py.max 0.0 (Py.min 1.0 x))%Q.
Proof.
  intros Hx. unfold Py.max, Py.min.
  destruct (Qlt_le_dec x 1.0); destruct (Qlt_le_dec 0.0 _); lra.
Qed.

(** Away from a tie the confidence level of a pair is positive, whatever
    [math.sqrt] returns. *)
Lemma confidence_level_positive (math_sqrt : Q → Q) (raw_score total_questions : Z) :
  0 < total_questions → total_questions < 2 * raw_score →
  (0 < Enhanced._calculate_confidence_level math_sqrt raw_score total_questions)%Q.
Proof.
  intros Htotal Hhalf. unfold Enhanced._calculate_confidence_level.
  destruct (Z.eqb_spec total_questions 0) as [|_]; [lia|].
  assert (1 # 2 < Py.truediv raw_score total_questions)%Q as Hp.
  { unfold Py.truediv.
    assert (0 < inject_Z total_questions)%Q as Hpos
      by (change 0%Q with (inject_Z 0); rewrite <- Zlt_Qlt; lia).
    apply Qlt_shift_div_l; [exact Hpos|].
    rewrite Zlt_Qlt, inject_Z_mult in Hhalf. change (inject_Z 2) with 2%Q in Hhalf. lra. }
  set (p := Py.truediv raw_score total_questions) in *.
  assert (0 < Py.abs (p - 0.5))%Q as Hdistance
    by (unfold Py.abs; apply Qabs_case; intros; lra).
  apply clamp_positive.
  destruct (total_questions >? 5); [|lra].
  destruct (Qlt_le_dec 0 _) as [Hmargin|_]; [|lra].
  unfold Py.min. destruct (Qlt_le_dec _ 1.0); [|lra].
  apply Qlt_shift_div_l; [exact Hmargin|]. lra.
Qed.

Lemma geometric_mean_defined (math_log math_exp : Q → Q) (data : list Q) :
  data ≠ [] → Forall (λ x, 0 < x)%Q data →
  ∃ m, Enhanced.geometric_mean math_log math_exp data = Ok m.
Proof.
  intros Hne Hall. unfold Enhanced.geometric_mean.
  destruct data as [|x data]; [congruence|].
  assert (forallb (λ x, if Qlt_le_dec 0 x then true else false) (x :: data) = true) as ->.
  { apply forallb_forall. intros y Hy. rewrite <- list_elem_of_In in Hy.
    rewrite Forall_forall in Hall. specialize (Hall y Hy).
    destruct (Qlt_le_dec 0 y); [reflexivity|lra]. }
  eexists. reflexivity.
Qed.

(** The confidence that a pair hands to the geometric mean is positive
    unless the pair is tied with answers. *)
Lemma entry_confidence_positive (math_sqrt : Q → Q)
    (dim_key first_letter second_letter : string) (first second : Z) :
  0 ≤ first → 0 ≤ second → ¬ tied_with_answers first second →
  (0 < match entry_of math_sqrt dim_key first_letter second_letter first second with
       | Some analysis => Enhanced.confidence_level analysis
       | None => 0.51
       end)%Q.
Proof.
  intros Hfirst Hsecond Htie. unfold entry_of, tied_with_answers in *.
  destruct (Z.eqb_spec (first + second) 0) as [|Hne]; [reflexivity|].
  unfold analysis_of. cbn [Enhanced.confidence_level].
  apply confidence_level_positive; [lia|].
  destruct (Z.geb_spec first second); [|lia].
  destruct (Z.eq_dec first second); [tauto|lia].
Qed.

Lemma determine_type_defined (math_sqrt math_log math_exp : Q → Q)
    (answers : list AssessmentAnswer) (questions : gmap Z Question) :
  ¬ has_tie (Scoring._calculate_dimension_scores answers questions) →
  ∃ type_code type_confidence,
    Enhanced._determine_type_with_confidence math_log math_exp
      (Enhanced._calculate_dimensional_analyses math_sqrt answers questions)
    = Ok (type_code, type_confidence).
Proof.
  intros Htie. rewrite type_confidence_is_geometric_mean.
  destruct (analyses_get math_sqrt answers questions) as (Gei & Gsn & Gtf & Gjp & _).
  pose proof (tally_nonnegative answers questions)
    as (He & Hi & Hs & Hn & Ht & Hf & Hj & Hp).
  unfold has_tie in Htie.
  cbv zeta. rewrite Gei, Gsn, Gtf, Gjp.
  edestruct (geometric_mean_defined math_log math_exp) as [m ->];
    [| |eexists; eexists; reflexivity]; [discriminate|].
  repeat (apply Forall_cons; split;
          [apply entry_confidence_positive; [assumption|assumption|tauto]|]).
  apply Forall_nil. exact I.
Qed.

(** X21: the enhanced entry point returns a result exactly for the
    completed sessions with 36 stored answers none of whose pairs is tied
    with answers, when the commit goes through, provided [math.sqrt] is
    positive on positive numbers. *)
Theorem enhanced_scoring_succeeds_without_ties (math_sqrt math_log math_exp : Q → Q)
    (sid : Z) (w : World) :
  sqrt_positive math_sqrt →
  (∃ result w',
     Enhanced.calculate_enhanced_personality_type math_sqrt math_log math_exp sid w
     = (Ok result, w'))
  ↔ (∃ session, scorable w sid session)
    ∧ commit_ok w = true
    ∧ ¬ has_tie (Scoring._calculate_dimension_scores
                   (session_answers w sid) (active_catalog w)).
Proof.
  intros Hsqrt. split.
  - intros (result & w' & Hrun).
    destruct (calculate_enhanced_inv _ _ _ sid w w' result Hrun)
      as (session & Hscorable & Hcommit & Htype & _).
    split; [exists session; exact Hscorable|]. split; [exact Hcommit|].
    intros Htie.
    rewrite (determine_type_raises_on_tie math_sqrt math_log math_exp) in Htype
      by assumption.
    discriminate.
  - intros ([session Hscorable] & Hcommit & Htie).
    unfold Enhanced.calculate_enhanced_personality_type.
    unfold mbind at 1, M_bind at 1.
    rewrite (validate_and_get_data_ok sid w session Hscorable). cbv beta iota zeta.
    set (answers := session_answers w sid). set (questions := active_catalog w).
    set (analyses := Enhanced._calculate_dimensional_analyses math_sqrt answers questions).
    destruct (determine_type_defined math_sqrt math_log math_exp answers questions Htie)
      as (type_code & type_confidence & Htype).
    destruct (statistical_metrics_defined math_sqrt answers questions analyses)
      as [metrics Hmetrics].
    destruct (type_stability_defined analyses metrics) as [stability Hstability].
    destruct (assessment_quality_defined metrics analyses) as [quality Hquality].
    destruct (confidence_notes_defined metrics analyses) as [notes Hnotes].
    fold analyses in Htype.
    unfold mbind, M_bind, lift, mret, M_ret.
    rewrite Htype. cbv beta iota. rewrite Hmetrics. cbv beta iota.
    rewrite Hstability. cbv beta iota. rewrite Hquality. cbv beta iota.
    rewrite Hnotes. cbv beta iota.
    unfold query_personality_type, Enhanced._update_session_with_enhanced_results,
      commit_session, mbind, M_bind, query_personality_type.
    cbv beta iota. rewrite Hcommit.
    eexists. eexists. reflexivity.
Qed.

Lemma enhanced_scoring_succeeds_without_ties_witness :
  ∃ result w',
    Enhanced.calculate_enhanced_personality_type approx_sqrt (λ x, x) (λ x, x)
      1 Seed.world_four_of_nine
    = (Ok result, w').
Proof.
  apply (enhanced_scoring_succeeds_without_ties approx_sqrt (λ x, x) (λ x, x) 1
           Seed.world_four_of_nine approx_sqrt_positive).
  split; [|split].
  - exists (Seed.fresh_session true). unfold scorable. repeat split; vm_compute; reflexivity.
  - reflexivity.
  - unfold has_tie, tied_with_answers. vm_compute. intros [[H _]|[[H _]|[[H _]|[H _]]]]; discriminate H.
Defined.

(** ** Bounds of the scores of a result *)

Lemma sum_loop_at_most (data : list Q) (bound : Q) : ∀ acc : Q,
  Forall (λ x, x <= bound)%Q data →
  (foldl Qplus acc data <= acc + Py.of_nat (length data) * bound)%Q.
Proof.
  induction data as [|x data IH]; intros acc Hall.
  - cbn [foldl length]. unfold Py.of_nat. change (inject_Z (Z.of_nat 0)) with 0%Q. lra.
  - apply Forall_cons in Hall as [Hx Hall]. cbn [foldl length].
    specialize (IH (acc + x)%Q Hall).
    unfold Py.of_nat in *. rewrite Nat2Z.inj_succ, <- Z.add_1_r, inject_Z_plus.
    change (inject_Z 1) with 1%Q. lra.
Qed.

Lemma sum_loop_at_least (data : list Q) : ∀ acc : Q,
  Forall (λ x, 0 <= x)%Q data → (acc <= foldl Qplus acc data)%Q.
Proof.
  induction data as [|x data IH]; intros acc Hall.
  - cbn. lra.
  - apply Forall_cons in Hall as [Hx Hall]. cbn [foldl].
    specialize (IH (acc + x)%Q Hall). lra.
Qed.

Lemma length_positive {A : Type} (data : list A) :
  data ≠ [] → (0 < Py.of_nat (length data))%Q.
Proof.
  intros Hne. unfold Py.of_nat. change 0%Q with (inject_Z 0). rewrite <- Zlt_Qlt.
  destruct data; [congruence|cbn [length]; lia].
Qed.

(** The mean of numbers that are at most [bound] is at most [bound]. *)
Lemma mean_at_most (data : list Q) (bound mean : Q) :
  Forall (λ x, x <= bound)%Q data → Py.mean data = Ok mean → (mean <= bound)%Q.
Proof.
  intros Hall Hmean. unfold Py.mean in Hmean.
  destruct data as [|x data]; [discriminate|]. injection Hmean as <-.
  pose proof (length_positive (x :: data) ltac:(discriminate)) as Hpos.
  apply Qle_shift_div_r; [exact Hpos|].
  pose proof (sum_loop_at_most (x :: data) bound 0 Hall) as Hsum.
  unfold Py.sum. cbn [length] in *. lra.
Qed.

Lemma square_nonnegative (a : Q) : (0 <= a * a)%Q.
Proof.
  destruct (Qlt_le_dec a 0) as [H|H].
  - assert (a * a == (- a) * (- a))%Q as -> by ring.
    apply Qmult_le_0_compat; lra.
  - apply Qmult_le_0_compat; lra.
Qed.

(** The sample variance is not negative. *)
Lemma variance_nonnegative (data : list Q) (variance : Q) :
  Py.variance data = Ok variance → (0 <= variance)%Q.
Proof.
  unfold Py.variance. destruct (Nat.ltb_spec (length data) 2) as [|Hlen]; [discriminate|].
  intros [= <-].
  assert (0 < Py.of_nat (length data) - 1)%Q as Hpos.
  { assert (2 <= Py.of_nat (length data))%Q as Htwo
      by (unfold Py.of_nat; change 2%Q with (inject_Z 2); rewrite <- Zle_Qle; lia).
    lra. }
  apply Qle_shift_div_l; [exact Hpos|]. rewrite Qmult_0_l.
  unfold Py.sum. apply sum_loop_at_least.
  apply Forall_forall. intros y Hy. apply list_elem_of_fmap in Hy as (x & -> & _).
  apply square_nonnegative.
Qed.

(** The internal consistency is at most 1 (it can be negative). *)
Lemma internal_consistency_at_most_one (answers : list AssessmentAnswer)
    (questions : gmap Z Question) (consistency : Q) :
  Enhanced._calculate_internal_consistency answers questions = Ok consistency →
  (consistency <= 1)%Q.
Proof.
  unfold Enhanced._calculate_internal_consistency.
  generalize (foldl (Enhanced.group_response questions)
                [("EI", []); ("SN", []); ("TF", []); ("JP", [])]%string answers).
  intros groups.
  match goal with
  | |- context [foldl ?body (Ok []) groups] =>
      assert (∀ acc consistencies,
                Forall (λ x, x <= 1)%Q acc →
                foldl body (Ok acc) groups = Ok consistencies →
                Forall (λ x, x <= 1)%Q consistencies) as Hloop
  end.
  { induction groups as [|[dim responses] groups IH]; intros acc consistencies Hacc;
      cbn [foldl].
    - intros [= <-]. exact Hacc.
    - cbn [mbind res_bind].
      destruct (1 <? length responses)%nat eqn:Hlen; [|apply IH; exact Hacc].
      destruct (Py.mean responses) as [m|]; cbn [mbind res_bind].
      + destruct (Py.variance responses) as [v|] eqn:Hv; cbn [mbind res_bind].
        * apply IH. apply Forall_app. split; [exact Hacc|].
          apply Forall_cons. split; [|apply Forall_nil; exact I].
          apply variance_nonnegative in Hv.
          destruct (Qlt_le_dec 0 0.25); [|lra].
          assert (0 <= v / 0.25)%Q by (apply Qle_shift_div_l; lra). lra.
        * clear. induction groups as [|[d r] groups IH]; [discriminate|exact IH].
      + clear. induction groups as [|[d r] groups IH]; [discriminate|exact IH]. }
  destruct (foldl _ (Ok []) groups) as [consistencies|] eqn:Hfold; [|discriminate].
  cbn [mbind res_bind]. apply Hloop in Hfold; [|apply Forall_nil; exact I].
  destruct consistencies as [|c consistencies]; [intros [= <-]; lra|].
  apply mean_at_most. exact Hfold.
Qed.

Lemma extreme_response_bias_bounds (answers : list AssessmentAnswer) :
  (0 <= Enhanced._calculate_extreme_response_bias answers
   ∧ Enhanced._calculate_extreme_response_bias answers <= 1)%Q.
Proof.
  unfold Enhanced._calculate_extreme_response_bias.
  destruct answers as [|answer answers]; [split; lra|].
  set (all := answer :: answers). fold (a_count all).
  assert (a_count all ≤ length all)%nat as Hle by apply length_filter.
  destruct (ratio_unit (Z.of_nat (a_count all)) (Z.of_nat (length all))) as [H0 H1];
    [lia|cbn [length all]; lia|].
  destruct (distance_unit _ H0 H1) as (Hlo & Hhi & _). split; assumption.
Qed.

Lemma acquiescence_bias_bounds (answers : list AssessmentAnswer)
    (questions : gmap Z Question) :
  (0 <= Enhanced._calculate_acquiescence_bias answers questions
   ∧ Enhanced._calculate_acquiescence_bias answers questions <= 1)%Q.
Proof.
  unfold Enhanced._calculate_acquiescence_bias.
  destruct answers as [|answer answers]; [split; lra|].
  change (0, 0) with (first_letters Scoring.no_scores, counted Scoring.no_scores).
  rewrite acquiescence_loop.
  fold (Scoring._calculate_dimension_scores (answer :: answers) questions).
  pose proof (tally_nonnegative (answer :: answers) questions)
    as (He & Hi & Hs & Hn & Ht & Hf & Hj & Hp).
  set (scores := Scoring._calculate_dimension_scores (answer :: answers) questions) in *.
  destruct (Z.eqb_spec (counted scores) 0) as [|Hne]; [split; lra|].
  destruct (ratio_unit (first_letters scores) (counted scores)) as [H0 H1];
    [unfold first_letters, counted; lia|unfold counted in *; lia|].
  destruct (distance_unit _ H0 H1) as (Hlo & Hhi & _). split; assumption.
Qed.

Lemma statistical_metrics_bounds (math_sqrt : Q → Q) (answers : list AssessmentAnswer)
    (questions : gmap Z Question) (analyses : Dict.t Enhanced.DimensionAnalysis)
    (metrics : Enhanced.StatisticalMetrics) :
  Enhanced._calculate_statistical_metrics math_sqrt answers questions analyses = Ok metrics →
  (Enhanced.internal_consistency metrics <= 1
   ∧ (0 <= Enhanced.response_consistency metrics
      ∧ Enhanced.response_consistency metrics <= 1)
   ∧ (0 <= Enhanced.extreme_response_bias metrics
      ∧ Enhanced.extreme_response_bias metrics <= 1)
   ∧ (0 <= Enhanced.acquiescence_bias metrics
      ∧ Enhanced.acquiescence_bias metrics <= 1)
   ∧ (0 <= (Enhanced.confidence_interval metrics).1
      ∧ (Enhanced.confidence_interval metrics).2 <= 1))%Q.
Proof.
  unfold Enhanced._calculate_statistical_metrics.
  destruct (Enhanced._calculate_internal_consistency answers questions)
    as [consistency|] eqn:Hconsistency; [|discriminate].
  apply internal_consistency_at_most_one in Hconsistency.
  cbn [mbind res_bind]. cbv zeta.
  destruct (match map Enhanced.confidence_level (Dict.values analyses) with
            | [] => Ok (0.0%Q, 1.0%Q)
            | _ => _
            end) as [[lower upper]|] eqn:Hinterval; [|discriminate].
  intros [= <-].
  cbn [Enhanced.internal_consistency Enhanced.response_consistency
       Enhanced.extreme_response_bias Enhanced.acquiescence_bias
       Enhanced.confidence_interval fst snd].
  split; [exact Hconsistency|]. split; [apply response_consistency_unit|].
  split; [apply extreme_response_bias_bounds|].
  split; [apply acquiescence_bias_bounds|].
  destruct (map Enhanced.confidence_level (Dict.values analyses)) as [|x xs].
  - injection Hinterval as <- <-. split; lra.
  - destruct (Py.mean (x :: xs)) as [m|]; [|discriminate Hinterval].
    cbn [mbind res_bind] in Hinterval.
    destruct (if (1 <? length (x :: xs))%nat then _ else _) as [s|];
      [|discriminate Hinterval].
    cbn [mbind res_bind] in Hinterval. injection Hinterval as <- <-.
    unfold Py.max, Py.min. split.
    + destruct (Qlt_le_dec 0.0 _); lra.
    + destruct (Qlt_le_dec _ 1.0); lra.
Qed.

(** The quality score is a mean of numbers that are at most 1. *)
Lemma assessment_quality_at_most_one (metrics : Enhanced.StatisticalMetrics)
    (analyses : Dict.t Enhanced.DimensionAnalysis) (quality : Q) :
  (Enhanced.internal_consistency metrics <= 1)%Q →
  (Enhanced.response_consistency metrics <= 1)%Q →
  (0 <= Enhanced.extreme_response_bias metrics)%Q →
  (0 <= Enhanced.acquiescence_bias metrics)%Q →
  Forall (λ analysis, Enhanced.confidence_level analysis <= 1)%Q (Dict.values analyses) →
  Enhanced._calculate_assessment_quality metrics analyses = Ok quality →
  (quality <= 1)%Q.
Proof.
  intros Hic Hrc Heb Hab Hconfidence. unfold Enhanced._calculate_assessment_quality.
  destruct analyses as [|entry analyses].
  - cbn [mbind res_bind]. apply mean_at_most.
    repeat (apply Forall_cons; split; [lra|]). apply Forall_nil. exact I.
  - destruct (Py.mean _) as [avg_confidence|] eqn:Hmean; [|discriminate].
    cbn [mbind res_bind]. apply mean_at_most.
    apply (mean_at_most _ 1) in Hmean;
      [|apply Forall_fmap; exact Hconfidence].
    cbn [app]. repeat (apply Forall_cons; split; [lra|]). apply Forall_nil. exact I.
Qed.

Section EnhancedScores.
Variables math_sqrt math_log math_exp : Q → Q.

(** The scores that a successful run of the enhanced entry point put into
    its result. *)
Lemma calculate_enhanced_scores_inv (sid : Z) (w w' : World)
    (result : Enhanced.EnhancedPersonalityResult) :
  Enhanced.calculate_enhanced_personality_type math_sqrt math_log math_exp sid w
  = (Ok result, w') →
  let answers := session_answers w sid in
  let questions := active_catalog w in
  let analyses := Enhanced._calculate_dimensional_analyses math_sqrt answers questions in
  Enhanced._calculate_statistical_metrics math_sqrt answers questions analyses
  = Ok (Enhanced.statistical_metrics result)
  ∧ Enhanced._predict_type_stability analyses (Enhanced.statistical_metrics result)
    = Ok (Enhanced.type_stability_prediction result)
  ∧ Enhanced._calculate_assessment_quality (Enhanced.statistical_metrics result) analyses
    = Ok (Enhanced.assessment_quality_score result)
  ∧ Enhanced.retesting_recommended result
    = Enhanced._should_recommend_retesting (Enhanced.assessment_quality_score result)
        (Enhanced.type_confidence result)
  ∧ Enhanced.borderline_dimensions result
    = Enhanced._identify_borderline_dimensions_enhanced analyses.
Proof.
  intros Hrun. unfold Enhanced.calculate_enhanced_personality_type in Hrun.
  unfold mbind at 1, M_bind at 1 in Hrun.
  destruct (Enhanced._validate_and_get_data sid w)
    as [[[[session answers] questions]|e] w1] eqn:Hdata; [|discriminate Hrun].
  apply validate_and_get_data_inv in Hdata as (-> & Hscorable & -> & ->).
  cbv zeta in Hrun.
  unfold mbind, M_bind, lift, mret, M_ret, query_personality_type,
    Enhanced._update_session_with_enhanced_results, commit_session in Hrun.
  destruct (Enhanced._determine_type_with_confidence _ _ _)
    as [[type_code type_confidence]|] eqn:Htype; [|discriminate Hrun].
  cbv beta iota in Hrun.
  destruct (Enhanced._calculate_statistical_metrics _ _ _ _) as [metrics|] eqn:Hmetrics;
    [|discriminate Hrun].
  cbv beta iota in Hrun.
  destruct (Enhanced._predict_type_stability _ _) as [stability|] eqn:Hstability;
    [|discriminate Hrun].
  cbv beta iota in Hrun.
  destruct (Enhanced._calculate_assessment_quality _ _) as [quality|] eqn:Hquality;
    [|discriminate Hrun].
  cbv beta iota in Hrun.
  destruct (Enhanced._generate_confidence_notes _ _) as [notes|]; [|discriminate Hrun].
  cbv beta iota in Hrun. cbn [Enhanced.type_code] in Hrun.
  unfold mbind, M_bind, query_personality_type in Hrun. cbv beta iota in Hrun.
  destruct (commit_ok w); cbv beta iota in Hrun; [|discriminate Hrun].
  injection Hrun as <- _. cbv zeta.
  cbn [Enhanced.statistical_metrics Enhanced.type_stability_prediction
       Enhanced.assessment_quality_score Enhanced.retesting_recommended
       Enhanced.type_confidence Enhanced.borderline_dimensions].
  repeat split; assumption || reflexivity.
Qed.

End EnhancedScores.

(** X22: in every result that the enhanced entry point returns, the
    response consistency, the two response biases and the stability
    prediction lie in [0, 1], the confidence interval lies within [0, 1], and
    the internal consistency and the quality score are at most 1. *)
Theorem enhanced_result_bounds (math_sqrt math_log math_exp : Q → Q)
    (sid : Z) (w w' : World) (result : Enhanced.EnhancedPersonalityResult) :
  Enhanced.calculate_enhanced_personality_type math_sqrt math_log math_exp sid w
  = (Ok result, w') →
  let metrics := Enhanced.statistical_metrics result in
  (Enhanced.internal_consistency metrics <= 1
   ∧ (0 <= Enhanced.response_consistency metrics
      ∧ Enhanced.response_consistency metrics <= 1)
   ∧ (0 <= Enhanced.extreme_response_bias metrics
      ∧ Enhanced.extreme_response_bias metrics <= 1)
   ∧ (0 <= Enhanced.acquiescence_bias metrics
      ∧ Enhanced.acquiescence_bias metrics <= 1)
   ∧ (0 <= (Enhanced.confidence_interval metrics).1
      ∧ (Enhanced.confidence_interval metrics).2 <= 1)
   ∧ (0 <= Enhanced.type_stability_prediction result
      ∧ Enhanced.type_stability_prediction result <= 1)
   ∧ Enhanced.assessment_quality_score result <= 1)%Q.
Proof.
  intros Hrun. cbv zeta.
  destruct (calculate_enhanced_scores_inv _ _ _ sid w w' result Hrun)
    as (Hmetrics & Hstability & Hquality & _).
  pose proof (statistical_metrics_bounds _ _ _ _ _ Hmetrics)
    as (Hic & Hrc & Heb & Hab & Hci).
  split; [exact Hic|]. split; [exact Hrc|]. split; [exact Heb|].
  split; [exact Hab|]. split; [exact Hci|].
  split; [exact (type_stability_unit _ _ _ Hstability)|].
  eapply assessment_quality_at_most_one; [exact Hic|apply Hrc|apply Heb|apply Hab| |exact Hquality].
  apply Forall_forall. intros analysis Hin.
  apply list_elem_of_fmap in Hin as ([dim_key analysis'] & -> & Hin).
  apply stored_analysis_well_formed in Hin as (_ & _ & _ & _ & _ & _ & [_ Hle] & _).
  exact Hle.
Qed.

Lemma enhanced_result_bounds_witness :
  ∃ result w',
    Enhanced.calculate_enhanced_personality_type approx_sqrt (λ x, x) (λ x, x)
      1 Seed.world_four_of_nine = (Ok result, w')
    ∧ (Enhanced.internal_consistency (Enhanced.statistical_metrics result) <= 1)%Q
    ∧ (Enhanced.assessment_quality_score result <= 1)%Q.
Proof.
  destruct (Enhanced.calculate_enhanced_personality_type approx_sqrt (λ x, x) (λ x, x)
              1 Seed.world_four_of_nine) as [[result|e] w'] eqn:Hrun.
  - pose proof (enhanced_result_bounds approx_sqrt (λ x, x) (λ x, x) 1
                  Seed.world_four_of_nine w' result Hrun)
      as (Hic & _ & _ & _ & _ & _ & Hquality).
    exists result, w'. repeat split; assumption.
  - vm_compute in Hrun. discriminate Hrun.
Defined.
